(** * Trend-analysis orchestration of the water-flow monitoring service

    A shallow embedding of the Python sources [main.py] (the service with the
    in-memory analysis trigger) and [logic.py] (the cyclic reasoning system and
    the service variant appended to it), together with a model of the parts of
    the Python runtime they rest on: [str] methods, [dict.get], [float()],
    [json.loads] / [json.dumps], and the ordered reads of the storage layer.

    Conventions of the embedding.
    - A Python [str] is a list of Unicode code points ([pystr]).
    - A Python exception is a value [Raise e]; a [try]/[except Exception] is a
      case analysis on that value.
    - A Python [float] is modelled by the decimal number it denotes
      ([pyfloat]); binary64 rounding, overflow to infinity and the
      [OverflowError] of [float(int)] are outside the model.
    - A table of the storage engine is the list of its rows in insertion
      order, and [datetime.now()] is an input of each operation. What
      [execute] refuses while it binds the parameters and tests NOT NULL is
      modelled for the INSERT of a trend
      ([Main.guardar_analisis_tendencia_call]). The other operations are
      given for parameters the binding takes, and the statements about them
      carry that as hypotheses: limits and offsets that fit in 64 bits, texts
      in the TEXT columns. The date functions of the engine ([strftime],
      [datetime('now', ...)]) are inputs too; its aggregates are computed
      exactly.
    - The recursion limit of the interpreter is outside the model:
      [json_loads] reads an answer of any depth, where Python raises
      [RecursionError] beyond the limit. Statements about handlers that tell
      exceptions apart are made by cases on what the decoder returns or
      raises.
    - Log output has no influence on results and is omitted. *)

From Stdlib Require Import Ascii String.
From Stdlib Require Import List ZArith NArith QArith Qabs Bool Lia.
From Stdlib Require Import Sorting.Permutation Sorting.Sorted.
From Stdlib Require Import DecimalN DecimalZ.
From Stdlib Require DecimalFacts.
Import ListNotations.

Set Implicit Arguments.
Local Open Scope Z_scope.

(** ** Python strings *)

Definition pystr := list N.

(** Decoder for the UTF-8 text of string literals of this file; sources are
    UTF-8, so a literal such as ["análisis"] denotes the code points of the
    Python literal. Ill-formed sequences do not occur in the literals used. *)
Fixpoint utf8_decode (l : list N) : pystr :=
  match l with
  | [] => []
  | b0 :: r0 =>
      if (b0 <? 128)%N then b0 :: utf8_decode r0
      else match r0 with
      | [] => [b0]
      | b1 :: r1 =>
          if (b0 <? 224)%N then
            ((b0 - 192) * 64 + (b1 - 128))%N :: utf8_decode r1
          else match r1 with
          | [] => [b0; b1]
          | b2 :: r2 =>
              if (b0 <? 240)%N then
                ((b0 - 224) * 4096 + (b1 - 128) * 64 + (b2 - 128))%N
                  :: utf8_decode r2
              else match r2 with
              | [] => [b0; b1; b2]
              | b3 :: r3 =>
                  ((b0 - 240) * 262144 + (b1 - 128) * 4096
                   + (b2 - 128) * 64 + (b3 - 128))%N :: utf8_decode r3
              end
          end
      end
  end.

Definition u (s : string) : pystr :=
  utf8_decode (map N_of_ascii (list_ascii_of_string s)).

Definition pystr_eqb (a b : pystr) : bool :=
  if list_eq_dec N.eq_dec a b then true else false.

(** Characters used by the code, by code point. *)
Definition c_quote : N := 34.
Definition c_plus : N := 43.
Definition c_comma : N := 44.
Definition c_minus : N := 45.
Definition c_dot : N := 46.
Definition c_slash : N := 47.
Definition c_zero : N := 48.
Definition c_colon : N := 58.
Definition c_lbracket : N := 91.
Definition c_backslash : N := 92.
Definition c_rbracket : N := 93.
Definition c_underscore : N := 95.
Definition c_lbrace : N := 123.
Definition c_rbrace : N := 125.

(** [str.isspace] for one character: the characters whose bidirectional type
    is WS, B or S, or whose category is Zs. *)
Definition py_isspace (c : N) : bool :=
  ((9 <=? c) && (c <=? 13) || (28 <=? c) && (c <=? 32)
   || (c =? 133) || (c =? 160) || (c =? 5760)
   || (8192 <=? c) && (c <=? 8202)
   || (c =? 8232) || (c =? 8233) || (c =? 8239) || (c =? 8287)
   || (c =? 12288))%N.

Fixpoint lstrip (s : pystr) : pystr :=
  match s with
  | c :: r => if py_isspace c then lstrip r else s
  | [] => []
  end.

Definition rstrip (s : pystr) : pystr := rev (lstrip (rev s)).

(** [s.strip()] *)
Definition strip (s : pystr) : pystr := rstrip (lstrip s).

(** [s.find(c)] for a one-character needle: index of the first occurrence,
    or -1. *)
Fixpoint find (c : N) (s : pystr) : Z :=
  match s with
  | [] => -1
  | x :: r =>
      if (x =? c)%N then 0
      else let i := find c r in if i <? 0 then -1 else i + 1
  end.

(** [s.rfind(c)]: index of the last occurrence, or -1. *)
Fixpoint rfind (c : N) (s : pystr) : Z :=
  match s with
  | [] => -1
  | x :: r =>
      let i := rfind c r in
      if 0 <=? i then i + 1 else if (x =? c)%N then 0 else -1
  end.

(** Python slicing [s[i:j]] with step 1: negative indices count from the end,
    and both ends are clipped to the sequence. *)
Definition clip_index {A} (s : list A) (i : Z) : Z :=
  let n := Z.of_nat (length s) in
  let i' := if i <? 0 then i + n else i in
  Z.max 0 (Z.min n i').

Definition py_slice {A} (s : list A) (i j : Z) : list A :=
  let a := clip_index s i in
  let b := clip_index s j in
  firstn (Z.to_nat (b - a)) (skipn (Z.to_nat a) s).

(** [sep.join(parts)] *)
Fixpoint join (sep : pystr) (parts : list pystr) : pystr :=
  match parts with
  | [] => []
  | [p] => p
  | p :: rest => p ++ sep ++ join sep rest
  end.

(** ** Exceptions *)

(** The classes the handlers of the program tell apart, and the ones the
    runtime raises on the paths modelled. [JSONDecodeError] is kept apart
    from the [ValueError] it derives from; [ServiceError] stands for what the
    client library raises; [SqliteError] for [sqlite3.Error] and its
    subclasses. *)
Inductive exn_kind :=
| AttributeError | TypeError | ValueError | JSONDecodeError
| RecursionError | ServiceError | OverflowError | SqliteError.

Record exn := mkExn { ekind : exn_kind; emsg : pystr }.

Inductive res (A : Type) :=
| Ok (a : A)
| Raise (e : exn).
Arguments Ok {A} a.
Arguments Raise {A} e.

Definition bind {A B} (m : res A) (k : A -> res B) : res B :=
  match m with
  | Ok a => k a
  | Raise e => Raise e
  end.

Notation "x <- m ;; k" := (bind m (fun x => k))
  (at level 61, m at next level, right associativity).
Notation "' p <- m ;; k" := (bind m (fun x => let p := x in k))
  (at level 61, p pattern, m at next level, right associativity).

(** [try: body  except Exception: handler] *)
Definition try_except {A} (body : res A) (handler : exn -> res A) : res A :=
  match body with
  | Ok a => Ok a
  | Raise e => handler e
  end.

Definition raise {A} (k : exn_kind) (msg : string) : res A :=
  Raise (mkExn k (u msg)).

(** ** Decimal numerals *)

Definition is_digit (c : N) : bool := ((48 <=? c) && (c <=? 57))%N.

Fixpoint uint_chars (d : Decimal.uint) : pystr :=
  match d with
  | Decimal.Nil => []
  | Decimal.D0 r => 48%N :: uint_chars r
  | Decimal.D1 r => 49%N :: uint_chars r
  | Decimal.D2 r => 50%N :: uint_chars r
  | Decimal.D3 r => 51%N :: uint_chars r
  | Decimal.D4 r => 52%N :: uint_chars r
  | Decimal.D5 r => 53%N :: uint_chars r
  | Decimal.D6 r => 54%N :: uint_chars r
  | Decimal.D7 r => 55%N :: uint_chars r
  | Decimal.D8 r => 56%N :: uint_chars r
  | Decimal.D9 r => 57%N :: uint_chars r
  end.

(** Reads a run of characters already known to be ASCII digits. *)
Fixpoint chars_uint (s : pystr) : Decimal.uint :=
  match s with
  | [] => Decimal.Nil
  | c :: r =>
      let k := chars_uint r in
      if (c =? 48)%N then Decimal.D0 k else if (c =? 49)%N then Decimal.D1 k
      else if (c =? 50)%N then Decimal.D2 k else if (c =? 51)%N then Decimal.D3 k
      else if (c =? 52)%N then Decimal.D4 k else if (c =? 53)%N then Decimal.D5 k
      else if (c =? 54)%N then Decimal.D6 k else if (c =? 55)%N then Decimal.D7 k
      else if (c =? 56)%N then Decimal.D8 k else Decimal.D9 k
  end.

(** [str(n)] for a natural number, and [int(s)] for a run of digits. *)
Definition str_of_N (n : N) : pystr := uint_chars (N.to_uint n).
Definition digits_value (s : pystr) : N := N.of_uint (chars_uint s).

(** [str(z)] / [repr(z)] for an [int]. *)
Definition str_of_Z (z : Z) : pystr :=
  if z <? 0 then c_minus :: str_of_N (Z.abs_N z) else str_of_N (Z.abs_N z).

(** ** Python floats, as the decimals they denote *)

(** [mkDec s ds p] is the number [(-1)^s * 0.d1 d2 ... dn * 10^p]; [ds] holds
    the characters of the significant digits, without leading or trailing
    zeros, and is empty for zero (with [p = 0]). *)
Record dec := mkDec { dneg : bool; ddigits : pystr; dpt : Z }.

Inductive pyfloat :=
| FFin (d : dec)
| FInf (neg : bool)
| FNaN.

Fixpoint strip_zeros (s : pystr) : pystr :=
  match s with
  | c :: r => if (c =? c_zero)%N then strip_zeros r else s
  | [] => []
  end.

Definition rstrip_zeros (s : pystr) : pystr := rev (strip_zeros (rev s)).

(** The decimal with sign [neg] and value [0.ds * 10^pt], normalised. *)
Definition dec_of_digits (neg : bool) (ds : pystr) (pt : Z) : dec :=
  let ds1 := strip_zeros ds in
  let ds2 := rstrip_zeros ds1 in
  match ds2 with
  | [] => mkDec neg [] 0
  | _ => mkDec neg ds2 (pt - Z.of_nat (List.length ds - List.length ds1))
  end.

(** [float(z)] for an [int]. *)
Definition float_of_Z (z : Z) : pyfloat :=
  let ds := str_of_N (Z.abs_N z) in
  FFin (dec_of_digits (z <? 0) ds (Z.of_nat (List.length ds))).

(** The representation invariant of [dec]. *)
Definition dec_canonical (d : dec) : bool :=
  forallb is_digit (ddigits d)
  && match ddigits d with
     | [] => dpt d =? 0
     | c :: _ =>
         negb (c =? c_zero)%N && negb (last (ddigits d) c =? c_zero)%N
     end.

Definition float_canonical (f : pyfloat) : bool :=
  match f with FFin d => dec_canonical d | _ => true end.

(** The rational denoted by a decimal. *)
Definition Q_of_dec (d : dec) : Q :=
  let m := Z.of_N (digits_value (ddigits d)) in
  let e := dpt d - Z.of_nat (List.length (ddigits d)) in
  let q := if 0 <=? e then inject_Z (m * 10 ^ e)
           else Qmake m (Z.to_pos (10 ^ (- e))) in
  if dneg d then Qopp q else q.

Definition zeros (n : Z) : pystr := repeat c_zero (Z.to_nat n).

Definition exp_chars (e : Z) : pystr :=
  let ds := str_of_N (Z.abs_N e) in
  (if e <? 0 then c_minus else c_plus)
    :: (if (List.length ds <? 2)%nat then c_zero :: ds else ds).

(** [repr(x)] for a finite float, after the sign: the layout CPython gives
    to the digits [ds] with decimal point position [p], positional from 1e-4
    up to 1e16 and scientific outside. *)
Definition dec_body (ds : pystr) (p : Z) : pystr :=
  let n := Z.of_nat (List.length ds) in
  match ds with
  | [] => u "0.0"
  | d1 :: rest =>
      if (p <=? -4) || (16 <? p) then
        d1 :: (match rest with [] => [] | _ => c_dot :: rest end)
           ++ 101%N :: exp_chars (p - 1)
      else if p <=? 0 then
        c_zero :: c_dot :: zeros (- p) ++ ds
      else if n <=? p then
        ds ++ zeros (p - n) ++ u ".0"
      else
        firstn (Z.to_nat p) ds ++ c_dot :: skipn (Z.to_nat p) ds
  end.

Definition dec_repr (d : dec) : pystr :=
  (if dneg d then [c_minus] else []) ++ dec_body (ddigits d) (dpt d).

(** [repr(x)] / [str(x)] for a float. *)
Definition float_repr (f : pyfloat) : pystr :=
  match f with
  | FFin d => dec_repr d
  | FInf false => u "inf"
  | FInf true => u "-inf"
  | FNaN => u "nan"
  end.

(** Order of two finite floats, by value. *)
Definition dec_ltb (a b : dec) : bool :=
  negb (Qle_bool (Q_of_dec b) (Q_of_dec a)).

(** [max(l)] and [min(l)] of a non-empty list keep the first extremal item. *)
Definition py_max (x : dec) (l : list dec) : dec :=
  fold_left (fun best y => if dec_ltb best y then y else best) l x.
Definition py_min (x : dec) (l : list dec) : dec :=
  fold_left (fun best y => if dec_ltb y best then y else best) l x.

(** [sum(l)], exactly. *)
Definition py_sum (l : list dec) : Q :=
  fold_left (fun acc y => Qred (acc + Q_of_dec y)) l (0 # 1)%Q.

(** Nearest integer of a non-negative rational, ties to even. *)
Definition round_half_even (q : Q) : Z :=
  let n := Qnum q in
  let d := Z.pos (Qden q) in
  let fl := n / d in
  let r2 := 2 * (n mod d) in
  if r2 <? d then fl
  else if d <? r2 then fl + 1
  else if Z.even fl then fl else fl + 1.

(** [format(x, ".2f")] for the number of sign [neg] and magnitude [mag]. *)
Definition format_2f (neg : bool) (mag : Q) : pystr :=
  let n := round_half_even (mag * (100 # 1))%Q in
  let cents := str_of_N (Z.to_N (n mod 100)) in
  (if neg then [c_minus] else [])
    ++ str_of_N (Z.to_N (n / 100)) ++ c_dot
    :: (if (List.length cents <? 2)%nat then c_zero :: cents else cents).

Definition format_2f_dec (d : dec) : pystr :=
  format_2f (dneg d) (Qabs (Q_of_dec d)).

Definition format_2f_Q (q : Q) : pystr :=
  format_2f (negb (Qle_bool 0 q)) (Qabs q).

(** ** Python values *)

Unset Elimination Schemes.
Inductive pyval :=
| PNone
| PBool (b : bool)
| PInt (z : Z)
| PFloat (f : pyfloat)
| PStr (s : pystr)
| PList (l : list pyval)
| PDict (d : list (pystr * pyval)).
Set Elimination Schemes.

Definition pydict := list (pystr * pyval).

(** [d.get(k, default)] *)
Fixpoint dict_get (d : pydict) (k : pystr) (default : pyval) : pyval :=
  match d with
  | [] => default
  | (k', v) :: r => if pystr_eqb k' k then v else dict_get r k default
  end.

(** [k in d] *)
Fixpoint dict_mem (d : pydict) (k : pystr) : bool :=
  match d with
  | [] => false
  | (k', _) :: r => pystr_eqb k' k || dict_mem r k
  end.

(** [d[k] = v]: replaces the value of an existing key in place, appends a new
    key at the end. *)
Fixpoint dict_set (d : pydict) (k : pystr) (v : pyval) : pydict :=
  match d with
  | [] => [(k, v)]
  | (k', v') :: r =>
      if pystr_eqb k' k then (k', v) :: r else (k', v') :: dict_set r k v
  end.

(** [obj.get(k, default)] on an arbitrary object: only a dict has [get]. *)
Definition py_get (o : pyval) (k : pystr) (default : pyval) : res pyval :=
  match o with
  | PDict d => Ok (dict_get d k default)
  | _ => raise AttributeError "object has no attribute 'get'"
  end.

(** Truth value of an object, as tested by [if x:]. *)
Definition truthy (v : pyval) : bool :=
  match v with
  | PNone => false
  | PBool b => b
  | PInt z => negb (z =? 0)
  | PFloat (FFin d) => match ddigits d with [] => false | _ => true end
  | PFloat _ => true
  | PStr s => match s with [] => false | _ => true end
  | PList l => match l with [] => false | _ => true end
  | PDict d => match d with [] => false | _ => true end
  end.

(** ** [float()] *)

Fixpoint span_digits (s : pystr) : pystr * pystr :=
  match s with
  | c :: r =>
      if is_digit c then let (ds, rest) := span_digits r in (c :: ds, rest)
      else ([], s)
  | [] => ([], [])
  end.

Definition to_lower (c : N) : N :=
  if ((65 <=? c) && (c <=? 90))%N then (c + 32)%N else c.

Definition is_e (c : N) : bool := ((c =? 101) || (c =? 69))%N.

(** Digit separators: an underscore is legal only between two digits; the
    legal ones are dropped before the number is read. *)
Fixpoint drop_underscores (prev_digit : bool) (s : pystr) : option pystr :=
  match s with
  | [] => Some []
  | c :: r =>
      if (c =? c_underscore)%N then
        match r with
        | d :: _ =>
            if prev_digit && is_digit d then drop_underscores false r else None
        | [] => None
        end
      else option_map (cons c) (drop_underscores (is_digit c) r)
  end.

(** Optional exponent part [e[+-]digits] at the head of [s]: the exponent and
    the rest, or nothing when [s] does not start with a complete one. *)
Definition scan_exponent (s : pystr) : option (Z * pystr) :=
  match s with
  | e :: r =>
      if is_e e then
        let '(neg, r1) :=
          match r with
          | c :: r' =>
              if (c =? c_minus)%N then (true, r')
              else if (c =? c_plus)%N then (false, r') else (false, r)
          | [] => (false, r)
          end in
        let (ds, rest) := span_digits r1 in
        match ds with
        | [] => None
        | _ => let v := Z.of_N (digits_value ds) in
               Some ((if neg then - v else v), rest)
        end
      else None
  | [] => None
  end.

Definition float_of_parts (neg : bool) (ip fp : pystr) (e : Z) : pyfloat :=
  FFin (dec_of_digits neg (ip ++ fp) (Z.of_nat (List.length ip) + e)).

(** [float(s)] for a [str]: surrounding whitespace is ignored; the text is a
    signed decimal numeral with optional fraction and exponent, or a signed
    [inf], [infinity] or [nan] in any letter case. Decimal digits outside
    ASCII, which Python also accepts, are not recognised here. *)
Definition float_of_pystr (s : pystr) : res pyfloat :=
  let bad := raise ValueError "could not convert string to float" in
  let s0 := strip s in
  let '(neg, s1) :=
    match s0 with
    | c :: r =>
        if (c =? c_minus)%N then (true, r)
        else if (c =? c_plus)%N then (false, r) else (false, s0)
    | [] => (false, s0)
    end in
  let low := map to_lower s1 in
  if pystr_eqb low (u "inf") || pystr_eqb low (u "infinity") then Ok (FInf neg)
  else if pystr_eqb low (u "nan") then Ok FNaN
  else
    match drop_underscores false s1 with
    | None => bad
    | Some s2 =>
        let (ip, r1) := span_digits s2 in
        let (fp, r2) :=
          match r1 with
          | c :: r => if (c =? c_dot)%N then span_digits r else ([], r1)
          | [] => ([], r1)
          end in
        match ip ++ fp with
        | [] => bad
        | _ =>
            let (e, r3) :=
              match scan_exponent r2 with Some er => er | None => (0, r2) end in
            match r3 with
            | [] => Ok (float_of_parts neg ip fp e)
            | _ => bad
            end
        end
    end.

(** [float(x)] *)
Definition py_float (v : pyval) : res pyfloat :=
  match v with
  | PFloat f => Ok f
  | PInt z => Ok (float_of_Z z)
  | PBool b => Ok (float_of_Z (if b then 1 else 0))
  | PStr s => float_of_pystr s
  | _ => raise TypeError "float() argument must be a string or a real number"
  end.

(** ** [json.loads] *)

Definition is_json_ws (c : N) : bool :=
  ((c =? 32) || (c =? 9) || (c =? 10) || (c =? 13))%N.

Fixpoint skip_ws (s : pystr) : pystr :=
  match s with
  | c :: r => if is_json_ws c then skip_ws r else s
  | [] => []
  end.

Definition hex_val (c : N) : option N :=
  if is_digit c then Some (c - 48)%N
  else if ((97 <=? c) && (c <=? 102))%N then Some (c - 87)%N
  else if ((65 <=? c) && (c <=? 70))%N then Some (c - 55)%N
  else None.

Definition hex4 (a b c d : N) : option N :=
  match hex_val a, hex_val b, hex_val c, hex_val d with
  | Some x, Some y, Some z, Some w => Some (x * 4096 + y * 256 + z * 16 + w)%N
  | _, _, _, _ => None
  end.

Definition is_high_surrogate (c : N) : bool := ((55296 <=? c) && (c <=? 56319))%N.
Definition is_low_surrogate (c : N) : bool := ((56320 <=? c) && (c <=? 57343))%N.

Definition join_surrogates (hi lo : N) : N :=
  (65536 + ((hi - 55296) * 1024 + (lo - 56320)))%N.

Definition unescape (c : N) : option N :=
  if (c =? c_quote)%N then Some c_quote
  else if (c =? c_backslash)%N then Some c_backslash
  else if (c =? c_slash)%N then Some c_slash
  else if (c =? 98)%N then Some 8%N
  else if (c =? 102)%N then Some 12%N
  else if (c =? 110)%N then Some 10%N
  else if (c =? 114)%N then Some 13%N
  else if (c =? 116)%N then Some 9%N
  else None.

Definition cons_char (c : N) (m : res (pystr * pystr)) : res (pystr * pystr) :=
  '(str, rest) <- m ;; Ok (c :: str, rest).

(** [scanstring] in strict mode, started just after the opening quote: the
    decoded string and the text after the closing quote. *)
Fixpoint scanstring (s : pystr) : res (pystr * pystr) :=
  match s with
  | [] => raise JSONDecodeError "Unterminated string starting at"
  | c :: r =>
      if (c =? c_quote)%N then Ok ([], r)
      else if (c =? c_backslash)%N then
        match r with
        | [] => raise JSONDecodeError "Unterminated string starting at"
        | e :: r1 =>
            if (e =? 117)%N then
              match r1 with
              | h1 :: h2 :: h3 :: h4 :: r2 =>
                  match hex4 h1 h2 h3 h4 with
                  | None => raise JSONDecodeError "Invalid \uXXXX escape"
                  | Some uni =>
                      match r2 with
                      | b :: u' :: g1 :: g2 :: g3 :: g4 :: r3 =>
                          if is_high_surrogate uni && (b =? c_backslash)%N
                             && (u' =? 117)%N then
                            match hex4 g1 g2 g3 g4 with
                            | None =>
                                raise JSONDecodeError "Invalid \uXXXX escape"
                            | Some uni2 =>
                                if is_low_surrogate uni2 then
                                  cons_char (join_surrogates uni uni2)
                                            (scanstring r3)
                                else cons_char uni (scanstring r2)
                            end
                          else cons_char uni (scanstring r2)
                      | _ => cons_char uni (scanstring r2)
                      end
                  end
              | _ => raise JSONDecodeError "Invalid \uXXXX escape"
              end
            else
              match unescape e with
              | Some c' => cons_char c' (scanstring r1)
              | None => raise JSONDecodeError "Invalid \escape"
              end
        end
      else if (c <? 32)%N then
        raise JSONDecodeError "Invalid control character at"
      else cons_char c (scanstring r)
  end.

(** The number at the head of [s], if any: an optional minus sign, then a
    single 0 or a run of digits not starting with 0, then an optional
    [.digits] and an optional exponent. A numeral with neither is an [int],
    else a [float]. *)
Definition scan_fraction (s : pystr) : pystr * pystr :=
  match s with
  | c :: r =>
      if (c =? c_dot)%N then
        let (ds, rest) := span_digits r in
        match ds with [] => ([], s) | _ => (ds, rest) end
      else ([], s)
  | [] => ([], s)
  end.

Definition number_value (neg : bool) (ip : pystr) (s : pystr)
  : pyval * pystr :=
  let '(fp, r2) := scan_fraction s in
  match fp, scan_exponent r2 with
  | [], None =>
      let v := Z.of_N (digits_value ip) in
      (PInt (if neg then - v else v), r2)
  | _, None => (PFloat (float_of_parts neg ip fp 0), r2)
  | _, Some (e, r3) => (PFloat (float_of_parts neg ip fp e), r3)
  end.

Definition scan_unsigned (neg : bool) (s : pystr) : option (pyval * pystr) :=
  match s with
  | [] => None
  | d :: r =>
      if negb (is_digit d) then None
      else if (d =? c_zero)%N then Some (number_value neg [d] r)
      else let (ds, rest) := span_digits r in
           Some (number_value neg (d :: ds) rest)
  end.

Definition scan_number (s : pystr) : option (pyval * pystr) :=
  match s with
  | c :: r =>
      if (c =? c_minus)%N then scan_unsigned true r else scan_unsigned false s
  | [] => None
  end.

Fixpoint starts_with (p s : pystr) : option pystr :=
  match p, s with
  | [], _ => Some s
  | a :: p', b :: s' => if (a =? b)%N then starts_with p' s' else None
  | _ :: _, [] => None
  end.

Definition expecting_value {A} : res A :=
  raise JSONDecodeError "Expecting value".

(** The recursive-descent decoder: [scan_once] reads one value at the head of
    the text and returns it with the rest; [json_object] runs from inside the
    opening quote of a member name, [json_array] from the first character of
    an element. The first argument bounds the number of nested calls;
    [json_loads] below supplies more than any text can use (theorem
    [json_loads_error_kind]), so the recursion limit of the interpreter is
    the one failure of the decoder that is not modelled. *)
Fixpoint scan_once (n : nat) (s : pystr) {struct n} : res (pyval * pystr) :=
  match n with
  | O => raise RecursionError "maximum recursion depth exceeded"
  | S n' =>
      match s with
      | [] => expecting_value
      | c :: r =>
          if (c =? c_quote)%N then
            '(k, r') <- scanstring r ;; Ok (PStr k, r')
          else if (c =? c_lbrace)%N then
            match skip_ws r with
            | c1 :: r2 =>
                if (c1 =? c_rbrace)%N then Ok (PDict [], r2)
                else if (c1 =? c_quote)%N then json_object n' [] r2
                else raise JSONDecodeError
                       "Expecting property name enclosed in double quotes"
            | [] => raise JSONDecodeError
                      "Expecting property name enclosed in double quotes"
            end
          else if (c =? c_lbracket)%N then
            match skip_ws r with
            | c1 :: r2 =>
                if (c1 =? c_rbracket)%N then Ok (PList [], r2)
                else json_array n' [] (c1 :: r2)
            | [] => expecting_value
            end
          else
            match starts_with (u "null") s with
            | Some r' => Ok (PNone, r')
            | None =>
            match starts_with (u "true") s with
            | Some r' => Ok (PBool true, r')
            | None =>
            match starts_with (u "false") s with
            | Some r' => Ok (PBool false, r')
            | None =>
            match scan_number s with
            | Some vr => Ok vr
            | None =>
            match starts_with (u "NaN") s with
            | Some r' => Ok (PFloat FNaN, r')
            | None =>
            match starts_with (u "Infinity") s with
            | Some r' => Ok (PFloat (FInf false), r')
            | None =>
            match starts_with (u "-Infinity") s with
            | Some r' => Ok (PFloat (FInf true), r')
            | None => expecting_value
            end end end end end end end
      end
  end

with json_object (n : nat) (pairs : pydict) (s : pystr) {struct n}
  : res (pyval * pystr) :=
  match n with
  | O => raise RecursionError "maximum recursion depth exceeded"
  | S n' =>
      '(key, r) <- scanstring s ;;
      match skip_ws r with
      | c :: r1 =>
          if negb (c =? c_colon)%N then
            raise JSONDecodeError "Expecting ':' delimiter"
          else
            '(v, r2) <- scan_once n' (skip_ws r1) ;;
            let pairs' := dict_set pairs key v in
            match skip_ws r2 with
            | c2 :: r3 =>
                if (c2 =? c_rbrace)%N then Ok (PDict pairs', r3)
                else if (c2 =? c_comma)%N then
                  match skip_ws r3 with
                  | c3 :: r4 =>
                      if (c3 =? c_quote)%N then json_object n' pairs' r4
                      else raise JSONDecodeError
                        "Expecting property name enclosed in double quotes"
                  | [] => raise JSONDecodeError
                        "Expecting property name enclosed in double quotes"
                  end
                else raise JSONDecodeError "Expecting ',' delimiter"
            | [] => raise JSONDecodeError "Expecting ',' delimiter"
            end
      | [] => raise JSONDecodeError "Expecting ':' delimiter"
      end
  end

with json_array (n : nat) (acc : list pyval) (s : pystr) {struct n}
  : res (pyval * pystr) :=
  match n with
  | O => raise RecursionError "maximum recursion depth exceeded"
  | S n' =>
      '(v, r) <- scan_once n' s ;;
      let acc' := acc ++ [v] in
      match skip_ws r with
      | c :: r1 =>
          if (c =? c_rbracket)%N then Ok (PList acc', r1)
          else if (c =? c_comma)%N then json_array n' acc' (skip_ws r1)
          else raise JSONDecodeError "Expecting ',' delimiter"
      | [] => raise JSONDecodeError "Expecting ',' delimiter"
      end
  end.

(** [json.loads(s)] for a [str]. *)
Definition json_loads (s : pystr) : res pyval :=
  match s with
  | 65279%N :: _ =>
      raise JSONDecodeError "Unexpected UTF-8 BOM (decode using utf-8-sig)"
  | _ =>
      '(v, r) <- scan_once (2 * List.length s + 1) (skip_ws s) ;;
      match skip_ws r with
      | [] => Ok v
      | _ => raise JSONDecodeError "Extra data"
      end
  end.

(** ** [json.dumps] *)

Definition hex_char (d : N) : N := if (d <? 10)%N then (48 + d)%N else (87 + d)%N.

(** The escape [\uXXXX] of a code unit below 65536. *)
Definition u_escape (c : N) : pystr :=
  [c_backslash; 117%N;
   hex_char (c / 4096); hex_char ((c / 256) mod 16);
   hex_char ((c / 16) mod 16); hex_char (c mod 16)]%N.

Definition escape_char (c : N) : pystr :=
  if (c =? c_quote)%N then [c_backslash; c_quote]
  else if (c =? c_backslash)%N then [c_backslash; c_backslash]
  else if (c =? 10)%N then [c_backslash; 110%N]
  else if (c =? 13)%N then [c_backslash; 114%N]
  else if (c =? 9)%N then [c_backslash; 116%N]
  else if (c =? 12)%N then [c_backslash; 102%N]
  else if (c =? 8)%N then [c_backslash; 98%N]
  else if ((32 <=? c) && (c <=? 126))%N then [c]
  else if (c <? 65536)%N then u_escape c
  else
    let v := (c - 65536)%N in
    u_escape (55296 + v / 1024) ++ u_escape (56320 + v mod 1024).

(** [encode_basestring_ascii] *)
Definition encode_basestring_ascii (s : pystr) : pystr :=
  c_quote :: flat_map escape_char s ++ [c_quote].

Definition float_json (f : pyfloat) : pystr :=
  match f with
  | FFin d => dec_repr d
  | FInf false => u "Infinity"
  | FInf true => u "-Infinity"
  | FNaN => u "NaN"
  end.

(** [json.dumps(v)] with the default separators. *)
Fixpoint json_dumps (v : pyval) : pystr :=
  match v with
  | PNone => u "null"
  | PBool true => u "true"
  | PBool false => u "false"
  | PInt z => str_of_Z z
  | PFloat f => float_json f
  | PStr s => encode_basestring_ascii s
  | PList l => c_lbracket :: join (u ", ") (map json_dumps l) ++ [c_rbracket]
  | PDict d =>
      c_lbrace ::
        join (u ", ")
          (map (fun kv => encode_basestring_ascii (fst kv)
                            ++ u ": " ++ json_dumps (snd kv)) d)
        ++ [c_rbrace]
  end.

(** ** Storage reads: [ORDER BY key DESC LIMIT n OFFSET k] *)

Fixpoint pystr_ltb (a b : pystr) : bool :=
  match a, b with
  | _, [] => false
  | [], _ :: _ => true
  | x :: a', y :: b' =>
      if (x <? y)%N then true
      else if (y <? x)%N then false else pystr_ltb a' b'
  end.

Section OrderBy.
Variable A : Type.
Variable key : A -> pystr.

Fixpoint insert_desc (x : A) (l : list A) : list A :=
  match l with
  | [] => [x]
  | y :: r =>
      if pystr_ltb (key y) (key x) then x :: l else y :: insert_desc x r
  end.

(** Rows by decreasing key. SQL leaves the order among rows of equal key
    open; nothing below depends on the choice made here. *)
Definition order_by_desc (rows : list A) : list A :=
  fold_right insert_desc [] rows.

(** [LIMIT n OFFSET k]: a negative limit means no limit, a negative offset
    none. *)
Definition limit_offset (n k : Z) (rows : list A) : list A :=
  let r := skipn (Z.to_nat k) rows in
  if n <? 0 then r else firstn (Z.to_nat n) r.
End OrderBy.

(** ** Storage writes: what [execute] takes as parameters

    [cursor.execute] binds the parameters in order and then runs the
    statement. The binding takes [None], [bool] (an [int]), [int], [float]
    and [str]. It raises for a list or a dict, which sqlite3 has no adapter
    for, for an [int] outside 64 bits, and for a [str] that holds a
    surrogate, which has no UTF-8 encoding. [None] is bound as NULL, and so
    is NaN. When [execute] raises, nothing is stored. The messages, which
    name the position and the type, are shortened here. *)

(** An [int] that fits in 64 bits. *)
Definition int64 (z : Z) : bool :=
  (-9223372036854775808 <=? z) && (z <=? 9223372036854775807).

Definition has_surrogate (s : pystr) : bool :=
  existsb (fun c => is_high_surrogate c || is_low_surrogate c) s.

(** Binding one parameter. The encoding failure is a [UnicodeEncodeError],
    a [ValueError]. *)
Definition sql_bind (v : pyval) : res unit :=
  match v with
  | PNone | PBool _ | PFloat _ => Ok tt
  | PInt z =>
      if int64 z then Ok tt
      else raise OverflowError
                 "Python int too large to convert to SQLite INTEGER"
  | PStr s =>
      if has_surrogate s then
        raise ValueError "'utf-8' codec can't encode character: surrogates not allowed"
      else Ok tt
  | PList _ | PDict _ =>
      raise SqliteError "Error binding parameter: type is not supported"
  end.

(** The value is bound as NULL. *)
Definition sql_null (v : pyval) : bool :=
  match v with
  | PNone | PFloat FNaN => true
  | _ => false
  end.

(** The test of a column declared NOT NULL, an [IntegrityError]. *)
Definition sql_not_null (column : string) (v : pyval) : res unit :=
  if sql_null v then
    Raise (mkExn SqliteError (u "NOT NULL constraint failed: " ++ u column))
  else Ok tt.

(** ** Storage aggregates: [AVG], [MAX], [MIN] and [GROUP BY] *)

(** [AVG(x)], [MAX(x)] and [MIN(x)] over the selected values: NULL when no
    row is selected. Like every float of this model they are the numbers
    denoted, the average exactly. *)
Definition sql_avg (l : list dec) : option Q :=
  match l with
  | [] => None
  | _ => Some (py_sum l / inject_Z (Z.of_nat (List.length l)))%Q
  end.

Definition sql_max (l : list dec) : option Q :=
  match l with
  | [] => None
  | x :: r => Some (Q_of_dec (py_max x r))
  end.

Definition sql_min (l : list dec) : option Q :=
  match l with
  | [] => None
  | x :: r => Some (Q_of_dec (py_min x r))
  end.

(** [x or 0] for the value of an aggregate: NULL and zero both give 0. *)
Definition or_zero (x : option Q) : Q :=
  match x with
  | Some q => q
  | None => 0%Q
  end.

(** [0 < q] *)
Definition Qpositive (q : Q) : bool := negb (Qle_bool q 0).

(** [round(x, 2)]: the nearest multiple of 1/100, ties to the even one. *)
Definition round2 (q : Q) : Q :=
  Qmake (round_half_even (q * (100 # 1))%Q) 100.

(** Keys of a grouping: the text computed for a row, or NULL, which sorts
    before every text. *)
Definition key_ltb (a b : option pystr) : bool :=
  match a, b with
  | None, Some _ => true
  | Some x, Some y => pystr_ltb x y
  | _, _ => false
  end.

Definition key_eqb (a b : option pystr) : bool :=
  match a, b with
  | None, None => true
  | Some x, Some y => pystr_eqb x y
  | _, _ => false
  end.

Fixpoint group_insert (k : option pystr) (x : dec)
  (gs : list (option pystr * list dec)) : list (option pystr * list dec) :=
  match gs with
  | [] => [(k, [x])]
  | (k', xs) :: r =>
      if key_eqb k' k then (k', xs ++ [x]) :: r
      else if key_ltb k k' then (k, [x]) :: gs
      else (k', xs) :: group_insert k x r
  end.

(** [GROUP BY key ORDER BY key]: the groups by increasing key, each with the
    values of its rows. *)
Definition group_by {A} (key : A -> option pystr) (val : A -> dec)
  (rows : list A) : list (option pystr * list dec) :=
  fold_left (fun gs r => group_insert (key r) (val r) gs) rows [].

(** Text literals that contain double quotes are written with an apostrophe in
    place of each double quote. *)
Definition uq (s : string) : pystr :=
  map (fun c => if (c =? 39)%N then c_quote else c) (u s).

Definition k_tendencia : pystr := u "tendencia".
Definition k_probabilidad_fuga : pystr := u "probabilidad_fuga".
Definition k_recomendacion : pystr := u "recomendacion".
Definition k_detalles : pystr := u "detalles".
Definition k_periodo : pystr := u "periodo".

(** ** The reasoning service *)

Record GenerationConfig := mkConfig {
  temperature : pyfloat;
  top_p : pyfloat;
  top_k : Z;
  max_output_tokens : Z
}.

(** The text-generation capability [client.models.generate_content]: given
    model, contents and configuration it raises, or returns a response whose
    [text] is a [str] or [None]. *)
Definition Client := pystr -> pystr -> GenerationConfig -> res (option pystr).

(** * main.py *)

Module Main.

Record ReasoningSystem := mkReasoningSystem {
  api_key : option pystr;
  model : pystr;
  client : option Client
}.

Definition _create_prompt_for_flow_analysis (data : pystr) (num_cycles : Z)
  : pystr :=
  u "
        # Análisis de Datos de Flujo de Agua
        
        Analiza los siguientes datos de flujo de agua y proporciona una evaluación detallada.
        
        ## Datos
        ```
        " ++ data ++ uq "
        ```
        
        ## Instrucciones
        Realiza un análisis completo siguiendo estos pasos:
        
        1. Identifica patrones en los datos de flujo (estables, ascendentes, descendentes, fluctuantes)
        2. Detecta anomalías que puedan indicar fugas o problemas
        3. Evalúa la probabilidad de una fuga basada en los patrones
        4. Proporciona recomendaciones específicas
        
        ## Formato de Respuesta
        Tu respuesta DEBE estar en formato JSON con exactamente esta estructura:
        
        {
            'tendencia': 'estable|creciente|decreciente|fluctuante',
            'probabilidad_fuga': valor_numérico_entre_0_y_100,
            'recomendacion': 'texto con acción recomendada',
            'detalles': {
                'patrones_identificados': ['lista', 'de', 'patrones'],
                'anomalias': ['lista', 'de', 'anomalías'],
                'explicacion': 'explicación del análisis'
            }
        }
        ".

(** [text[:500] + "..."] fails on [None]. *)
Definition _create_fallback_analysis (text : option pystr) : res pydict :=
  match text with
  | None => raise TypeError "'NoneType' object is not subscriptable"
  | Some t =>
      Ok [(k_tendencia, PStr (u "análisis incompleto"));
          (k_probabilidad_fuga, PInt 0);
          (k_recomendacion,
           PStr (u "Se recomienda revisar manualmente los datos"));
          (k_detalles,
           PDict [(u "respuesta_original",
                   PStr (py_slice t 0 500 ++ u "..."))])]
  end.

(** The object built by the first branch, from the decoded [result]. *)
Definition formatear_resultado (result : pyval) : res pydict :=
  tendencia <- py_get result k_tendencia (PStr (u "desconocida")) ;;
  p <- py_get result k_probabilidad_fuga (PInt 0) ;;
  probabilidad_fuga <- py_float p ;;
  recomendacion <-
    py_get result k_recomendacion
           (PStr (u "No hay recomendaciones disponibles")) ;;
  detalles <- py_get result k_detalles (PDict []) ;;
  Ok [(k_tendencia, tendencia);
      (k_probabilidad_fuga, PFloat probabilidad_fuga);
      (k_recomendacion, recomendacion);
      (k_detalles, detalles)].

(** Body of the inner [try] of [generate_reasoned_response], from
    [response.text.strip()] to the [return] of either branch. *)
Definition parse_response (text : option pystr) : res pydict :=
  match text with
  | None => raise AttributeError "'NoneType' object has no attribute 'strip'"
  | Some t =>
      let response_text := strip t in
      let json_start := find c_lbrace response_text in
      let json_end := rfind c_rbrace response_text + 1 in
      if (0 <=? json_start) && (json_start <? json_end) then
        let json_text := py_slice response_text json_start json_end in
        result <- json_loads json_text ;;
        formatear_resultado result
      else _create_fallback_analysis (Some response_text)
  end.

(** The text handed to [json.loads] when the test of the [if] holds. *)
Definition json_candidate (t : pystr) : pystr :=
  let response_text := strip t in
  py_slice response_text (find c_lbrace response_text)
           (rfind c_rbrace response_text + 1).

(** The test of the [if]. *)
Definition json_found (t : pystr) : bool :=
  let response_text := strip t in
  (0 <=? find c_lbrace response_text)
  && (find c_lbrace response_text <? rfind c_rbrace response_text + 1).

(** The inner [try ... except Exception] around it: any exception of the body
    leads to the fallback built from [response.text]. *)
Definition interpret_response (text : option pystr) : res pydict :=
  try_except (parse_response text) (fun _ => _create_fallback_analysis text).

Definition generate_reasoned_response
  (self : ReasoningSystem) (query : pystr) (num_cycles : Z)
  (temperature : pyfloat) : pydict :=
  match client self with
  | None =>
      [(u "respuesta_final",
        PStr (u "No se puede analizar: falta la API key de Gemini"));
       (u "razonamiento",
        PList [PDict [(u "ciclo", PInt 1);
                      (u "análisis", PStr (u "No configurado"))]])]
  | Some generate_content =>
      let attempt :=
        let prompt := _create_prompt_for_flow_analysis query num_cycles in
        let generation_config :=
          mkConfig temperature (FFin (mkDec false (u "95") 0)) 40 4096 in
        response_text <- generate_content (model self) prompt generation_config ;;
        interpret_response response_text in
      match attempt with
      | Ok analisis => analisis
      | Raise e =>
          [(k_tendencia, PStr (u "error"));
           (k_probabilidad_fuga, PInt 0);
           (k_recomendacion, PStr (u "Error en análisis: " ++ emsg e));
           (k_detalles, PDict [(u "error", PStr (emsg e))])]
      end
  end.

Definition default_num_cycles : Z := 3.
Definition default_temperature : pyfloat := FFin (mkDec false (u "7") 0).

(** *** DatabaseManager *)

Record RegistroFlujo := mkRegistro {
  reg_id : Z;
  reg_flujo : dec;
  reg_timestamp : pystr;
  reg_analisis : option pystr
}.

(** A row of table [tendencias]; [detalles] is the stored text or NULL. *)
Record Tendencia := mkTendencia {
  ten_id : Z;
  ten_fecha : pystr;
  ten_periodo : pyval;
  ten_tendencia : pyval;
  ten_recomendacion : pyval;
  ten_probabilidad_fuga : pyval;
  ten_detalles : option pystr
}.

(** The manager with the database file it owns: the two tables the analysis
    path uses, and the in-memory trigger fields. *)
Record DatabaseManager := mkDB {
  flujo_registros : list RegistroFlujo;
  tendencias : list Tendencia;
  pending_analysis : bool;
  records_since_last_analysis : Z;
  analysis_threshold : Z
}.

(** [__init__] on a database file with the given contents. *)
Definition init_db (regs : list RegistroFlujo) (tens : list Tendencia)
  : DatabaseManager :=
  mkDB regs tens false 0 5.

(** [cursor.lastrowid] of an insert into an AUTOINCREMENT table from which
    nothing is deleted. *)
Definition next_rowid {A} (id : A -> Z) (rows : list A) : Z :=
  1 + fold_right (fun r m => Z.max (id r) m) 0 rows.

Definition guardar_flujo (self : DatabaseManager) (now : pystr) (flujo : dec)
  (analisis : option pystr) : RegistroFlujo * bool * DatabaseManager :=
  let id_registro := next_rowid reg_id (flujo_registros self) in
  let row := mkRegistro id_registro flujo now analisis in
  let count := records_since_last_analysis self + 1 in
  let pending :=
    if analysis_threshold self <=? count then true
    else pending_analysis self in
  (row, pending,
   mkDB (flujo_registros self ++ [row]) (tendencias self)
        pending count (analysis_threshold self)).

(** The rows [obtener_historial] returns when the binding takes [limite] and
    [offset], that is when they fit in 64 bits ([int64]); beyond them
    [execute] raises [OverflowError], a case the statements exclude by
    hypothesis. *)
Definition obtener_historial (self : DatabaseManager) (limite offset : Z)
  : list RegistroFlujo :=
  limit_offset limite offset
    (order_by_desc reg_timestamp (flujo_registros self)).

(** [cursor.execute] of [guardar_analisis_tendencia], lines 369 to 383: the
    values of the analysis are bound, then the columns declared NOT NULL are
    tested in the order of the table. The timestamp and the encoded details
    are ASCII texts, which the binding always takes. *)
Definition execute_insert_tendencia (analisis : pydict) : res unit :=
  let periodo := dict_get analisis k_periodo (PStr (u "últimas 24 horas")) in
  let tendencia := dict_get analisis k_tendencia (PStr (u "desconocida")) in
  let recomendacion :=
    dict_get analisis k_recomendacion (PStr (u "No hay recomendaciones")) in
  let probabilidad_fuga :=
    dict_get analisis k_probabilidad_fuga (PFloat (FFin (mkDec false [] 0))) in
  _ <- sql_bind periodo ;;
  _ <- sql_bind tendencia ;;
  _ <- sql_bind recomendacion ;;
  _ <- sql_bind probabilidad_fuga ;;
  _ <- sql_not_null "tendencias.periodo" periodo ;;
  _ <- sql_not_null "tendencias.tendencia" tendencia ;;
  _ <- sql_not_null "tendencias.recomendacion" recomendacion ;;
  Ok tt.

(** What [guardar_analisis_tendencia] returns and leaves when [execute]
    takes the values ([execute_insert_tendencia] is [Ok]): the id of the new
    row, the table with that row, and the trigger reset. The row holds the
    values as they were bound: the conversions of the column types, which
    turn a number bound to a TEXT column into its text, an [int] bound to
    the REAL column into a float and NaN into NULL, are not applied, so
    statements about stored values are made for texts in the TEXT columns
    and floats other than NaN in the REAL column. *)
Definition guardar_analisis_tendencia (self : DatabaseManager) (now : pystr)
  (analisis : pydict) : Z * DatabaseManager :=
  let id_analisis := next_rowid ten_id (tendencias self) in
  let row :=
    mkTendencia id_analisis now
      (dict_get analisis k_periodo (PStr (u "últimas 24 horas")))
      (dict_get analisis k_tendencia (PStr (u "desconocida")))
      (dict_get analisis k_recomendacion (PStr (u "No hay recomendaciones")))
      (dict_get analisis k_probabilidad_fuga
                (PFloat (FFin (mkDec false [] 0))))
      (Some (json_dumps (dict_get analisis k_detalles (PDict [])))) in
  (id_analisis,
   mkDB (flujo_registros self) (tendencias self ++ [row])
        false 0 (analysis_threshold self)).

(** The whole call of [guardar_analisis_tendencia]: an exception of
    [execute] leaves the method before the commit and before the reset of
    lines 390 and 391, so the manager is as it was; otherwise the row is
    stored and the trigger reset. *)
Definition guardar_analisis_tendencia_call (self : DatabaseManager)
  (now : pystr) (analisis : pydict) : res Z * DatabaseManager :=
  match execute_insert_tendencia analisis with
  | Ok _ =>
      (Ok (fst (guardar_analisis_tendencia self now analisis)),
       snd (guardar_analisis_tendencia self now analisis))
  | Raise e => (Raise e, self)
  end.

(** One element of the list built by [obtener_ultimas_tendencias]. *)
Record TendenciaLeida := mkLeida {
  l_id : Z;
  l_fecha : pystr;
  l_periodo : pyval;
  l_tendencia : pyval;
  l_recomendacion : pyval;
  l_probabilidad_fuga : pyval;
  l_detalles : pyval
}.

(** [json.loads(t[6]) if t[6] else {}] *)
Definition leer_detalles (stored : option pystr) : res pyval :=
  match stored with
  | None => Ok (PDict [])
  | Some [] => Ok (PDict [])
  | Some s => json_loads s
  end.

Fixpoint map_res {A B} (f : A -> res B) (l : list A) : res (list B) :=
  match l with
  | [] => Ok []
  | x :: r => y <- f x ;; ys <- map_res f r ;; Ok (y :: ys)
  end.

(** [obtener_ultimas_tendencias] for a [limite] the binding takes
    ([int64]); the failures are those of [json.loads] on a stored payload. *)
Definition obtener_ultimas_tendencias (self : DatabaseManager) (limite : Z)
  : res (list TendenciaLeida) :=
  map_res
    (fun t =>
       d <- leer_detalles (ten_detalles t) ;;
       Ok (mkLeida (ten_id t) (ten_fecha t) (ten_periodo t) (ten_tendencia t)
                   (ten_recomendacion t) (ten_probabilidad_fuga t) d))
    (limit_offset limite 0 (order_by_desc ten_fecha (tendencias self))).

Definition necesita_analisis (self : DatabaseManager) : bool :=
  pending_analysis self.

(** *** The analysis task *)

Definition linea_registro (r : RegistroFlujo) : pystr :=
  u "ID: " ++ str_of_Z (reg_id r) ++ u ", Flujo: " ++ dec_repr (reg_flujo r)
    ++ u "%, Timestamp: " ++ reg_timestamp r.

Definition datos_formateados (registros : list RegistroFlujo) : pystr :=
  join [10%N] (map linea_registro (py_slice registros 0 50)).

Definition fmt_promedio (flujos : list dec) : pystr :=
  match flujos with
  | [] => format_2f false 0
  | _ => format_2f_Q (py_sum flujos / inject_Z (Z.of_nat (List.length flujos)))
  end.

Definition fmt_maximo (flujos : list dec) : pystr :=
  match flujos with
  | [] => format_2f false 0
  | x :: l => format_2f_dec (py_max x l)
  end.

Definition fmt_minimo (flujos : list dec) : pystr :=
  match flujos with
  | [] => format_2f false 0
  | x :: l => format_2f_dec (py_min x l)
  end.

(** The part of the query that follows the heading for the last records. *)
Definition listado (registros : list RegistroFlujo) : pystr :=
  py_slice (datos_formateados registros) 0 10.

Definition crear_query (registros : list RegistroFlujo) : pystr :=
  let flujos := map reg_flujo (py_slice registros 0 50) in
  u "
    Análisis de datos de flujo de agua:
    
    Estadísticas:
    - Promedio: " ++ fmt_promedio flujos ++ u "%
    - Máximo: " ++ fmt_maximo flujos ++ u "%
    - Mínimo: " ++ fmt_minimo flujos ++ u "%
    - Total registros: " ++ str_of_Z (Z.of_nat (List.length registros)) ++ u "
    
    Últimos 10 registros:
    " ++ listado registros ++ u "
    ".

(** [analizar_datos_flujo()] over the module-level [db_manager] and
    [reasoning_system]: the value returned and the manager afterwards, for a
    result whose values [execute] takes. A result it refuses makes the save,
    and with it the task, raise ([guardar_analisis_tendencia_call]); the
    statements about the task carry the acceptance as a hypothesis on what
    the client answers. *)
Definition analizar_datos_flujo (reasoning_system : ReasoningSystem)
  (db_manager : DatabaseManager) (now : pystr)
  : option pydict * DatabaseManager :=
  match client reasoning_system with
  | None => (None, db_manager)
  | Some _ =>
      let registros := obtener_historial db_manager 50 0 in
      if (List.length registros <? 5)%nat then (None, db_manager)
      else
        let query := crear_query registros in
        let resultado :=
          generate_reasoned_response reasoning_system query
            default_num_cycles default_temperature in
        if truthy (PDict resultado) then
          let resultado' :=
            dict_set resultado k_periodo
              (PStr (u "últimos "
                       ++ str_of_Z (Z.of_nat (List.length registros))
                       ++ u " registros")) in
          let '(id_analisis, db') :=
            guardar_analisis_tendencia db_manager now resultado' in
          (Some resultado', db')
        else (None, db_manager)
  end.

(** [POST /flujo]: the manager after the request and whether the analysis
    task was added to the background tasks. *)
Definition recibir_flujo (db_manager : DatabaseManager) (now : pystr)
  (flujo : dec) : DatabaseManager * bool :=
  let '(_, _, db') := guardar_flujo db_manager now flujo None in
  (db', necesita_analisis db').

(** *** Construction, endpoints and the service as a whole *)

(** [ReasoningSystem.__init__]: the client is built for a key that is neither
    [None] nor empty; [genai_Client] stands for [genai.Client(api_key=...)]. *)
Definition init_reasoning_system (genai_Client : pystr -> Client)
  (api_key : option pystr) (model : pystr) : ReasoningSystem :=
  match api_key with
  | Some (c :: k) =>
      mkReasoningSystem api_key model (Some (genai_Client (c :: k)))
  | _ => mkReasoningSystem api_key model None
  end.

(** The body of the answer of [POST /flujo]. *)
Definition respuesta_flujo (db_manager : DatabaseManager) (now : pystr)
  (flujo : dec) : pydict :=
  let '(resultado, _, _) := guardar_flujo db_manager now flujo None in
  [(u "mensaje", PStr (u "Flujo recibido correctamente"));
   (u "flujo", PFloat (FFin flujo));
   (u "id_registro", PInt (reg_id resultado));
   (u "timestamp", PStr (reg_timestamp resultado))].

(** State of the service: the manager, the reasoning system, and the number
    of analysis tasks added to the background tasks and not yet run. *)
Record Service := mkService {
  db_manager : DatabaseManager;
  reasoning_system : ReasoningSystem;
  background : nat
}.

(** [POST /flujo] on the service. *)
Definition post_flujo (s : Service) (now : pystr) (flujo : dec) : Service :=
  let '(db', programado) := recibir_flujo (db_manager s) now flujo in
  mkService db' (reasoning_system s)
            (if programado then S (background s) else background s).

(** [GET /analizar-ahora] *)
Definition analizar_ahora (s : Service) : Service :=
  mkService (db_manager s) (reasoning_system s) (S (background s)).

(** What can happen to the service: a request to one of the two endpoints
    that change the manager or the tasks, or the run of a background task at
    the clock reading [now]. *)
Inductive event :=
| PostFlujo (now : pystr) (flujo : dec)
| GetAnalizarAhora
| RunTask (now : pystr).

Definition step (s : Service) (e : event) : Service :=
  match e with
  | PostFlujo now flujo => post_flujo s now flujo
  | GetAnalizarAhora => analizar_ahora s
  | RunTask now =>
      match background s with
      | O => s
      | S k =>
          let '(_, db') :=
            analizar_datos_flujo (reasoning_system s) (db_manager s) now in
          mkService db' (reasoning_system s) k
      end
  end.

Definition run (s : Service) (es : list event) : Service :=
  fold_left step es s.

(** *** Statistics *)

(** A row of table [estadisticas]. *)
Record Estadistica := mkEstadistica {
  est_id : Z;
  est_fecha : pystr;
  est_flujo_promedio : Q;
  est_flujo_maximo : Q;
  est_flujo_minimo : Q;
  est_eficiencia : Q
}.

Record DatoHora := mkDatoHora {
  dh_hora : option pystr;
  dh_promedio_flujo : Q;
  dh_total_registros : Z
}.

(** The object returned by [obtener_estadisticas]. *)
Record Estadisticas := mkEstadisticas {
  e_flujo_promedio : Q;
  e_flujo_maximo : Q;
  e_flujo_minimo : Q;
  e_eficiencia : Q;
  e_datos_por_hora : list DatoHora;
  e_total_registros : Z;
  e_fecha_calculo : pystr
}.

(** [obtener_estadisticas], on the table [estadisticas] of the database file:
    the object returned and the table afterwards. [strftime_H] stands for
    [strftime('%H', ...)] of the storage engine, which is NULL for a text it
    does not read as a time; [yesterday] and [current_timestamp] are the two
    clock readings, the first one already moved back by a day. A group is
    never empty, so its average is never NULL. *)
Definition obtener_estadisticas (strftime_H : pystr -> option pystr)
  (self : DatabaseManager) (estadisticas : list Estadistica)
  (yesterday current_timestamp : pystr)
  : Estadisticas * list Estadistica :=
  let recientes :=
    filter (fun r => pystr_ltb yesterday (reg_timestamp r))
           (flujo_registros self) in
  let flujo_promedio := or_zero (sql_avg (map reg_flujo recientes)) in
  let flujo_maximo := or_zero (sql_max (map reg_flujo recientes)) in
  let flujo_minimo := or_zero (sql_min (map reg_flujo recientes)) in
  let eficiencia := if Qpositive flujo_promedio then (95 # 1)%Q else 0%Q in
  let datos_por_hora :=
    map (fun g => mkDatoHora (fst g) (round2 (or_zero (sql_avg (snd g))))
                             (Z.of_nat (List.length (snd g))))
        (group_by (fun r => strftime_H (reg_timestamp r)) reg_flujo
                  recientes) in
  let total_registros := Z.of_nat (List.length (flujo_registros self)) in
  (mkEstadisticas (round2 flujo_promedio) (round2 flujo_maximo)
                  (round2 flujo_minimo) (round2 eficiencia) datos_por_hora
                  total_registros current_timestamp,
   estadisticas
     ++ [mkEstadistica (next_rowid est_id estadisticas) current_timestamp
                       flujo_promedio flujo_maximo flujo_minimo eficiencia]).

End Main.

(** * logic.py *)

Module Logic.

Record HistoryEntry := mkEntry {
  h_query : pystr;
  h_response : pydict;
  h_timestamp : pyfloat
}.

Record ReasoningSystem := mkReasoningSystem {
  client : Client;
  model : pystr;
  history : list HistoryEntry
}.

Definition _create_reasoning_prompt (query : pystr) (num_cycles : Z) : pystr :=
  uq "
        Actúa como un sistema de razonamiento avanzado que responde a consultas mediante ciclos de pensamiento.
        
        IMPORTANTE: DEBES devolver SOLO un objeto JSON válido con EXACTAMENTE esta estructura, sin texto adicional antes o después:
        
        {
            'razonamiento': [
                {
                    'ciclo': 1,
                    'análisis': 'Tu análisis inicial...',
                    'ideas': 'Ideas generadas...',
                    'evaluación': 'Evaluación crítica...',
                    'refinamiento': 'Refinamiento de la idea...'
                },
                // Repite exactamente este formato para cada ciclo
            ],
            'respuesta_final': 'Tu respuesta final en formato markdown, didáctica e incluyendo emojis apropiados.'
        }
        
        # Instrucción
        Responde a la siguiente consulta utilizando exactamente " ++ str_of_Z num_cycles ++ u " ciclos de razonamiento explícito. 
        Para cada ciclo, debes:
        
        1. Analizar la información disponible hasta el momento
        2. Generar nuevas ideas o perspectivas
        3. Evaluar críticamente tus conclusiones
        4. Refinar tu respuesta basada en este análisis
        
        # Consulta
        " ++ query ++ u "
        
        Recuerda: tu respuesta DEBE ser SOLO un objeto JSON válido que siga EXACTAMENTE la estructura solicitada.
        ".

Definition k_razonamiento : pystr := u "razonamiento".
Definition k_respuesta_final : pystr := u "respuesta_final".

(** Body of the inner [try]: the parsed object, restructured when it has
    neither expected key. A text that starts with a brace decodes to a dict or
    not at all (lemma [json_loads_brace_dict]); for any other decoded value
    the statements that follow would end in a [TypeError], a branch that is
    never taken (lemma [parse_cycles_error_kind]). *)
Definition parse_cycles (text : option pystr) : res pydict :=
  match text with
  | None => raise AttributeError "'NoneType' object has no attribute 'strip'"
  | Some t =>
      let response_text := strip t in
      let json_start := find c_lbrace response_text in
      let json_end := rfind c_rbrace response_text + 1 in
      result <-
        (if (0 <=? json_start) && (json_start <? json_end) then
           json_loads (py_slice response_text json_start json_end)
         else raise JSONDecodeError "No se encontró estructura JSON") ;;
      match result with
      | PDict d =>
          if negb (dict_mem d k_razonamiento)
             && negb (dict_mem d k_respuesta_final) then
            Ok [(k_razonamiento,
                 PList [PDict
                   [(u "ciclo", PInt 1);
                    (u "análisis",
                     PStr (u "Procesamiento directo sin ciclos explícitos"))]]);
                (k_respuesta_final, PStr t)]
          else Ok d
      | _ => raise TypeError "object does not support item assignment"
      end
  end.

(** [except (json.JSONDecodeError, ValueError)] *)
Definition is_value_error (e : exn) : bool :=
  match ekind e with
  | JSONDecodeError | ValueError => true
  | _ => false
  end.

(** [generate_reasoned_response]; [elapsed] is the measured generation time
    and [stamp] the clock value recorded in the history. *)
Definition generate_reasoned_response (self : ReasoningSystem) (query : pystr)
  (num_cycles : Z) (temperature : pyfloat) (elapsed : Q) (stamp : pyfloat)
  : pydict * ReasoningSystem :=
  let attempt :=
    let prompt := _create_reasoning_prompt query num_cycles in
    let generation_config :=
      mkConfig temperature (FFin (mkDec false (u "95") 0)) 40 4096 in
    text <- client self (model self) prompt generation_config ;;
    result <-
      match parse_cycles text with
      | Ok r => Ok r
      | Raise e =>
          if is_value_error e then
            match text with
            | Some t =>
                Ok [(k_razonamiento,
                     PList [PDict
                       [(u "ciclo", PInt 1);
                        (u "análisis",
                         PStr (u "El modelo no estructuró la respuesta en el formato solicitado"))]]);
                    (k_respuesta_final, PStr t);
                    (u "formato_original", PStr (u "texto_plano"))]
            | None => Raise e
            end
          else Raise e
      end ;;
    let result' :=
      dict_set result (u "metadatos")
        (PDict [(u "modelo", PStr (model self));
                (u "tiempo_generacion",
                 PStr (format_2f_Q elapsed ++ u " segundos"));
                (u "ciclos_solicitados", PInt num_cycles);
                (u "temperatura", PFloat temperature)]) in
    Ok (result',
        mkReasoningSystem (client self) (model self)
          (history self ++ [mkEntry query result' stamp])) in
  match attempt with
  | Ok r => r
  | Raise e =>
      ([(u "error", PStr (emsg e));
        (k_respuesta_final, PStr (u "Error al generar respuesta: " ++ emsg e))],
       self)
  end.

(** ** Streaming of the final answer *)

(** One element of the stream of [generate_content_stream]: an object without
    a [text] attribute, or with one that is a [str] or [None]. *)
Inductive Chunk :=
| NoText
| Text (text : option pystr).

(** The stream as its consumer sees it: it ends, yields a chunk and goes on,
    or raises. *)
Inductive Stream :=
| SEnd
| SYield (chunk : Chunk) (rest : Stream)
| SRaise (e : exn).

(** [client.models.generate_content_stream] *)
Definition StreamClient := pystr -> pystr -> GenerationConfig -> res Stream.

Definition direct_prompt (query : pystr) (num_cycles : Z) : pystr :=
  u "
            Responde a la siguiente consulta de manera didáctica, usando markdown y emojis apropiados:
            
            " ++ query ++ u "
            
            Piensa paso a paso antes de responder, considerando al menos " ++ str_of_Z num_cycles ++ u " perspectivas diferentes.
            ".

(** The fragments yielded by the loop over the stream, and the exception
    that ended it, if any. *)
Fixpoint stream_chunks (st : Stream) : list pystr * option exn :=
  match st with
  | SEnd => ([], None)
  | SRaise e => ([], Some e)
  | SYield chunk rest =>
      let (out, err) := stream_chunks rest in
      match chunk with
      | Text (Some (c :: t)) => ((c :: t) :: out, err)
      | _ => (out, err)
      end
  end.

(** [stream_final_response], run to its end: the fragments it yields. *)
Definition stream_final_response (self : ReasoningSystem)
  (generate_content_stream : StreamClient) (query : pystr) (num_cycles : Z)
  (temperature : pyfloat) : list pystr :=
  let generation_config :=
    mkConfig temperature (FFin (mkDec false (u "95") 0)) 40 2048 in
  match generate_content_stream (model self) (direct_prompt query num_cycles)
                                generation_config with
  | Raise e => [u "Error en streaming: " ++ emsg e]
  | Ok st =>
      let (out, err) := stream_chunks st in
      match err with
      | Some e => out ++ [u "Error en streaming: " ++ emsg e]
      | None => out
      end
  end.

(** ** The service variant appended to logic.py *)

Record RegistroFlujo := mkRegistro {
  reg_id : Z;
  reg_flujo : dec;
  reg_timestamp : pystr;
  reg_analisis : option pystr
}.

Record Tendencia := mkTendencia {
  ten_fecha : pystr;
  ten_periodo : pyval;
  ten_tendencia : pyval;
  ten_recomendacion : pyval;
  ten_probabilidad_fuga : pyval;
  ten_detalles : option pystr
}.

Record DatabaseManager := mkDB {
  flujo_registros : list RegistroFlujo;
  tendencias_analisis : list Tendencia
}.

Definition next_rowid (rows : list RegistroFlujo) : Z :=
  1 + fold_right (fun r m => Z.max (reg_id r) m) 0 rows.

Definition guardar_flujo (self : DatabaseManager) (now : pystr) (flujo : dec)
  (analisis : option pystr) : RegistroFlujo * DatabaseManager :=
  let row := mkRegistro (next_rowid (flujo_registros self)) flujo now analisis in
  (row, mkDB (flujo_registros self ++ [row]) (tendencias_analisis self)).

(** As in main.py, for a limit and an offset that fit in 64 bits. *)
Definition obtener_historial (self : DatabaseManager) (limite offset : Z)
  : list RegistroFlujo :=
  limit_offset limite offset
    (order_by_desc reg_timestamp (flujo_registros self)).

(** The table after the INSERT, when [execute] takes the values; no path of
    the variant reaches this method. *)
Definition guardar_analisis_tendencia (self : DatabaseManager) (now : pystr)
  (analisis : pydict) : DatabaseManager :=
  let row :=
    mkTendencia now
      (dict_get analisis k_periodo (PStr (u "24h")))
      (dict_get analisis k_tendencia (PStr []))
      (dict_get analisis k_recomendacion (PStr []))
      (dict_get analisis k_probabilidad_fuga
                (PFloat (FFin (mkDec false [] 0))))
      (Some (json_dumps (dict_get analisis k_detalles (PDict [])))) in
  mkDB (flujo_registros self) (tendencias_analisis self ++ [row]).

(** [re.search(r"\{.*\}", x, re.DOTALL)]: for a [str], the text from its
    first opening brace to the last closing brace after it, if any; any other
    kind of object is a [TypeError]. *)
Definition re_search_braces (x : pyval) : res (option pystr) :=
  match x with
  | PStr s =>
      let i := find c_lbrace s in
      let j := rfind c_rbrace s in
      if (0 <=? i) && (i <? j) then Ok (Some (py_slice s i (j + 1)))
      else Ok None
  | _ => raise TypeError "expected string or bytes-like object"
  end.

(** [str(l)] for a list of floats and for a list of timestamps. The
    timestamps are [isoformat] texts, whose [repr] is the text between
    apostrophes. *)
Definition str_lista (items : list pystr) : pystr :=
  c_lbracket :: join (u ", ") items ++ [c_rbracket].

Definition crear_query (ultimos_registros : list RegistroFlujo) : pystr :=
  let flujos_recientes := map (fun r => dec_repr (reg_flujo r)) ultimos_registros in
  let timestamps :=
    map (fun r => 39%N :: reg_timestamp r ++ [39%N]) ultimos_registros in
  u "
    Analiza los siguientes datos de flujo de agua y proporciona una evaluación:
    
    Datos: " ++ str_lista flujos_recientes ++ u "
    Timestamps: " ++ str_lista timestamps ++ u "
    
    Proporciona:
    1. La tendencia general del flujo (estable, creciente, decreciente, fluctuante)
    2. Si hay indicios de posibles fugas basados en patrones anormales
    3. Una estimación de probabilidad de fuga (0-100%)
    4. Recomendaciones específicas basadas en estos datos
    
    Responde en formato JSON con las siguientes claves:
    tendencia, probabilidad_fuga, recomendacion, detalles
    ".

(** State of the variant: the manager, the reasoning system, and the
    background tasks added but not yet run, each with its argument. *)
Record Service := mkService {
  db_manager : DatabaseManager;
  reasoning_system : ReasoningSystem;
  background : list (list RegistroFlujo)
}.

(** Clock readings taken while one analysis task runs. *)
Record Clock := mkClock {
  elapsed : Q;
  stamp : pyfloat;
  now : pystr
}.

(** [analizar_datos_flujo(ultimos_registros)]: the value returned, and the
    manager and reasoning system afterwards. *)
Definition analizar_datos_flujo (rs : ReasoningSystem) (db : DatabaseManager)
  (clk : Clock) (ultimos_registros : list RegistroFlujo)
  : option pydict * DatabaseManager * ReasoningSystem :=
  match ultimos_registros with
  | [] => (None, db, rs)
  | _ =>
      let query := crear_query ultimos_registros in
      let '(resultado, rs') :=
        generate_reasoned_response rs query 2
          (FFin (mkDec false (u "7") 0)) (elapsed clk) (stamp clk) in
      let body :=
        json_match <- re_search_braces (PDict resultado) ;;
        match json_match with
        | Some group0 =>
            parsed <- json_loads group0 ;;
            match parsed with
            | PDict analisis =>
                let n := List.length ultimos_registros in
                let analisis' :=
                  dict_set analisis k_periodo
                    (PStr (if (24 <? n)%nat then u "últimas 24 horas"
                           else u "últimos " ++ str_of_Z (Z.of_nat n)
                                  ++ u " registros")) in
                Ok (Some analisis',
                    guardar_analisis_tendencia db (now clk) analisis')
            | _ => raise TypeError "object does not support item assignment"
            end
        | None => Ok (None, db)
        end in
      match body with
      | Ok (r, db') => (r, db', rs')
      | Raise _ => (None, db, rs')
      end
  end.

(** [POST /flujo] *)
Definition recibir_flujo (s : Service) (now : pystr) (flujo : dec) : Service :=
  let '(registro, db') := guardar_flujo (db_manager s) now flujo None in
  let ultimos_registros := obtener_historial db' 48 0 in
  if (100 <=? List.length ultimos_registros)%nat then
    mkService db' (reasoning_system s) (background s ++ [ultimos_registros])
  else mkService db' (reasoning_system s) (background s).

(** [GET /analizar-ahora] *)
Definition analizar_ahora (s : Service) : Service :=
  let ultimos_registros := obtener_historial (db_manager s) 48 0 in
  if (10 <=? List.length ultimos_registros)%nat then
    mkService (db_manager s) (reasoning_system s)
              (background s ++ [ultimos_registros])
  else s.

(** What can happen to the service: a request to one of the two endpoints
    that change state, or the run of the oldest background task. The
    endpoints that only read are not steps. *)
Inductive event :=
| PostFlujo (now : pystr) (flujo : dec)
| GetAnalizarAhora
| RunTask (clk : Clock).

Definition step (s : Service) (e : event) : Service :=
  match e with
  | PostFlujo now flujo => recibir_flujo s now flujo
  | GetAnalizarAhora => analizar_ahora s
  | RunTask clk =>
      match background s with
      | [] => s
      | task :: rest =>
          let '(_, db', rs') :=
            analizar_datos_flujo (reasoning_system s) (db_manager s) clk task in
          mkService db' rs' rest
      end
  end.

Definition run (s : Service) (es : list event) : Service :=
  fold_left step es s.

(** One element of the list built by [obtener_ultimas_tendencias]. *)
Record TendenciaLeida := mkLeida {
  l_fecha : pystr;
  l_periodo : pyval;
  l_tendencia : pyval;
  l_recomendacion : pyval;
  l_probabilidad_fuga : pyval;
  l_detalles : pyval
}.

(** For a [limite] that fits in 64 bits; beyond them the binding of lines
    493 to 501 raises [OverflowError]. *)
Definition obtener_ultimas_tendencias (self : DatabaseManager) (limite : Z)
  : res (list TendenciaLeida) :=
  Main.map_res
    (fun t =>
       d <- Main.leer_detalles (ten_detalles t) ;;
       Ok (mkLeida (ten_fecha t) (ten_periodo t) (ten_tendencia t)
                   (ten_recomendacion t) (ten_probabilidad_fuga t) d))
    (limit_offset limite 0 (order_by_desc ten_fecha (tendencias_analisis self))).

(** The body of the answer of [GET /analizar-ahora]. *)
Definition respuesta_analizar_ahora (s : Service) : pydict :=
  let ultimos_registros := obtener_historial (db_manager s) 48 0 in
  if (10 <=? List.length ultimos_registros)%nat then
    [(u "mensaje", PStr (u "Análisis iniciado en segundo plano"))]
  else
    [(u "mensaje", PStr (u "No hay suficientes datos para analizar"));
     (u "registros_disponibles",
      PInt (Z.of_nat (List.length ultimos_registros)))].

(** The object returned by [obtener_estadisticas]. *)
Record Estadisticas := mkEstadisticas {
  e_flujo_promedio_24h : Q;
  e_flujo_maximo_24h : Q;
  e_eficiencia : Q;
  e_registros_por_hora : list (option pystr * Q)
}.

(** [obtener_estadisticas]. Each of the three statements evaluates
    [datetime('now', '-1 day')] itself: [desde1], [desde2] and [desde3] are
    those texts; [strftime_hora] stands for [strftime('%Y-%m-%d %H:00', ...)]
    of the storage engine. *)
Definition obtener_estadisticas (strftime_hora : pystr -> option pystr)
  (self : DatabaseManager) (desde1 desde2 desde3 : pystr) : Estadisticas :=
  let ventana desde :=
    filter (fun r => negb (pystr_ltb (reg_timestamp r) desde))
           (flujo_registros self) in
  let flujo_promedio_24h := or_zero (sql_avg (map reg_flujo (ventana desde1))) in
  let flujo_maximo_24h := or_zero (sql_max (map reg_flujo (ventana desde2))) in
  let eficiencia :=
    if Qpositive flujo_maximo_24h
    then (flujo_promedio_24h / flujo_maximo_24h * (100 # 1))%Q else 0%Q in
  mkEstadisticas (round2 flujo_promedio_24h) (round2 flujo_maximo_24h)
                 (round2 eficiencia)
                 (map (fun g => (fst g, round2 (or_zero (sql_avg (snd g)))))
                      (group_by (fun r => strftime_hora (reg_timestamp r))
                                reg_flujo (ventana desde3))).

End Logic.

Unset Implicit Arguments.

(** * Vocabulary of the statements *)

(** A text holds a pair of braces when an opening brace has a closing brace
    somewhere after it. *)
Definition has_brace_pair (t : pystr) : Prop :=
  exists a b c, t = a ++ c_lbrace :: b ++ c_rbrace :: c.

(** The fallback result as the specification words it: the unparsed-text
    marker as trend, probability 0, the fixed recommendation, and the first
    500 characters of [shown] followed by the truncation marker. *)
Definition fallback_analysis (shown : pystr) : pydict :=
  [(k_tendencia, PStr (u "análisis incompleto"));
   (k_probabilidad_fuga, PInt 0);
   (k_recomendacion, PStr (u "Se recomienda revisar manualmente los datos"));
   (k_detalles,
    PDict [(u "respuesta_original", PStr (firstn 500 shown ++ u "..."))])].

Definition is_number (v : pyval) : Prop :=
  match v with
  | PInt _ | PFloat _ => True
  | _ => False
  end.

(** An analysis result: the four fields, in the order the code builds them,
    with a number as leak probability. *)
Definition well_formed_analysis (d : pydict) : Prop :=
  exists t p r det,
    d = [(k_tendencia, t); (k_probabilidad_fuga, p);
         (k_recomendacion, r); (k_detalles, det)]
    /\ is_number p.

Definition float_in_range (f : pyfloat) : bool :=
  match f with
  | FFin d => Qle_bool 0 (Q_of_dec d) && Qle_bool (Q_of_dec d) (100 # 1)
  | _ => false
  end.

(** The leak probability of a result lies in the interval from 0 to 100. *)
Definition leak_in_range (d : pydict) : bool :=
  match dict_get d k_probabilidad_fuga PNone with
  | PInt z => (0 <=? z) && (z <=? 100)
  | PFloat f => float_in_range f
  | _ => false
  end.

(** No occurrence of the character [c] in [s]. *)
Definition free_of (c : N) (s : pystr) : bool := negb (existsb (N.eqb c) s).

(** The manager after the readings [(timestamp, value)] were stored one after
    the other by [guardar_flujo]. *)
Definition ingest (db : Main.DatabaseManager) (readings : list (pystr * dec))
  : Main.DatabaseManager :=
  fold_left (fun d r => snd (Main.guardar_flujo d (fst r) (snd r) None))
            readings db.

(** A code point, the range of [chr]. *)
Definition code_point (c : N) : bool := (c <? 1114112)%N.

(** A Unicode scalar value: a code point that is not a surrogate. *)
Definition scalar (c : N) : bool :=
  code_point c && negb (is_high_surrogate c || is_low_surrogate c).

(** No high surrogate is directly followed by a low one. *)
Fixpoint no_surrogate_pair (s : pystr) : bool :=
  match s with
  | c1 :: r =>
      match r with
      | c2 :: _ => negb (is_high_surrogate c1 && is_low_surrogate c2)
      | [] => true
      end && no_surrogate_pair r
  | [] => true
  end.

(** A [str] that [json.dumps] writes without loss: lone surrogates are
    escaped one by one and read back as such, while a high surrogate next to
    a low one would be read back as the single character they encode. *)
Definition wf_str (s : pystr) : bool :=
  forallb code_point s && no_surrogate_pair s.

(** The text starts with the escape of a low surrogate. *)
Definition starts_low_escape (s : pystr) : bool :=
  match s with
  | b :: u' :: g1 :: g2 :: g3 :: g4 :: _ =>
      (b =? c_backslash)%N && (u' =? 117)%N
      && match hex4 g1 g2 g3 g4 with
         | Some x => is_low_surrogate x
         | None => false
         end
  | _ => false
  end.

Fixpoint nodup_keys (ks : list pystr) : bool :=
  match ks with
  | [] => true
  | k :: r => negb (existsb (pystr_eqb k) r) && nodup_keys r
  end.

(** The representation invariant of a value: floats are normalised decimals,
    texts hold no surrogate pair, and no dict holds a key twice. *)
Fixpoint wf_pyval (v : pyval) : bool :=
  match v with
  | PNone | PBool _ | PInt _ => true
  | PFloat f => float_canonical f
  | PStr s => wf_str s
  | PList l => forallb wf_pyval l
  | PDict d =>
      nodup_keys (map fst d)
      && forallb (fun kv => wf_str (fst kv) && wf_pyval (snd kv)) d
  end.

(** A text after a numeral that does not continue it. *)
Definition stops (rest : pystr) : Prop :=
  match rest with
  | [] => True
  | c :: _ => is_digit c = false /\ c <> c_dot /\ is_e c = false
  end.

(** Induction on values that reaches the items of lists and dicts. *)
Fixpoint pyval_nested_ind (P : pyval -> Prop)
  (HNone : P PNone) (HBool : forall b, P (PBool b))
  (HInt : forall z, P (PInt z)) (HFloat : forall f, P (PFloat f))
  (HStr : forall s, P (PStr s))
  (HList : forall l, Forall P l -> P (PList l))
  (HDict : forall d, Forall (fun kv => P (snd kv)) d -> P (PDict d))
  (v : pyval) {struct v} : P v :=
  match v with
  | PNone => HNone
  | PBool b => HBool b
  | PInt z => HInt z
  | PFloat f => HFloat f
  | PStr s => HStr s
  | PList l =>
      HList l
        ((fix go (l : list pyval) : Forall P l :=
            match l with
            | [] => Forall_nil P
            | x :: r =>
                Forall_cons x
                  (pyval_nested_ind P HNone HBool HInt HFloat HStr HList HDict x)
                  (go r)
            end) l)
  | PDict d =>
      HDict d
        ((fix go (d : list (pystr * pyval)) : Forall (fun kv => P (snd kv)) d :=
            match d with
            | [] => Forall_nil _
            | kv :: r =>
                Forall_cons kv
                  (pyval_nested_ind P HNone HBool HInt HFloat HStr HList HDict
                     (snd kv))
                  (go r)
            end) d)
  end.

(** A first character of an encoded value: not blank, not a closing bracket,
    not a byte-order mark. *)
Definition head_ok (c : N) : Prop :=
  is_json_ws c = false /\ c <> c_rbracket /\ c <> 65279%N.

(** One member of an encoded object. *)
Definition member (kv : pystr * pyval) : list N :=
  encode_basestring_ascii (fst kv) ++ u ": " ++ json_dumps (snd kv).

(** [scan_once] reads back the encoding of [v], whatever follows it. *)
Definition roundtrips (v : pyval) : Prop :=
  wf_pyval v = true ->
  forall n rest,
    (List.length (json_dumps v) <= n)%nat -> stops rest ->
    scan_once n (json_dumps v ++ rest) = Ok (v, rest).

(** Outcome of a scanner started on a text of [k] characters: it consumed
    something, or failed with a [JSONDecodeError]. *)
Definition scan_ok {A} (m : res (A * pystr)) (k : nat) : Prop :=
  match m with
  | Ok (_, r) => (List.length r < k)%nat
  | Raise e => ekind e = JSONDecodeError
  end.

(** The first character of a string is a low surrogate. *)
Definition head_low (s : pystr) : bool :=
  match s with
  | c :: _ => is_low_surrogate c
  | [] => false
  end.

(** Outcome of [scanstring] on the text [s]: a well-formed string that starts
    with a low surrogate only if [s] starts with the escape of one, and a
    rest made of scalar values. *)
Definition string_wf (s : pystr) (m : res (pystr * pystr)) : Prop :=
  match m with
  | Ok (str, r) =>
      wf_str str = true
      /\ (head_low str = true -> starts_low_escape s = true)
      /\ forallb scalar r = true
  | Raise _ => True
  end.

(** Outcome of a scanner of values: a well-formed value and a rest made of
    scalar values. *)
Definition value_wf (m : res (pyval * pystr)) : Prop :=
  match m with
  | Ok (v, r) => wf_pyval v = true /\ forallb scalar r = true
  | Raise _ => True
  end.

(** The analysis returned when the generation itself fails with the message
    [msg]. *)
Definition error_analysis (msg : pystr) : pydict :=
  [(k_tendencia, PStr (u "error"));
   (k_probabilidad_fuga, PInt 0);
   (k_recomendacion, PStr (u "Error en análisis: " ++ msg));
   (k_detalles, PDict [(u "error", PStr msg)])].

(** The configuration [generate_reasoned_response] sends with a prompt. *)
Definition config_of (temperature : pyfloat) : GenerationConfig :=
  mkConfig temperature (FFin (mkDec false (u "95") 0)) 40 4096.

(** The row [a] is not older than the row [b]. *)
Definition not_older {A} (key : A -> pystr) (a b : A) : Prop :=
  pystr_ltb (key a) (key b) = false.

(** The text stored as period by the analysis task of main.py for a window
    of [n] records. *)
Definition periodo_registros (n : nat) : pyval :=
  PStr (u "últimos " ++ str_of_Z (Z.of_nat n) ++ u " registros").

(** The query the analysis task builds on the manager [db]. *)
Definition task_query (db : Main.DatabaseManager) : pystr :=
  Main.crear_query (Main.obtener_historial db 50 0).

(** Number of requests [POST /flujo] among the events. *)
Fixpoint posts (es : list Main.event) : nat :=
  match es with
  | [] => O
  | Main.PostFlujo _ _ :: r => S (posts r)
  | _ :: r => posts r
  end.

(** The stored payload of the trend row can be decoded. *)
Definition readable (t : Main.Tendencia) : Prop :=
  exists v, Main.leer_detalles (Main.ten_detalles t) = Ok v.

(** A client that answers with text made of Unicode scalar values, and fails
    with messages that hold no surrogate pair. *)
Definition answers_in_unicode (c : Client) : Prop :=
  forall model contents config,
    match c model contents config with
    | Ok (Some t) => forallb scalar t = true
    | Ok None => True
    | Raise e => wf_str (emsg e) = true
    end.

(** A value the storage binding takes for a TEXT column and gives back
    unchanged: a [str] without surrogates. *)
Definition is_text (v : pyval) : bool :=
  match v with
  | PStr s => forallb scalar s
  | _ => false
  end.

(** The key under which logic.py attaches the metadata of a call. *)
Definition k_metadatos : pystr := u "metadatos".

(** The metadata [generate_reasoned_response] of logic.py attaches. *)
Definition metadatos (self : Logic.ReasoningSystem) (num_cycles : Z)
  (temperature : pyfloat) (elapsed : Q) : pyval :=
  PDict [(u "modelo", PStr (Logic.model self));
         (u "tiempo_generacion", PStr (format_2f_Q elapsed ++ u " segundos"));
         (u "ciclos_solicitados", PInt num_cycles);
         (u "temperatura", PFloat temperature)].

(** The answer built for a text that holds no JSON. *)
Definition plain_text_response (t : pystr) : pydict :=
  [(Logic.k_razonamiento,
    PList [PDict
      [(u "ciclo", PInt 1);
       (u "análisis",
        PStr (u "El modelo no estructuró la respuesta en el formato solicitado"))]]);
   (Logic.k_respuesta_final, PStr t);
   (u "formato_original", PStr (u "texto_plano"))].

(** The answer built for a JSON object that has neither expected key. *)
Definition unstructured_response (t : pystr) : pydict :=
  [(Logic.k_razonamiento,
    PList [PDict
      [(u "ciclo", PInt 1);
       (u "análisis",
        PStr (u "Procesamiento directo sin ciclos explícitos"))]]);
   (Logic.k_respuesta_final, PStr t)].

(** The answer when the generation itself fails with the message [msg]. *)
Definition error_response (msg : pystr) : pydict :=
  [(u "error", PStr msg);
   (Logic.k_respuesta_final, PStr (u "Error al generar respuesta: " ++ msg))].

(** The object [generate_reasoned_response] of logic.py goes on with after
    its inner [try], for the response text [t]. *)
Definition cycles_base (t : pystr) : pydict :=
  if Main.json_found t then
    match json_loads (Main.json_candidate t) with
    | Ok (PDict d) =>
        if dict_mem d Logic.k_razonamiento || dict_mem d Logic.k_respuesta_final
        then d else unstructured_response t
    | _ => plain_text_response t
    end
  else plain_text_response t.

(** A stream that yields the chunks [cs] and then ends as [tail]. *)
Definition stream_of (cs : list Logic.Chunk) (tail : Logic.Stream)
  : Logic.Stream :=
  fold_right Logic.SYield tail cs.

(** The fragment a chunk contributes, if any. *)
Definition chunk_fragment (c : Logic.Chunk) : list pystr :=
  match c with
  | Logic.Text (Some (x :: t)) => [x :: t]
  | _ => []
  end.

(** Number of rows whose grouping key is [k]. *)
Definition rows_of_key {A} (key : A -> option pystr) (k : option pystr)
  (rows : list A) : nat :=
  List.length (filter (fun r => key_eqb (key r) k) rows).

(** The rows [obtener_estadisticas] of main.py aggregates. *)
Definition recientes (db : Main.DatabaseManager) (yesterday : pystr)
  : list Main.RegistroFlujo :=
  filter (fun r => pystr_ltb yesterday (Main.reg_timestamp r))
         (Main.flujo_registros db).

(** The groups are listed by strictly increasing key. *)
Definition keys_ascending (gs : list (option pystr * list dec)) : Prop :=
  StronglySorted (fun a b => key_ltb (fst a) (fst b) = true) gs.

(** The values of the group of key [q], if there is one. *)
Fixpoint group_values (gs : list (option pystr * list dec)) (q : option pystr)
  : list dec :=
  match gs with
  | [] => []
  | (k, xs) :: r => if key_eqb k q then xs else group_values r q
  end.

(** The timestamp has the letter T where the date [fecha] ends. *)
Definition dated (fecha ts : pystr) : Prop :=
  exists a b, ts = a ++ 84%N :: b /\ List.length a = List.length fecha.

(** The answers of the client lead to rows that the storage binding accepts:
    a text is interpreted with textual trend and recommendation, and the
    message of a failure holds no surrogate. *)
Definition storable_answers (c : Client) : Prop :=
  forall model contents config,
    match c model contents config with
    | Ok (Some t) =>
        forall r, Main.interpret_response (Some t) = Ok r ->
                  is_text (dict_get r k_tendencia PNone) = true
                  /\ is_text (dict_get r k_recomendacion PNone) = true
    | Ok None => True
    | Raise e => forallb scalar (emsg e) = true
    end.

(** No NaN inside the value. Python's [==] is false between a NaN and the
    NaN read back for it, while the equality of this model is structural, so
    a statement of equality after a round trip is made for values without
    NaN. *)
Fixpoint nan_free (v : pyval) : bool :=
  match v with
  | PFloat FNaN => false
  | PList l => forallb nan_free l
  | PDict d => forallb (fun kv => nan_free (snd kv)) d
  | _ => true
  end.

(** ** Sample data *)

(** Five readings stored one second apart, and a manager that holds them. *)
Definition sample_readings : list Main.RegistroFlujo :=
  [Main.mkRegistro 1 (mkDec false (u "125") 2) (u "2024-05-01T10:00:00") None;
   Main.mkRegistro 2 (mkDec false (u "12") 2) (u "2024-05-01T10:00:01") None;
   Main.mkRegistro 3 (mkDec false (u "118") 2) (u "2024-05-01T10:00:02") None;
   Main.mkRegistro 4 (mkDec false (u "121") 2) (u "2024-05-01T10:00:03") None;
   Main.mkRegistro 5 (mkDec false (u "119") 2) (u "2024-05-01T10:00:04") None].

Definition sample_db : Main.DatabaseManager := Main.init_db sample_readings [].


(** A client whose calls fail, and one that answers every call with [t]. *)
Definition failing_client : Client :=
  fun _ _ _ => Raise (mkExn ServiceError (u "503 UNAVAILABLE")).

Definition answering_client (t : pystr) : Client :=
  fun _ _ _ => Ok (Some t).

Definition sample_system (c : Client) : Main.ReasoningSystem :=
  Main.mkReasoningSystem (Some (u "key")) (u "gemini-1.5-pro") (Some c).

Definition sample_answer : pystr :=
  uq "Claro: {'tendencia': 'estable', 'probabilidad_fuga': 12.5, 'recomendacion': 'ok', 'detalles': {'anomalias': []}}".

Definition sample_cycles_system (c : Client) : Logic.ReasoningSystem :=
  Logic.mkReasoningSystem c (u "gemini-2.0-flash-exp") [].

(** * Properties of the runtime model *)

(** ** Stripping, searching and slicing *)

Lemma pystr_eqb_eq a b : pystr_eqb a b = true <-> a = b.
Proof.
  unfold pystr_eqb. destruct (list_eq_dec N.eq_dec a b); split; congruence.
Qed.

Lemma pystr_eqb_refl a : pystr_eqb a a = true.
Proof. now apply pystr_eqb_eq. Qed.

Lemma pystr_eqb_neq a b : a <> b -> pystr_eqb a b = false.
Proof.
  unfold pystr_eqb. destruct (list_eq_dec N.eq_dec a b); congruence.
Qed.

Lemma lstrip_app_nonspace pre c rest :
  py_isspace c = false -> lstrip (pre ++ c :: rest) = lstrip pre ++ c :: rest.
Proof.
  intros Hc. induction pre as [|a pre IH]; simpl.
  - now rewrite Hc.
  - destruct (py_isspace a); [exact IH | reflexivity].
Qed.

Lemma rstrip_app_nonspace pre c rest :
  py_isspace c = false -> rstrip (pre ++ c :: rest) = pre ++ c :: rstrip rest.
Proof.
  intros Hc. unfold rstrip.
  rewrite rev_app_distr. simpl. rewrite <- app_assoc. simpl.
  rewrite (lstrip_app_nonspace _ _ _ Hc).
  rewrite rev_app_distr. simpl. rewrite rev_involutive.
  now rewrite <- app_assoc.
Qed.

Lemma lstrip_suffix s : exists w, s = w ++ lstrip s.
Proof.
  induction s as [|a s [w IH]]; simpl.
  - now exists [].
  - destruct (py_isspace a).
    + exists (a :: w). simpl. now f_equal.
    + now exists [].
Qed.

Lemma rstrip_prefix s : exists w, s = rstrip s ++ w.
Proof.
  unfold rstrip. destruct (lstrip_suffix (rev s)) as [w Hw].
  exists (rev w).
  rewrite <- rev_app_distr, <- Hw. now rewrite rev_involutive.
Qed.

Lemma strip_inside t : exists w1 w2, t = w1 ++ strip t ++ w2.
Proof.
  unfold strip.
  destruct (lstrip_suffix t) as [w1 H1].
  destruct (rstrip_prefix (lstrip t)) as [w2 H2].
  exists w1, w2. now rewrite <- H2.
Qed.

Lemma In_lstrip x s : In x (lstrip s) -> In x s.
Proof.
  destruct (lstrip_suffix s) as [w Hw]. intros H.
  rewrite Hw. apply in_or_app. now right.
Qed.

Lemma In_rstrip x s : In x (rstrip s) -> In x s.
Proof.
  destruct (rstrip_prefix s) as [w Hw]. intros H.
  rewrite Hw. apply in_or_app. now left.
Qed.

Lemma find_ge_m1 c s : -1 <= find c s.
Proof.
  induction s as [|x s IH]; simpl; [lia|].
  destruct (x =? c)%N; [lia|]. destruct (find c s <? 0) eqn:E; lia.
Qed.

Lemma find_notin c s : ~ In c s -> find c s = -1.
Proof.
  induction s as [|x s IH]; simpl; intros H; [reflexivity|].
  destruct (N.eqb_spec x c) as [->|Hx]; [tauto|].
  rewrite IH by tauto. reflexivity.
Qed.

Lemma find_app_first c a b :
  ~ In c a -> find c (a ++ c :: b) = Z.of_nat (List.length a).
Proof.
  induction a as [|x a IH]; simpl; intros H.
  - now rewrite N.eqb_refl.
  - destruct (N.eqb_spec x c) as [->|Hx]; [tauto|].
    rewrite IH by tauto.
    destruct (Z.of_nat (List.length a) <? 0) eqn:E; lia.
Qed.

Lemma rfind_notin c s : ~ In c s -> rfind c s = -1.
Proof.
  induction s as [|x s IH]; simpl; intros H; [reflexivity|].
  rewrite IH by tauto. simpl.
  destruct (N.eqb_spec x c) as [->|Hx]; [tauto | reflexivity].
Qed.

Lemma rfind_app_last c a b :
  ~ In c b -> rfind c (a ++ c :: b) = Z.of_nat (List.length a).
Proof.
  intros H. induction a as [|x a IH]; simpl.
  - rewrite (rfind_notin _ _ H). simpl. now rewrite N.eqb_refl.
  - rewrite IH.
    destruct (0 <=? Z.of_nat (List.length a)) eqn:E; lia.
Qed.

(** A non-negative result of [find] splits the text at the first
    occurrence. *)
Lemma find_split c s :
  0 <= find c s ->
  exists a b, s = a ++ c :: b /\ find c s = Z.of_nat (List.length a).
Proof.
  induction s as [|x s IH]; simpl; [lia|].
  destruct (N.eqb_spec x c) as [->|Hx]; intros H.
  - now exists [], s.
  - destruct (find c s <? 0) eqn:E; [lia|].
    destruct IH as (a & b & -> & Hl); [lia|].
    exists (x :: a), b. split; [reflexivity|].
    simpl List.length. lia.
Qed.

Lemma rfind_split c s :
  0 <= rfind c s ->
  exists a b, s = a ++ c :: b /\ rfind c s = Z.of_nat (List.length a).
Proof.
  induction s as [|x s IH]; simpl; [lia|].
  destruct (0 <=? rfind c s) eqn:E; intros H.
  - destruct IH as (a & b & -> & Hl); [lia|].
    exists (x :: a), b. split; [reflexivity|].
    simpl List.length. lia.
  - destruct (N.eqb_spec x c) as [->|Hx]; [|lia].
    now exists [], s.
Qed.

Lemma py_slice_middle {A} (a b c : list A) :
  py_slice (a ++ b ++ c) (Z.of_nat (List.length a))
           (Z.of_nat (List.length a) + Z.of_nat (List.length b)) = b.
Proof.
  unfold py_slice, clip_index.
  rewrite !length_app.
  set (la := List.length a). set (lb := List.length b). set (lc := List.length c).
  replace (Z.of_nat la <? 0) with false by (symmetry; apply Z.ltb_ge; lia).
  replace (Z.of_nat la + Z.of_nat lb <? 0) with false
    by (symmetry; apply Z.ltb_ge; lia).
  replace (Z.max 0 (Z.min (Z.of_nat (la + (lb + lc))) (Z.of_nat la)))
    with (Z.of_nat la) by lia.
  replace (Z.max 0 (Z.min (Z.of_nat (la + (lb + lc)))
                          (Z.of_nat la + Z.of_nat lb)))
    with (Z.of_nat la + Z.of_nat lb) by lia.
  replace (Z.to_nat (Z.of_nat la + Z.of_nat lb - Z.of_nat la)) with lb by lia.
  rewrite Nat2Z.id.
  rewrite skipn_app. subst la. rewrite skipn_all, Nat.sub_diag. simpl.
  rewrite firstn_app. subst lb. rewrite firstn_all, Nat.sub_diag. simpl.
  apply app_nil_r.
Qed.

Lemma py_slice_prefix {A} (s : list A) (n : nat) :
  py_slice s 0 (Z.of_nat n) = firstn n s.
Proof.
  unfold py_slice, clip_index. simpl.
  replace (Z.of_nat n <? 0) with false by (symmetry; apply Z.ltb_ge; lia).
  replace (Z.max 0 (Z.min (Z.of_nat (List.length s)) 0)) with 0 by lia.
  simpl. rewrite Z.sub_0_r.
  destruct (Nat.le_gt_cases n (List.length s)) as [Hle|Hgt].
  - f_equal. lia.
  - replace (Z.to_nat _) with (List.length s) by lia.
    rewrite firstn_all. symmetry. apply firstn_all2. lia.
Qed.

Lemma has_brace_pair_strip t : has_brace_pair (strip t) -> has_brace_pair t.
Proof.
  intros (a & b & c & H).
  destruct (strip_inside t) as (w1 & w2 & Ht).
  exists (w1 ++ a), b, (c ++ w2).
  rewrite Ht, H. rewrite <- !app_assoc. simpl. rewrite <- !app_assoc.
  reflexivity.
Qed.

Lemma strip_has_brace_pair t : has_brace_pair t -> has_brace_pair (strip t).
Proof.
  intros (a & b & c & ->). unfold strip.
  rewrite lstrip_app_nonspace by reflexivity.
  replace (lstrip a ++ c_lbrace :: b ++ c_rbrace :: c)
    with ((lstrip a ++ c_lbrace :: b) ++ c_rbrace :: c)
    by (rewrite <- app_assoc; reflexivity).
  rewrite rstrip_app_nonspace by reflexivity.
  exists (lstrip a), b, (rstrip c). rewrite <- app_assoc. reflexivity.
Qed.

(** When the test of the interpreter succeeds, the stripped text splits at
    its first opening brace and its last closing brace. *)
Lemma json_found_split t :
  Main.json_found t = true ->
  exists a l r,
    strip t = a ++ c_lbrace :: l ++ c_rbrace :: r
    /\ find c_lbrace (strip t) = Z.of_nat (List.length a)
    /\ rfind c_rbrace (strip t) = Z.of_nat (List.length (a ++ c_lbrace :: l)).
Proof.
  unfold Main.json_found. intros H.
  apply andb_prop in H as [H1 H2].
  apply Z.leb_le in H1. apply Z.ltb_lt in H2.
  destruct (find_split _ _ H1) as (a & r & Hs & Hf).
  destruct (rfind_split c_rbrace (strip t)) as (a' & r' & Hs' & Hr); [lia|].
  assert (Hlen : (List.length a < List.length a')%nat).
  { assert (List.length a <> List.length a'); [|lia].
    intros E. rewrite Hs' in Hs.
    assert (Hn : nth (List.length a') (a' ++ c_rbrace :: r') 0%N = c_rbrace)
      by (rewrite app_nth2, Nat.sub_diag by lia; reflexivity).
    rewrite Hs, <- E, app_nth2, Nat.sub_diag in Hn by lia.
    discriminate Hn. }
  pose proof Hs' as Hs2.
  rewrite Hs in Hs2. apply app_eq_app in Hs2 as [l [[E1 E2]|[E1 E2]]].
  - rewrite E1, length_app in Hlen. lia.
  - destruct l as [|x l]; [rewrite app_nil_r in E1; subst; lia|].
    simpl in E2. injection E2 as <- ->.
    exists a, l, r'. repeat split.
    + exact Hs.
    + exact Hf.
    + rewrite Hr, E1. reflexivity.
Qed.

Lemma json_candidate_shape t :
  Main.json_found t = true ->
  exists l, Main.json_candidate t = c_lbrace :: l ++ [c_rbrace].
Proof.
  intros H. destruct (json_found_split t H) as (a & l & r & Hs & Hf & Hr).
  exists l. unfold Main.json_candidate. rewrite Hf, Hr, Hs.
  replace (a ++ c_lbrace :: l ++ c_rbrace :: r)
    with (a ++ (c_lbrace :: l ++ [c_rbrace]) ++ r)
    by (simpl; rewrite <- app_assoc; reflexivity).
  replace (Z.of_nat (List.length (a ++ c_lbrace :: l)) + 1)
    with (Z.of_nat (List.length a)
          + Z.of_nat (List.length (c_lbrace :: l ++ [c_rbrace])))
    by (rewrite length_app; simpl; rewrite length_app; simpl; lia).
  apply py_slice_middle.
Qed.

(** The test of the interpreter succeeds exactly on the texts that hold a
    pair of braces. *)
Lemma json_found_pair t : Main.json_found t = true <-> has_brace_pair t.
Proof.
  split.
  - intros H. apply has_brace_pair_strip.
    destruct (json_found_split t H) as (a & l & r & Hs & _).
    now exists a, l, r.
  - unfold Main.json_found.
    intros H. apply strip_has_brace_pair in H as (a & b & c & Hs).
    assert (Hin : In c_lbrace (strip t))
      by (rewrite Hs; apply in_or_app; right; now left).
    assert (Hf : 0 <= find c_lbrace (strip t)).
    { destruct (Z.leb_spec 0 (find c_lbrace (strip t))) as [|H]; [assumption|].
      exfalso. clear - Hin H. induction (strip t) as [|x s IH]; [easy|].
      simpl in *. destruct (N.eqb_spec x c_lbrace); [lia|].
      destruct Hin as [->|Hin]; [congruence|].
      destruct (find c_lbrace s <? 0) eqn:E; [|lia].
      apply IH; [assumption|]. apply Z.ltb_lt in E. exact E. }
    assert (Hfa : find c_lbrace (strip t) <= Z.of_nat (List.length a)).
    { rewrite Hs. clear. induction a as [|x a IH]; simpl.
      - reflexivity.
      - destruct (x =? c_lbrace)%N; [lia|].
        destruct (find c_lbrace (a ++ c_lbrace :: b ++ c_rbrace :: c) <? 0);
          simpl List.length; lia. }
    assert (Hrb : Z.of_nat (List.length a) + 1 <= rfind c_rbrace (strip t)).
    { rewrite Hs. clear. induction a as [|x a IH]; simpl.
      - assert (0 <= rfind c_rbrace (b ++ c_rbrace :: c)).
        { clear. induction b as [|y b IH]; simpl.
          - destruct (0 <=? rfind c_rbrace c) eqn:E; [lia|reflexivity].
          - destruct (0 <=? rfind c_rbrace (b ++ c_rbrace :: c)) eqn:E; lia. }
        destruct (0 <=? rfind c_rbrace (b ++ c_rbrace :: c)) eqn:E; lia.
      - destruct (0 <=? rfind c_rbrace (a ++ c_lbrace :: b ++ c_rbrace :: c))
          eqn:E; simpl List.length; lia. }
    apply andb_true_intro. split; [apply Z.leb_le | apply Z.ltb_lt]; lia.
Qed.

(** When the noise before the object holds no opening brace and the noise
    after it no closing brace, the candidate is the object itself. *)
Lemma json_candidate_noise pre mid post :
  ~ In c_lbrace pre -> ~ In c_rbrace post ->
  Main.json_found (pre ++ c_lbrace :: mid ++ c_rbrace :: post) = true
  /\ Main.json_candidate (pre ++ c_lbrace :: mid ++ c_rbrace :: post)
     = c_lbrace :: mid ++ [c_rbrace].
Proof.
  intros Hpre Hpost.
  assert (Hs : strip (pre ++ c_lbrace :: mid ++ c_rbrace :: post)
               = lstrip pre ++ (c_lbrace :: mid ++ [c_rbrace]) ++ rstrip post).
  { unfold strip. rewrite lstrip_app_nonspace by reflexivity.
    replace (lstrip pre ++ c_lbrace :: mid ++ c_rbrace :: post)
      with ((lstrip pre ++ c_lbrace :: mid) ++ c_rbrace :: post)
      by (rewrite <- app_assoc; reflexivity).
    rewrite rstrip_app_nonspace by reflexivity.
    rewrite <- !app_assoc. simpl. rewrite <- app_assoc. reflexivity. }
  assert (Hf : find c_lbrace (strip (pre ++ c_lbrace :: mid ++ c_rbrace :: post))
               = Z.of_nat (List.length (lstrip pre))).
  { rewrite Hs. simpl. apply find_app_first.
    intros H. apply Hpre. now apply In_lstrip. }
  assert (Hr : rfind c_rbrace (strip (pre ++ c_lbrace :: mid ++ c_rbrace :: post))
               = Z.of_nat (List.length (lstrip pre ++ c_lbrace :: mid))).
  { rewrite Hs.
    replace (lstrip pre ++ (c_lbrace :: mid ++ [c_rbrace]) ++ rstrip post)
      with ((lstrip pre ++ c_lbrace :: mid) ++ c_rbrace :: rstrip post)
      by (rewrite <- !app_assoc; simpl; rewrite <- app_assoc; reflexivity).
    apply rfind_app_last. intros H. apply Hpost. now apply In_rstrip. }
  split.
  - unfold Main.json_found. rewrite Hf, Hr, length_app. simpl List.length.
    apply andb_true_intro. split; [apply Z.leb_le | apply Z.ltb_lt]; lia.
  - unfold Main.json_candidate. rewrite Hf, Hr, Hs.
    replace (Z.of_nat (List.length (lstrip pre ++ c_lbrace :: mid)) + 1)
      with (Z.of_nat (List.length (lstrip pre))
            + Z.of_nat (List.length (c_lbrace :: mid ++ [c_rbrace])))
      by (rewrite length_app; simpl; rewrite length_app; simpl; lia).
    apply py_slice_middle.
Qed.

Lemma firstn_app_long {A} (n : nat) (a b : list A) :
  (n <= List.length a)%nat -> firstn n (a ++ b) = firstn n a.
Proof.
  intros H. rewrite firstn_app.
  replace (n - List.length a)%nat with 0%nat by lia.
  simpl. apply app_nil_r.
Qed.

Lemma join_cons sep p ps : exists rest, join sep (p :: ps) = p ++ rest.
Proof.
  destruct ps as [|q ps]; simpl.
  - exists []. now rewrite app_nil_r.
  - eexists. reflexivity.
Qed.

(** ** The decoder on a text that starts with a brace *)

Lemma json_object_dict n : forall pairs s v r,
  json_object n pairs s = Ok (v, r) -> exists d, v = PDict d.
Proof.
  induction n as [|n IH]; intros pairs s v r; simpl; [discriminate|].
  destruct (scanstring s) as [[key r0]|e]; simpl; [|discriminate].
  destruct (skip_ws r0) as [|c r1]; [discriminate|].
  destruct (negb (c =? c_colon)%N); [discriminate|].
  destruct (scan_once n (skip_ws r1)) as [[v' r2]|e]; simpl; [|discriminate].
  destruct (skip_ws r2) as [|c2 r3]; [discriminate|].
  destruct (c2 =? c_rbrace)%N.
  - intros H. injection H as <- _. eauto.
  - destruct (c2 =? c_comma)%N; [|discriminate].
    destruct (skip_ws r3) as [|c3 r4]; [discriminate|].
    destruct (c3 =? c_quote)%N; [|discriminate].
    apply IH.
Qed.

Lemma json_loads_brace_dict s v :
  json_loads (c_lbrace :: s) = Ok v -> exists d, v = PDict d.
Proof.
  unfold json_loads.
  change (skip_ws (c_lbrace :: s)) with (c_lbrace :: s).
  cbv beta iota.
  remember (2 * List.length (c_lbrace :: s) + 1)%nat as n eqn:Hn.
  destruct n as [|n]; [simpl in Hn; lia|].
  change (c_lbrace :: s) with (123%N :: s) at 1.
  cbn [scan_once]. change (c_lbrace =? c_quote)%N with false.
  change (c_lbrace =? c_lbrace)%N with true. cbv iota.
  destruct (skip_ws s) as [|c1 r2]; [discriminate|].
  destruct (c1 =? c_rbrace)%N.
  - simpl. destruct (skip_ws r2); [|discriminate].
    intros H. injection H as <-. eauto.
  - destruct (c1 =? c_quote)%N; [|discriminate].
    destruct (json_object n [] r2) as [[v' r]|e] eqn:E; simpl; [|discriminate].
    destruct (skip_ws r); [|discriminate].
    intros H. injection H as <-. eapply json_object_dict; eauto.
Qed.

(** ** [json.loads] after [json.dumps] *)

(** *** Integers *)

Lemma uint_chars_digits d : forallb is_digit (uint_chars d) = true.
Proof. induction d; simpl; auto. Qed.

Lemma chars_uint_uint_chars d : chars_uint (uint_chars d) = d.
Proof. induction d; simpl; congruence. Qed.

Lemma digits_value_str n : digits_value (str_of_N n) = n.
Proof.
  unfold digits_value, str_of_N. rewrite chars_uint_uint_chars.
  apply DecimalN.Unsigned.of_to.
Qed.

Lemma to_uint_head n :
  N.to_uint n = Decimal.zero \/ forall d, N.to_uint n <> Decimal.D0 d.
Proof.
  pose proof (DecimalN.Unsigned.to_of (N.to_uint n)) as H.
  rewrite DecimalN.Unsigned.of_to in H.
  generalize dependent (N.to_uint n). intros u H.
  assert (D : Decimal.nzhead u = Decimal.Nil \/ Decimal.nzhead u <> Decimal.Nil)
    by (destruct (Decimal.nzhead u); (now left) || (right; discriminate)).
  destruct D as [D|D].
  - left. rewrite H. now apply DecimalFacts.unorm_0.
  - right. intros d' Hd. rewrite (DecimalFacts.unorm_nzhead u D) in H.
    rewrite Hd in H at 1. symmetry in H. now apply (DecimalFacts.nzhead_nonzero u d').
Qed.

Lemma to_uint_nonnil n : N.to_uint n <> Decimal.Nil.
Proof.
  pose proof (DecimalN.Unsigned.to_of (N.to_uint n)) as H.
  rewrite DecimalN.Unsigned.of_to in H. rewrite H. apply DecimalFacts.unorm_nonnil.
Qed.

Lemma str_of_N_head n :
  str_of_N n = [c_zero]
  \/ exists c r, str_of_N n = c :: r /\ is_digit c = true /\ c <> c_zero.
Proof.
  unfold str_of_N. destruct (to_uint_head n) as [->|H]; [now left|].
  right. destruct (N.to_uint n) eqn:E; simpl.
  - exfalso. apply (to_uint_nonnil n). exact E.
  - exfalso. now apply (H _ eq_refl).
  - repeat eexists; discriminate.
  - repeat eexists; discriminate.
  - repeat eexists; discriminate.
  - repeat eexists; discriminate.
  - repeat eexists; discriminate.
  - repeat eexists; discriminate.
  - repeat eexists; discriminate.
  - repeat eexists; discriminate.
  - repeat eexists; discriminate.
Qed.


Lemma span_digits_app ds rest :
  forallb is_digit ds = true ->
  match rest with [] => True | c :: _ => is_digit c = false end ->
  span_digits (ds ++ rest) = (ds, rest).
Proof.
  intros Hd Hr. induction ds as [|c ds IH]; cbn [span_digits app forallb] in *.
  - destruct rest as [|c r]; [reflexivity|]. cbn [span_digits]. now rewrite Hr.
  - apply andb_prop in Hd as [Hc Hd]. rewrite Hc, (IH Hd). reflexivity.
Qed.

Lemma stops_nodigit rest :
  stops rest -> match rest with [] => True | c :: _ => is_digit c = false end.
Proof. destruct rest; simpl; tauto. Qed.

Lemma scan_exponent_stops rest : stops rest -> scan_exponent rest = None.
Proof.
  destruct rest as [|c r]; cbn [stops scan_exponent]; [reflexivity|].
  intros (_ & _ & ->). reflexivity.
Qed.

Lemma scan_fraction_stops rest : stops rest -> scan_fraction rest = ([], rest).
Proof.
  destruct rest as [|c r]; cbn [stops scan_fraction]; [reflexivity|].
  intros (_ & H & _). apply N.eqb_neq in H. now rewrite H.
Qed.

Lemma number_value_int neg ip rest :
  stops rest ->
  number_value neg ip rest
  = (PInt (if neg then - Z.of_N (digits_value ip) else Z.of_N (digits_value ip)),
     rest).
Proof.
  intros H. unfold number_value.
  now rewrite (scan_fraction_stops _ H), (scan_exponent_stops _ H).
Qed.

Lemma is_digit_not_minus c : is_digit c = true -> (c =? c_minus)%N = false.
Proof.
  intros H. apply N.eqb_neq. intros ->. discriminate H.
Qed.

Lemma scan_digits_nat neg n rest :
  stops rest ->
  scan_unsigned neg (str_of_N n ++ rest)
  = Some (PInt (if neg then - Z.of_N n else Z.of_N n), rest).
Proof.
  intros Hs. unfold scan_unsigned.
  pose proof (digits_value_str n) as Hv.
  pose proof (uint_chars_digits (N.to_uint n)) as Hd. fold (str_of_N n) in Hd.
  destruct (str_of_N_head n) as [E|(c & r & E & Hc & Hz)]; rewrite E in *.
  - cbn [app]. change (negb (is_digit c_zero)) with false.
    change (c_zero =? c_zero)%N with true. cbv iota.
    rewrite (number_value_int _ _ _ Hs), Hv. reflexivity.
  - cbn [app]. rewrite Hc. cbn [negb]. cbv iota.
    apply N.eqb_neq in Hz. rewrite Hz.
    cbn [forallb] in Hd. apply andb_prop in Hd as [_ Hd].
    rewrite (span_digits_app r rest Hd (stops_nodigit _ Hs)).
    rewrite (number_value_int _ _ _ Hs), Hv. reflexivity.
Qed.

Lemma str_of_N_first_digit n :
  exists c r, str_of_N n = c :: r /\ is_digit c = true.
Proof.
  destruct (str_of_N_head n) as [E|(c & r & E & Hc & _)]; rewrite E; eauto.
Qed.

Lemma scan_number_int z rest :
  stops rest -> scan_number (str_of_Z z ++ rest) = Some (PInt z, rest).
Proof.
  intros Hs. unfold scan_number, str_of_Z.
  destruct (Z.ltb_spec z 0) as [Hz|Hz].
  - cbn [app]. change (c_minus =? c_minus)%N with true. cbv iota.
    rewrite (scan_digits_nat true (Z.abs_N z) rest Hs).
    do 3 f_equal. rewrite N2Z.inj_abs_N. lia.
  - destruct (str_of_N_first_digit (Z.abs_N z)) as (c & r & E & Hc).
    pose proof (scan_digits_nat false (Z.abs_N z) rest Hs) as H.
    rewrite E in *. cbn [app] in *.
    rewrite (is_digit_not_minus _ Hc). rewrite H.
    do 3 f_equal. rewrite N2Z.inj_abs_N. lia.
Qed.

(** *** Floats *)

Lemma strip_zeros_head c r : c <> c_zero -> strip_zeros (c :: r) = c :: r.
Proof. intros H. cbn [strip_zeros]. apply N.eqb_neq in H. now rewrite H. Qed.

Lemma strip_zeros_repeat k s :
  strip_zeros (repeat c_zero k ++ s) = strip_zeros s.
Proof. induction k as [|k IH]; [reflexivity|]. exact IH. Qed.

Lemma rev_repeat {A} (x : A) k : rev (repeat x k) = repeat x k.
Proof.
  induction k as [|k IH]; [reflexivity|].
  cbn [repeat rev]. rewrite IH. symmetry. apply repeat_cons.
Qed.

Lemma rstrip_zeros_repeat s k :
  rstrip_zeros (s ++ repeat c_zero k) = rstrip_zeros s.
Proof.
  unfold rstrip_zeros. rewrite rev_app_distr, rev_repeat.
  now rewrite strip_zeros_repeat.
Qed.

Lemma rstrip_zeros_keep s c :
  s <> [] -> last s c <> c_zero -> rstrip_zeros s = s.
Proof.
  intros Hne Hl. unfold rstrip_zeros.
  pose proof (app_removelast_last c Hne) as E.
  assert (R : rev s = last s c :: rev (removelast s))
    by (rewrite E at 1; rewrite rev_app_distr; reflexivity).
  rewrite R, strip_zeros_head by exact Hl.
  rewrite <- R. apply rev_involutive.
Qed.

Lemma canonical_parts d c r :
  dec_canonical d = true -> ddigits d = c :: r ->
  forallb is_digit (c :: r) = true /\ is_digit c = true
  /\ c <> c_zero /\ last (c :: r) c <> c_zero.
Proof.
  unfold dec_canonical. intros H E. rewrite E in H.
  apply andb_prop in H as [H1 H2]. apply andb_prop in H2 as [H2 H3].
  apply negb_true_iff in H2, H3. apply N.eqb_neq in H2, H3.
  split; [exact H1|]. cbn [forallb] in H1. apply andb_prop in H1 as [H1 _].
  auto.
Qed.

Lemma dec_of_digits_pad neg k m c r pt :
  c <> c_zero -> last (c :: r) c <> c_zero ->
  dec_of_digits neg (repeat c_zero k ++ (c :: r) ++ repeat c_zero m) pt
  = mkDec neg (c :: r) (pt - Z.of_nat k).
Proof.
  intros Hc Hl. unfold dec_of_digits.
  rewrite strip_zeros_repeat.
  change ((c :: r) ++ repeat c_zero m) with (c :: (r ++ repeat c_zero m)).
  rewrite (strip_zeros_head c _ Hc).
  change (c :: (r ++ repeat c_zero m)) with ((c :: r) ++ repeat c_zero m).
  rewrite rstrip_zeros_repeat.
  rewrite (rstrip_zeros_keep (c :: r) c) by (discriminate || exact Hl).
  f_equal. f_equal. rewrite length_app, repeat_length. lia.
Qed.

Lemma zeros_repeat n : zeros n = repeat c_zero (Z.to_nat n).
Proof. reflexivity. Qed.

Lemma forallb_digit_repeat k : forallb is_digit (repeat c_zero k) = true.
Proof. induction k; simpl; auto. Qed.

Lemma digits_value_pad ds : digits_value (c_zero :: ds) = digits_value ds.
Proof. reflexivity. Qed.

Lemma scan_exponent_chars e rest :
  stops rest ->
  scan_exponent (101%N :: exp_chars e ++ rest) = Some (e, rest).
Proof.
  intros Hs. unfold exp_chars.
  pose proof (uint_chars_digits (N.to_uint (Z.abs_N e))) as Hd.
  fold (str_of_N (Z.abs_N e)) in Hd.
  pose proof (digits_value_str (Z.abs_N e)) as Hv.
  destruct (str_of_N_first_digit (Z.abs_N e)) as (c & r & E & Hc).
  set (ds := if (List.length (str_of_N (Z.abs_N e)) <? 2)%nat
             then c_zero :: str_of_N (Z.abs_N e) else str_of_N (Z.abs_N e)).
  assert (Hds : forallb is_digit ds = true /\ digits_value ds = Z.abs_N e
                /\ ds <> []).
  { subst ds. destruct (_ <? 2)%nat.
    - repeat split; [cbn [forallb]; now rewrite Hd | exact Hv | discriminate].
    - repeat split; [exact Hd | exact Hv | rewrite E; discriminate]. }
  destruct Hds as (H1 & H2 & H3).
  cbn [scan_exponent app]. change (is_e 101%N) with true. cbv iota.
  destruct (Z.ltb_spec e 0) as [Hz|Hz].
  - change (c_minus =? c_minus)%N with true. cbv iota.
    rewrite (span_digits_app ds rest H1 (stops_nodigit _ Hs)).
    destruct ds as [|x ds']; [congruence|].
    rewrite H2. do 2 f_equal. rewrite N2Z.inj_abs_N. lia.
  - change (c_plus =? c_minus)%N with false.
    change (c_plus =? c_plus)%N with true. cbv iota.
    rewrite (span_digits_app ds rest H1 (stops_nodigit _ Hs)).
    destruct ds as [|x ds']; [congruence|].
    rewrite H2. do 2 f_equal. rewrite N2Z.inj_abs_N. lia.
Qed.

Lemma scan_fraction_digits ds rest :
  forallb is_digit ds = true -> ds <> [] ->
  match rest with [] => True | c :: _ => is_digit c = false end ->
  scan_fraction (c_dot :: ds ++ rest) = (ds, rest).
Proof.
  intros Hd Hne Hr. cbn [scan_fraction].
  change (c_dot =? c_dot)%N with true. cbv iota.
  rewrite (span_digits_app ds rest Hd Hr).
  destruct ds; [congruence | reflexivity].
Qed.

Lemma forallb_firstn {A} (f : A -> bool) n l :
  forallb f l = true -> forallb f (firstn n l) = true.
Proof.
  revert n. induction l as [|x l IH]; intros [|n] H; simpl; auto.
  simpl in H. apply andb_prop in H as [-> H]. simpl. auto.
Qed.

Lemma forallb_skipn {A} (f : A -> bool) n l :
  forallb f l = true -> forallb f (skipn n l) = true.
Proof.
  revert n. induction l as [|x l IH]; intros [|n] H; simpl; auto.
  simpl in H. apply andb_prop in H as [_ H]. auto.
Qed.

Lemma scan_unsigned_body neg ds p rest :
  dec_canonical (mkDec neg ds p) = true -> stops rest ->
  scan_unsigned neg (dec_body ds p ++ rest)
  = Some (PFloat (FFin (mkDec neg ds p)), rest).
Proof.
  intros Hcan Hs. destruct ds as [|d1 tl].
  - unfold dec_canonical in Hcan. cbn in Hcan. apply Z.eqb_eq in Hcan. subst p.
    change (dec_body [] 0) with [c_zero; c_dot; c_zero].
    cbn [app scan_unsigned]. change (negb (is_digit c_zero)) with false.
    change (c_zero =? c_zero)%N with true. cbv iota.
    unfold number_value.
    change (c_dot :: c_zero :: rest) with (c_dot :: [c_zero] ++ rest).
    rewrite (scan_fraction_digits [c_zero] rest eq_refl ltac:(discriminate)
               (stops_nodigit _ Hs)).
    now rewrite (scan_exponent_stops _ Hs).
  - destruct (canonical_parts _ d1 tl Hcan eq_refl) as (Hall & Hd1 & Hnz & Hlast).
    pose proof Hall as Htl. cbn [forallb] in Htl.
    apply andb_prop in Htl as [_ Htl].
    pose proof Hnz as Hnzb. apply N.eqb_neq in Hnzb.
    unfold dec_body.
    destruct ((p <=? -4) || (16 <? p)) eqn:Esci.
    + (* scientific *)
      cbn [app scan_unsigned]. rewrite Hd1. cbn [negb]. cbv iota. rewrite Hnzb.
      destruct tl as [|t2 tl'].
      * cbn [app span_digits]. change (is_digit 101%N) with false. cbv iota.
        unfold number_value. cbn [scan_fraction].
        change (101 =? c_dot)%N with false. cbv iota.
        rewrite (scan_exponent_chars (p - 1) rest Hs).
        unfold float_of_parts. cbn [app List.length].
        pose proof (dec_of_digits_pad neg 0 0 d1 [] (Z.of_nat 1 + (p - 1)) Hnz Hlast)
          as P.
        cbn [repeat app] in P. rewrite P. repeat f_equal.
        change (Z.of_nat 1) with 1. change (Z.of_nat 0) with 0. lia.
      * change ((c_dot :: t2 :: tl') ++ 101%N :: exp_chars (p - 1))
          with (c_dot :: (t2 :: tl') ++ 101%N :: exp_chars (p - 1)).
        cbn [app span_digits]. change (is_digit c_dot) with false. cbv iota.
        unfold number_value.
        replace (c_dot :: t2 :: (tl' ++ 101%N :: exp_chars (p - 1)) ++ rest)
          with (c_dot :: (t2 :: tl') ++ (101%N :: exp_chars (p - 1) ++ rest))
          by (cbn [app]; rewrite <- app_assoc; reflexivity).
        rewrite (scan_fraction_digits (t2 :: tl') (101%N :: exp_chars (p - 1) ++ rest)
                   Htl ltac:(discriminate) eq_refl).
        rewrite (scan_exponent_chars (p - 1) rest Hs).
        unfold float_of_parts.
        pose proof (dec_of_digits_pad neg 0 0 d1 (t2 :: tl')
                      (Z.of_nat 1 + (p - 1)) Hnz Hlast) as P.
        cbn [repeat app] in P. rewrite app_nil_r in P. cbn [app List.length].
        rewrite P. repeat f_equal.
        change (Z.of_nat 1) with 1. change (Z.of_nat 0) with 0. lia.
    + apply orb_false_elim in Esci as [E1 E2].
      apply Z.leb_gt in E1. apply Z.ltb_ge in E2.
      destruct (Z.leb_spec p 0) as [Ep|Ep].
      * (* 0.000ddd *)
        cbn [app scan_unsigned]. change (negb (is_digit c_zero)) with false.
        change (c_zero =? c_zero)%N with true. cbv iota.
        unfold number_value. rewrite <- app_assoc.
        rewrite zeros_repeat.
        replace (repeat c_zero (Z.to_nat (- p)) ++ (d1 :: tl) ++ rest)
          with ((repeat c_zero (Z.to_nat (- p)) ++ d1 :: tl) ++ rest)
          by (rewrite <- app_assoc; reflexivity).
        rewrite scan_fraction_digits;
          [| rewrite forallb_app, forallb_digit_repeat; exact Hall
           | destruct (repeat c_zero (Z.to_nat (- p))); discriminate
           | exact (stops_nodigit _ Hs)].
        rewrite (scan_exponent_stops _ Hs).
        assert (Hfp : repeat c_zero (Z.to_nat (- p)) ++ d1 :: tl <> [])
          by (destruct (repeat c_zero (Z.to_nat (- p))); discriminate).
        destruct (repeat c_zero (Z.to_nat (- p)) ++ d1 :: tl) eqn:Efp;
          [congruence|]. rewrite <- Efp. clear Efp Hfp.
        unfold float_of_parts.
        pose proof (dec_of_digits_pad neg (S (Z.to_nat (- p))) 0 d1 tl
                      (Z.of_nat 1 + 0) Hnz Hlast) as P.
        cbn [repeat app] in P. rewrite app_nil_r in P. cbn [app List.length].
        rewrite P. repeat f_equal. lia.
      * destruct (Z.leb_spec (Z.of_nat (List.length (d1 :: tl))) p) as [En|En].
        -- (* ddd000.0 *)
           cbn [app scan_unsigned]. rewrite Hd1. cbn [negb]. cbv iota.
           rewrite Hnzb. rewrite <- !app_assoc. rewrite zeros_repeat.
           set (k := Z.to_nat (p - Z.of_nat (List.length (d1 :: tl)))).
           replace (tl ++ repeat c_zero k ++ u ".0" ++ rest)
             with ((tl ++ repeat c_zero k) ++ (c_dot :: [c_zero] ++ rest))
             by (rewrite <- app_assoc; reflexivity).
           rewrite span_digits_app;
             [| rewrite forallb_app, forallb_digit_repeat, Htl; reflexivity
              | reflexivity].
           unfold number_value.
           rewrite (scan_fraction_digits [c_zero] rest eq_refl
                      ltac:(discriminate) (stops_nodigit _ Hs)).
           rewrite (scan_exponent_stops _ Hs).
           unfold float_of_parts.
           pose proof (dec_of_digits_pad neg 0 (k + 1) d1 tl
                         (Z.of_nat (List.length (d1 :: tl ++ repeat c_zero k)) + 0)
                         Hnz Hlast) as P.
           cbn [repeat app] in P.
           replace ((d1 :: tl ++ repeat c_zero k) ++ [c_zero])
             with (d1 :: tl ++ repeat c_zero (k + 1)).
           2:{ cbn [app]. rewrite <- app_assoc. f_equal. f_equal.
               rewrite repeat_app. reflexivity. }
           rewrite P. repeat f_equal.
           subst k. cbn [List.length] in *. rewrite length_app, repeat_length.
           lia.
        -- (* ddd.ddd *)
           assert (Hp : exists q, Z.to_nat p = S q) by (exists (Z.to_nat (p - 1)); lia).
           destruct Hp as [q Hq]. rewrite Hq.
           cbn [firstn skipn app scan_unsigned]. rewrite Hd1. cbn [negb].
           cbv iota. rewrite Hnzb.
           replace ((firstn q tl ++ c_dot :: skipn q tl) ++ rest)
             with (firstn q tl ++ (c_dot :: skipn q tl ++ rest))
             by (rewrite <- app_assoc; reflexivity).
           rewrite span_digits_app;
             [| apply forallb_firstn; exact Htl | reflexivity].
           unfold number_value.
           assert (Hsk : skipn q tl <> []).
           { intros E. apply (f_equal (@List.length _)) in E.
             rewrite length_skipn in E. cbn [List.length] in E, En. lia. }
           rewrite scan_fraction_digits;
             [| apply forallb_skipn; exact Htl | exact Hsk
              | exact (stops_nodigit _ Hs)].
           rewrite (scan_exponent_stops _ Hs).
           destruct (skipn q tl) eqn:Esk; [congruence|]. rewrite <- Esk.
           unfold float_of_parts.
           replace ((d1 :: firstn q tl) ++ skipn q tl) with (d1 :: tl)
             by (cbn [app]; now rewrite firstn_skipn).
           pose proof (dec_of_digits_pad neg 0 0 d1 tl
                         (Z.of_nat (List.length (d1 :: firstn q tl)) + 0)
                         Hnz Hlast) as P.
           cbn [repeat app] in P. rewrite app_nil_r in P. rewrite P.
           repeat f_equal. cbn [List.length]. rewrite length_firstn.
           cbn [List.length] in En. lia.
Qed.

Lemma dec_body_head ds p :
  forallb is_digit ds = true ->
  exists c r, dec_body ds p = c :: r /\ is_digit c = true.
Proof.
  intros Hd. unfold dec_body. destruct ds as [|d1 tl].
  - repeat eexists.
  - cbn [forallb] in Hd. apply andb_prop in Hd as [Hd1 _].
    destruct ((p <=? -4) || (16 <? p)); [repeat eexists; exact Hd1|].
    destruct (Z.leb_spec p 0); [repeat eexists|].
    destruct (Z.of_nat _ <=? p); [repeat eexists; exact Hd1|].
    assert (Hp : exists q, Z.to_nat p = S q) by (exists (Z.to_nat (p - 1)); lia).
    destruct Hp as [q ->]. repeat eexists; exact Hd1.
Qed.

Lemma scan_number_float d rest :
  dec_canonical d = true -> stops rest ->
  scan_number (dec_repr d ++ rest) = Some (PFloat (FFin d), rest).
Proof.
  destruct d as [neg ds p]. intros Hcan Hs.
  unfold dec_repr. cbn [dneg ddigits dpt].
  pose proof (scan_unsigned_body neg ds p rest Hcan Hs) as H.
  destruct neg.
  - cbn [app scan_number]. change (c_minus =? c_minus)%N with true. exact H.
  - assert (Hd : forallb is_digit ds = true).
    { unfold dec_canonical in Hcan. apply andb_prop in Hcan as [Hd _]. exact Hd. }
    destruct (dec_body_head ds p Hd) as (c & r & E & Hc).
    rewrite E in *. cbn [app scan_number].
    now rewrite (is_digit_not_minus _ Hc).
Qed.

(** *** Strings *)

Lemma hex_val_char d : (d < 16)%N -> hex_val (hex_char d) = Some d.
Proof.
  intros H.
  assert (D : (d = 0 \/ d = 1 \/ d = 2 \/ d = 3 \/ d = 4 \/ d = 5 \/ d = 6
               \/ d = 7 \/ d = 8 \/ d = 9 \/ d = 10 \/ d = 11 \/ d = 12
               \/ d = 13 \/ d = 14 \/ d = 15)%N) by lia.
  repeat (destruct D as [->|D]; [reflexivity|]). subst. reflexivity.
Qed.

Lemma hex4_u_escape c :
  (c < 65536)%N ->
  exists h1 h2 h3 h4,
    u_escape c = [c_backslash; 117%N; h1; h2; h3; h4]
    /\ hex4 h1 h2 h3 h4 = Some c.
Proof.
  intros H. unfold u_escape. do 4 eexists. split; [reflexivity|].
  unfold hex4.
  assert (H1 : (c / 4096 < 16)%N) by (apply N.Div0.div_lt_upper_bound; lia).
  assert (H2 : ((c / 256) mod 16 < 16)%N) by (apply N.mod_lt; lia).
  assert (H3 : ((c / 16) mod 16 < 16)%N) by (apply N.mod_lt; lia).
  assert (H4 : (c mod 16 < 16)%N) by (apply N.mod_lt; lia).
  rewrite !hex_val_char by assumption.
  f_equal.
  pose proof (N.div_mod' c 16) as E1.
  pose proof (N.div_mod' (c / 16) 16) as E2.
  pose proof (N.div_mod' (c / 256) 16) as E3.
  rewrite (N.Div0.div_div c 16 16) in E2. change (16 * 16)%N with 256%N in E2.
  rewrite (N.Div0.div_div c 256 16) in E3. change (256 * 16)%N with 4096%N in E3.
  lia.
Qed.


Lemma scanstring_eq s :
  scanstring s =
  match s with
  | [] => raise JSONDecodeError "Unterminated string starting at"
  | c :: r =>
      if (c =? c_quote)%N then Ok ([], r)
      else if (c =? c_backslash)%N then
        match r with
        | [] => raise JSONDecodeError "Unterminated string starting at"
        | e :: r1 =>
            if (e =? 117)%N then
              match r1 with
              | h1 :: h2 :: h3 :: h4 :: r2 =>
                  match hex4 h1 h2 h3 h4 with
                  | None => raise JSONDecodeError "Invalid \uXXXX escape"
                  | Some uni =>
                      match r2 with
                      | b :: u' :: g1 :: g2 :: g3 :: g4 :: r3 =>
                          if is_high_surrogate uni && (b =? c_backslash)%N
                             && (u' =? 117)%N then
                            match hex4 g1 g2 g3 g4 with
                            | None =>
                                raise JSONDecodeError "Invalid \uXXXX escape"
                            | Some uni2 =>
                                if is_low_surrogate uni2 then
                                  cons_char (join_surrogates uni uni2)
                                            (scanstring r3)
                                else cons_char uni (scanstring r2)
                            end
                          else cons_char uni (scanstring r2)
                      | _ => cons_char uni (scanstring r2)
                      end
                  end
              | _ => raise JSONDecodeError "Invalid \uXXXX escape"
              end
            else
              match unescape e with
              | Some c' => cons_char c' (scanstring r1)
              | None => raise JSONDecodeError "Invalid \escape"
              end
        end
      else if (c <? 32)%N then
        raise JSONDecodeError "Invalid control character at"
      else cons_char c (scanstring r)
  end.
Proof. destruct s; reflexivity. Qed.

Lemma scanstring_u h1 h2 h3 h4 r2 uni :
  hex4 h1 h2 h3 h4 = Some uni -> is_high_surrogate uni = false ->
  scanstring (c_backslash :: 117%N :: h1 :: h2 :: h3 :: h4 :: r2)
  = cons_char uni (scanstring r2).
Proof.
  intros Hh Hs. rewrite scanstring_eq.
  change (c_backslash =? c_quote)%N with false.
  change (c_backslash =? c_backslash)%N with true.
  change (117 =? 117)%N with true. cbv iota. rewrite Hh.
  destruct r2 as [|? [|? [|? [|? [|? [|? ?]]]]]]; try reflexivity.
  rewrite Hs. reflexivity.
Qed.

Lemma scanstring_pair h1 h2 h3 h4 g1 g2 g3 g4 r3 hi lo :
  hex4 h1 h2 h3 h4 = Some hi -> hex4 g1 g2 g3 g4 = Some lo ->
  is_high_surrogate hi = true -> is_low_surrogate lo = true ->
  scanstring (c_backslash :: 117%N :: h1 :: h2 :: h3 :: h4
                :: c_backslash :: 117%N :: g1 :: g2 :: g3 :: g4 :: r3)
  = cons_char (join_surrogates hi lo) (scanstring r3).
Proof.
  intros Hh Hg Hs Hl. rewrite scanstring_eq.
  change (c_backslash =? c_quote)%N with false.
  change (c_backslash =? c_backslash)%N with true.
  change (117 =? 117)%N with true. cbv iota. rewrite Hh, Hs, Hg, Hl.
  reflexivity.
Qed.

Lemma scanstring_plain c r :
  (c =? c_quote)%N = false -> (c =? c_backslash)%N = false ->
  (c <? 32)%N = false ->
  scanstring (c :: r) = cons_char c (scanstring r).
Proof.
  intros H1 H2 H3. rewrite scanstring_eq. now rewrite H1, H2, H3.
Qed.

Lemma scanstring_short e c r :
  (e =? 117)%N = false -> unescape e = Some c ->
  scanstring (c_backslash :: e :: r) = cons_char c (scanstring r).
Proof.
  intros H1 H2. rewrite scanstring_eq.
  change (c_backslash =? c_quote)%N with false.
  change (c_backslash =? c_backslash)%N with true. cbv iota.
  now rewrite H1, H2.
Qed.

Lemma starts_low_escape_first b T :
  (b =? c_backslash)%N = false -> starts_low_escape (b :: T) = false.
Proof.
  intros H. unfold starts_low_escape.
  destruct T as [|? [|? [|? [|? [|? ?]]]]]; try reflexivity.
  now rewrite H.
Qed.

Lemma starts_low_escape_second b x T :
  (x =? 117)%N = false -> starts_low_escape (b :: x :: T) = false.
Proof.
  intros H. unfold starts_low_escape.
  destruct T as [|? [|? [|? [|? ?]]]]; try reflexivity.
  now rewrite H, andb_false_r.
Qed.

Lemma starts_low_escape_u h1 h2 h3 h4 T x :
  hex4 h1 h2 h3 h4 = Some x -> is_low_surrogate x = false ->
  starts_low_escape (c_backslash :: 117%N :: h1 :: h2 :: h3 :: h4 :: T) = false.
Proof.
  intros H1 H2. unfold starts_low_escape. rewrite H1, H2.
  apply andb_false_r.
Qed.

(** The escape of a character that is not a low surrogate does not start
    like the escape of one. *)
Lemma escape_not_low c T :
  code_point c = true -> is_low_surrogate c = false ->
  starts_low_escape (escape_char c ++ T) = false.
Proof.
  intros Hc Hl. unfold escape_char.
  destruct (c =? c_quote)%N; [now apply starts_low_escape_second|].
  destruct (N.eqb_spec c c_backslash) as [->|N2];
    [now apply starts_low_escape_second|].
  destruct (c =? 10)%N; [now apply starts_low_escape_second|].
  destruct (c =? 13)%N; [now apply starts_low_escape_second|].
  destruct (c =? 9)%N; [now apply starts_low_escape_second|].
  destruct (c =? 12)%N; [now apply starts_low_escape_second|].
  destruct (c =? 8)%N; [now apply starts_low_escape_second|].
  destruct ((32 <=? c) && (c <=? 126))%N.
  - cbn [app]. apply starts_low_escape_first. now apply N.eqb_neq.
  - unfold code_point in Hc. apply N.ltb_lt in Hc.
    destruct (N.ltb_spec c 65536) as [Hlt|Hge].
    + destruct (hex4_u_escape c Hlt) as (h1 & h2 & h3 & h4 & E & Hh).
      rewrite E. cbn [app]. now apply (starts_low_escape_u _ _ _ _ _ c).
    + set (v := (c - 65536)%N).
      assert (Hv : (v < 1048576)%N) by (subst v; lia). clearbody v.
      assert (Hq : (v / 1024 < 1024)%N)
        by (apply N.Div0.div_lt_upper_bound; lia).
      generalize dependent (v / 1024)%N. intros q Hq.
      destruct (hex4_u_escape (55296 + q)) as (h1 & h2 & h3 & h4 & E1 & Hh);
        [lia|].
      rewrite E1. cbn [app].
      apply (starts_low_escape_u _ _ _ _ _ (55296 + q)%N); [exact Hh|].
      unfold is_low_surrogate. apply andb_false_iff. left.
      apply N.leb_gt. lia.
Qed.

Lemma scanstring_u_high h1 h2 h3 h4 r2 uni :
  hex4 h1 h2 h3 h4 = Some uni -> starts_low_escape r2 = false ->
  scanstring (c_backslash :: 117%N :: h1 :: h2 :: h3 :: h4 :: r2)
  = cons_char uni (scanstring r2).
Proof.
  intros Hh Hs. rewrite scanstring_eq.
  change (c_backslash =? c_quote)%N with false.
  change (c_backslash =? c_backslash)%N with true.
  change (117 =? 117)%N with true. cbv iota. rewrite Hh.
  destruct r2 as [|b [|u' [|g1 [|g2 [|g3 [|g4 r3]]]]]]; try reflexivity.
  destruct (is_high_surrogate uni && (b =? c_backslash)%N && (u' =? 117)%N)
    eqn:Ec; [|reflexivity].
  apply andb_prop in Ec as [Ec Eu]. apply andb_prop in Ec as [_ Eb].
  unfold starts_low_escape in Hs. rewrite Eb, Eu in Hs. cbn [andb] in Hs.
  destruct (hex4 g1 g2 g3 g4) as [uni2|] eqn:Eg.
  - now rewrite Hs.
  - apply N.eqb_eq in Eb, Eu. subst b u'.
    rewrite (scanstring_eq (c_backslash :: 117%N :: g1 :: g2 :: g3 :: g4 :: r3)).
    change (c_backslash =? c_quote)%N with false.
    change (c_backslash =? c_backslash)%N with true.
    change (117 =? 117)%N with true. cbv iota. rewrite Eg. reflexivity.
Qed.

Lemma scanstring_escape_char c T :
  code_point c = true ->
  (is_high_surrogate c = true -> starts_low_escape T = false) ->
  scanstring (escape_char c ++ T) = cons_char c (scanstring T).
Proof.
  intros Hc Hhigh. unfold escape_char.
  destruct (N.eqb_spec c c_quote) as [->|N1];
    [apply scanstring_short; reflexivity|].
  destruct (N.eqb_spec c c_backslash) as [->|N2];
    [apply scanstring_short; reflexivity|].
  destruct (N.eqb_spec c 10) as [->|N3]; [apply scanstring_short; reflexivity|].
  destruct (N.eqb_spec c 13) as [->|N4]; [apply scanstring_short; reflexivity|].
  destruct (N.eqb_spec c 9) as [->|N5]; [apply scanstring_short; reflexivity|].
  destruct (N.eqb_spec c 12) as [->|N6]; [apply scanstring_short; reflexivity|].
  destruct (N.eqb_spec c 8) as [->|N7]; [apply scanstring_short; reflexivity|].
  destruct ((32 <=? c) && (c <=? 126))%N eqn:Ep.
  - apply andb_prop in Ep as [E1 E2]. apply N.leb_le in E1.
    apply scanstring_plain; try (apply N.eqb_neq; assumption).
    apply N.ltb_ge. exact E1.
  - unfold code_point in Hc. apply N.ltb_lt in Hc.
    destruct (N.ltb_spec c 65536) as [Hlt|Hge].
    + destruct (hex4_u_escape c Hlt) as (h1 & h2 & h3 & h4 & E & Hh).
      rewrite E. cbn [app].
      destruct (is_high_surrogate c) eqn:Eh.
      * apply scanstring_u_high; [exact Hh | now apply Hhigh].
      * apply scanstring_u; assumption.
    + set (v := (c - 65536)%N).
      assert (Hvc : (c = v + 65536)%N) by (subst v; lia).
      assert (Hv : (v < 1048576)%N) by (subst v; lia).
      clearbody v.
      pose proof (N.div_mod' v 1024) as Ev.
      assert (Hm : (v mod 1024 < 1024)%N) by (apply N.mod_lt; lia).
      assert (Hq : (v / 1024 < 1024)%N)
        by (apply N.Div0.div_lt_upper_bound; lia).
      generalize dependent (v / 1024)%N. generalize dependent (v mod 1024)%N.
      intros m Hm q Ev Hq.
      destruct (hex4_u_escape (55296 + q)) as (h1 & h2 & h3 & h4 & E1 & Hh);
        [lia|].
      destruct (hex4_u_escape (56320 + m)) as (g1 & g2 & g3 & g4 & E2 & Hg);
        [lia|].
      rewrite E1, E2. cbn [app].
      rewrite (scanstring_pair _ _ _ _ _ _ _ _ _ _ _ Hh Hg).
      * f_equal. unfold join_surrogates. lia.
      * unfold is_high_surrogate. apply andb_true_intro.
        split; apply N.leb_le; lia.
      * unfold is_low_surrogate. apply andb_true_intro.
        split; apply N.leb_le; lia.
Qed.

Lemma scanstring_escaped s rest :
  wf_str s = true ->
  scanstring (flat_map escape_char s ++ c_quote :: rest) = Ok (s, rest).
Proof.
  unfold wf_str. intros H. apply andb_prop in H as [Hcp Hnp].
  induction s as [|c s IH].
  - cbn [flat_map app]. rewrite scanstring_eq.
    change (c_quote =? c_quote)%N with true. reflexivity.
  - cbn [forallb] in Hcp. apply andb_prop in Hcp as [Hc Hs].
    cbn [no_surrogate_pair] in Hnp. apply andb_prop in Hnp as [Hpair Hnp].
    cbn [flat_map]. rewrite <- app_assoc.
    rewrite scanstring_escape_char; [now rewrite (IH Hs Hnp) | exact Hc |].
    intros Hhigh. destruct s as [|c2 s'].
    + cbn [flat_map app]. now apply starts_low_escape_first.
    + cbn [flat_map]. rewrite <- app_assoc.
      cbn [forallb] in Hs. apply andb_prop in Hs as [Hc2 _].
      apply escape_not_low; [exact Hc2|].
      rewrite Hhigh in Hpair. cbn [andb] in Hpair.
      now apply negb_true_iff in Hpair.
Qed.

(** *** Values *)

Lemma digit_head_ok c : is_digit c = true -> head_ok c.
Proof.
  unfold is_digit, head_ok, is_json_ws. intros H.
  apply andb_prop in H as [H1 H2]. apply N.leb_le in H1, H2.
  repeat split.
  - repeat (apply orb_false_intro); apply N.eqb_neq; lia.
  - unfold c_rbracket. lia.
  - lia.
Qed.

Lemma minus_head_ok : head_ok c_minus.
Proof. repeat split; discriminate. Qed.

Lemma str_of_Z_head z :
  exists c r, str_of_Z z = c :: r /\ head_ok c.
Proof.
  unfold str_of_Z. destruct (z <? 0).
  - repeat eexists; discriminate.
  - destruct (str_of_N_first_digit (Z.abs_N z)) as (c & r & -> & Hc).
    exists c, r. split; [reflexivity | now apply digit_head_ok].
Qed.

Lemma dumps_head v :
  wf_pyval v = true -> exists c r, json_dumps v = c :: r /\ head_ok c.
Proof.
  destruct v as [|[|]|z|[d|[|]|]|s|l|d]; intros Hwf;
    try (repeat eexists; discriminate).
  - apply str_of_Z_head.
  - cbn [json_dumps float_json]. unfold dec_repr.
    destruct (dneg d).
    + repeat eexists; discriminate.
    + cbn [wf_pyval float_canonical] in Hwf. unfold dec_canonical in Hwf.
      apply andb_prop in Hwf as [Hd _].
      destruct (dec_body_head (ddigits d) (dpt d) Hd) as (c & r & -> & Hc).
      exists c, r. split; [reflexivity | now apply digit_head_ok].
Qed.

Lemma skip_ws_head c r : is_json_ws c = false -> skip_ws (c :: r) = c :: r.
Proof. intros H. cbn [skip_ws]. now rewrite H. Qed.

Lemma skip_ws_space r : skip_ws (32%N :: r) = skip_ws r.
Proof. reflexivity. Qed.

(** A successful [scan_number] decides [scan_once]. *)
Lemma scan_once_number n s v r :
  scan_number s = Some (v, r) -> scan_once (S n) s = Ok (v, r).
Proof.
  destruct s as [|c s']; [discriminate|]. intros H.
  assert (Hc : c = c_minus \/ is_digit c = true).
  { cbn [scan_number] in H. destruct (N.eqb_spec c c_minus); [now left|].
    right. cbn [scan_unsigned] in H. destruct (is_digit c); [reflexivity|].
    discriminate. }
  cbn [scan_once].
  assert (Hq : (c =? c_quote)%N = false /\ (c =? c_lbrace)%N = false
               /\ (c =? c_lbracket)%N = false
               /\ (110 =? c)%N = false /\ (116 =? c)%N = false
               /\ (102 =? c)%N = false).
  { destruct Hc as [->|Hd]; [repeat split|].
    unfold is_digit in Hd. apply andb_prop in Hd as [H1 H2].
    apply N.leb_le in H1, H2.
    repeat split; apply N.eqb_neq; unfold c_quote, c_lbrace, c_lbracket; lia. }
  destruct Hq as (Q1 & Q2 & Q3 & Q4 & Q5 & Q6).
  rewrite Q1, Q2, Q3.
  change (starts_with (u "null") (c :: s'))
    with (if (110 =? c)%N then starts_with (u "ull") s' else None).
  rewrite Q4.
  change (starts_with (u "true") (c :: s'))
    with (if (116 =? c)%N then starts_with (u "rue") s' else None).
  rewrite Q5.
  change (starts_with (u "false") (c :: s'))
    with (if (102 =? c)%N then starts_with (u "alse") s' else None).
  rewrite Q6. now rewrite H.
Qed.

Lemma stops_rbracket r : stops (c_rbracket :: r).
Proof. repeat split; discriminate. Qed.
Lemma stops_rbrace r : stops (c_rbrace :: r).
Proof. repeat split; discriminate. Qed.
Lemma stops_comma r : stops (c_comma :: r).
Proof. repeat split; discriminate. Qed.


Lemma join_two sep p q ps :
  join sep (p :: q :: ps) = p ++ sep ++ join sep (q :: ps).
Proof. reflexivity. Qed.

Lemma array_loop : forall l acc n rest,
  l <> [] ->
  Forall roundtrips l -> forallb wf_pyval l = true ->
  (List.length (join (u ", ") (map json_dumps l)) + 1 <= n)%nat ->
  json_array n acc (join (u ", ") (map json_dumps l) ++ c_rbracket :: rest)
  = Ok (PList (acc ++ l), rest).
Proof.
  induction l as [|v l IH]; intros acc n rest Hne HP Hwf Hn; [congruence|].
  inversion HP as [|? ? Pv Pl]; subst.
  cbn [forallb] in Hwf. apply andb_prop in Hwf as [Hv Hl].
  destruct l as [|v2 l'].
  - cbn [map join] in *. destruct n as [|k]; [lia|].
    cbn [json_array].
    rewrite (Pv Hv k (c_rbracket :: rest)) by (lia || apply stops_rbracket).
    cbn [bind]. rewrite skip_ws_head by reflexivity.
    change (c_rbracket =? c_rbracket)%N with true. reflexivity.
  - cbn [map] in *. rewrite join_two in *.
    rewrite !length_app in Hn. change (List.length (u ", ")) with 2%nat in Hn.
    destruct n as [|k]; [lia|].
    cbn [json_array]. rewrite <- !app_assoc.
    change (u ", " ++ join (u ", ") (json_dumps v2 :: map json_dumps l')
              ++ c_rbracket :: rest)
      with (c_comma :: 32%N :: join (u ", ") (json_dumps v2 :: map json_dumps l')
              ++ c_rbracket :: rest).
    rewrite (Pv Hv k) by (lia || apply stops_comma).
    cbn [bind]. rewrite skip_ws_head by reflexivity.
    change (c_comma =? c_rbracket)%N with false.
    change (c_comma =? c_comma)%N with true. cbv iota.
    rewrite skip_ws_space.
    assert (Hh : exists c r,
               join (u ", ") (json_dumps v2 :: map json_dumps l') = c :: r
               /\ head_ok c).
    { cbn [forallb] in Hl. apply andb_prop in Hl as [Hv2 _].
      destruct (dumps_head v2 Hv2) as (c & r & E & Hc).
      destruct (join_cons (u ", ") (json_dumps v2) (map json_dumps l'))
        as [tl Etl].
      rewrite Etl, E. exists c, (r ++ tl). split; [reflexivity | exact Hc]. }
    destruct Hh as (c & r & E & (Hws & _)).
    rewrite E. cbn [app]. rewrite skip_ws_head by exact Hws.
    change (c :: r ++ c_rbracket :: rest) with ((c :: r) ++ c_rbracket :: rest).
    rewrite <- E.
    rewrite (IH (acc ++ [v]) k rest) by (try discriminate; try assumption; lia).
    rewrite <- app_assoc. reflexivity.
Qed.

Lemma dict_set_fresh acc k v :
  ~ In k (map fst acc) -> dict_set acc k v = acc ++ [(k, v)].
Proof.
  induction acc as [|[k' v'] acc IH]; intros H; [reflexivity|].
  cbn [dict_set map fst In] in *.
  rewrite pystr_eqb_neq by (intros E; apply H; now left).
  rewrite IH by tauto. reflexivity.
Qed.

Lemma nodup_keys_NoDup ks : nodup_keys ks = true -> NoDup ks.
Proof.
  induction ks as [|k ks IH]; intros H; [constructor|].
  cbn [nodup_keys] in H. apply andb_prop in H as [H1 H2].
  constructor; [|auto].
  intros Hin. apply negb_true_iff in H1.
  assert (E : existsb (pystr_eqb k) ks = true)
    by (apply existsb_exists; exists k; split;
        [assumption | apply pystr_eqb_refl]).
  congruence.
Qed.


Lemma member_eq k v :
  member (k, v)
  = c_quote :: flat_map escape_char k
      ++ c_quote :: c_colon :: 32%N :: json_dumps v.
Proof.
  unfold member, encode_basestring_ascii. cbn [fst snd app].
  rewrite <- app_assoc. reflexivity.
Qed.

Lemma object_loop : forall d k v acc n rest,
  Forall (fun kv => roundtrips (snd kv)) ((k, v) :: d) ->
  forallb (fun kv => wf_str (fst kv) && wf_pyval (snd kv)) ((k, v) :: d) = true ->
  NoDup (map fst acc ++ map fst ((k, v) :: d)) ->
  (List.length (join (u ", ") (map member ((k, v) :: d))) + 1 <= n)%nat ->
  json_object n acc
    (flat_map escape_char k ++ c_quote :: c_colon :: 32%N :: json_dumps v
       ++ (match d with
           | [] => []
           | _ => u ", " ++ join (u ", ") (map member d)
           end) ++ c_rbrace :: rest)
  = Ok (PDict (acc ++ (k, v) :: d), rest).
Proof.
  induction d as [|[k2 v2] d IH]; intros k v acc n rest HP Hwf Hnd Hn.
  - inversion HP as [|? ? Pv _]; subst. cbn [snd] in Pv.
    cbn [forallb fst snd] in Hwf. rewrite andb_true_r in Hwf.
    apply andb_prop in Hwf as [Hk Hv].
    cbn [map join] in Hn. rewrite member_eq in Hn.
    cbn [List.length] in Hn. rewrite length_app in Hn. cbn [List.length] in Hn.
    destruct n as [|n']; [lia|].
    cbn [json_object app].
    rewrite (scanstring_escaped k _ Hk). cbn [bind].
    rewrite skip_ws_head by reflexivity.
    change (negb (c_colon =? c_colon)%N) with false. cbv iota.
    rewrite skip_ws_space.
    destruct (dumps_head v Hv) as (c & r & E & (Hws & _)).
    rewrite E. cbn [app]. rewrite skip_ws_head by exact Hws.
    change (c :: r ++ c_rbrace :: rest) with ((c :: r) ++ c_rbrace :: rest).
    rewrite <- E.
    rewrite (Pv Hv n') by (lia || apply stops_rbrace).
    cbn [bind]. rewrite skip_ws_head by reflexivity.
    change (c_rbrace =? c_rbrace)%N with true. cbv iota.
    rewrite dict_set_fresh; [reflexivity|].
    cbn [map fst] in Hnd. apply NoDup_remove_2 in Hnd.
    intros Hin. apply Hnd. apply in_or_app. now left.
  - inversion HP as [|? ? Pv Pd]; subst. cbn [snd] in Pv.
    pose proof Hwf as Hwf'. cbn [forallb] in Hwf'.
    apply andb_prop in Hwf' as [Hkv Hd]. cbn [fst snd] in Hkv.
    apply andb_prop in Hkv as [Hk Hv].
    change (map member ((k, v) :: (k2, v2) :: d))
      with (member (k, v) :: member (k2, v2) :: map member d) in Hn.
    rewrite join_two in Hn. rewrite member_eq in Hn.
    rewrite !length_app in Hn. cbn [List.length] in Hn.
    rewrite !length_app in Hn. cbn [List.length] in Hn.
    change (List.length (u ", ")) with 2%nat in Hn.
    destruct n as [|n']; [lia|].
    cbn [json_object].
    rewrite (scanstring_escaped k _ Hk). cbn [bind].
    rewrite skip_ws_head by reflexivity.
    change (negb (c_colon =? c_colon)%N) with false. cbv iota.
    rewrite skip_ws_space.
    destruct (dumps_head v Hv) as (c & r & E & (Hws & _)).
    rewrite E. cbn [app]. rewrite skip_ws_head by exact Hws.
    change (c :: r ++ (u ", " ++ join (u ", ") (map member ((k2, v2) :: d)))
              ++ c_rbrace :: rest)
      with ((c :: r) ++ (u ", " ++ join (u ", ") (map member ((k2, v2) :: d)))
              ++ c_rbrace :: rest).
    rewrite <- E.
    change ((u ", " ++ join (u ", ") (map member ((k2, v2) :: d)))
              ++ c_rbrace :: rest)
      with (c_comma :: 32%N :: join (u ", ") (map member ((k2, v2) :: d))
              ++ c_rbrace :: rest).
    rewrite (Pv Hv n') by (lia || apply stops_comma).
    cbn [bind]. rewrite skip_ws_head by reflexivity.
    change (c_comma =? c_rbrace)%N with false.
    change (c_comma =? c_comma)%N with true. cbv iota.
    rewrite skip_ws_space.
    assert (Ej : join (u ", ") (map member ((k2, v2) :: d))
                 = c_quote :: flat_map escape_char k2
                     ++ c_quote :: c_colon :: 32%N :: json_dumps v2
                     ++ match d with
                        | [] => []
                        | _ => u ", " ++ join (u ", ") (map member d)
                        end).
    { cbn [map]. destruct d as [|kv3 d'].
      - cbn [join map]. rewrite member_eq. now rewrite app_nil_r.
      - cbn [map]. rewrite join_two, member_eq.
        cbn [app]. f_equal. rewrite <- app_assoc. reflexivity. }
    rewrite Ej. cbn [app]. rewrite skip_ws_head by reflexivity.
    change (c_quote =? c_quote)%N with true. cbv iota.
    rewrite dict_set_fresh.
    2:{ cbn [map fst] in Hnd. apply NoDup_remove_2 in Hnd.
        intros Hin. apply Hnd. apply in_or_app. now left. }
    rewrite <- !app_assoc. cbn [app]. rewrite <- !app_assoc.
    rewrite (IH k2 v2 (acc ++ [(k, v)]) n' rest).
    + rewrite <- app_assoc. reflexivity.
    + exact Pd.
    + exact Hd.
    + rewrite map_app. cbn [map fst]. rewrite <- app_assoc. exact Hnd.
    + change (member (k2, v2) :: map member d)
        with (map member ((k2, v2) :: d)) in Hn.
      lia.
Qed.

Lemma json_dumps_nonempty v : (1 <= List.length (json_dumps v))%nat.
Proof.
  destruct v as [|[|]|z|[d|[|]|]|s|l|d]; cbn [json_dumps float_json List.length];
    try lia.
  - vm_compute; lia.
  - vm_compute; lia.
  - vm_compute; lia.
  - unfold str_of_Z. destruct (z <? 0); [cbn [List.length]; lia|].
    destruct (str_of_N_first_digit (Z.abs_N z)) as (c & r & -> & _).
    cbn [List.length]. lia.
  - unfold dec_repr, dec_body. rewrite length_app.
    destruct (ddigits d) as [|d1 tl];
      [change (List.length (u "0.0")) with 3%nat; lia|].
    destruct ((dpt d <=? -4) || (16 <? dpt d)); [cbn [List.length]; lia|].
    destruct (dpt d <=? 0); [cbn [List.length]; lia|].
    destruct (Z.of_nat _ <=? dpt d).
    + rewrite length_app. cbn [List.length]. lia.
    + rewrite length_app. cbn [List.length]. lia.
  - vm_compute; lia.
  - vm_compute; lia.
  - vm_compute; lia.
  - unfold encode_basestring_ascii. cbn [List.length]. lia.
Qed.

Lemma scan_once_roundtrip : forall v, roundtrips v.
Proof.
  apply pyval_nested_ind; unfold roundtrips.
  - intros _ [|n] rest Hn Hs; [cbn in Hn; lia | reflexivity].
  - intros [|] _ [|n] rest Hn Hs; try (cbn in Hn; lia); reflexivity.
  - intros z _ n rest Hn Hs.
    pose proof (json_dumps_nonempty (PInt z)).
    destruct n as [|n]; [lia|].
    apply scan_once_number. cbn [json_dumps]. now apply scan_number_int.
  - intros [d|[|]|] Hwf [|n] rest Hn Hs;
      try (pose proof (json_dumps_nonempty (PFloat (FFin d))); lia);
      try (cbn in Hn; lia); try reflexivity.
    apply scan_once_number. cbn [json_dumps float_json].
    now apply scan_number_float.
  - intros s Hwf [|n] rest Hn Hs; [cbn in Hn; lia|].
    cbn [json_dumps]. unfold encode_basestring_ascii.
    cbn [app scan_once]. change (c_quote =? c_quote)%N with true. cbv iota.
    rewrite <- app_assoc. cbn [app].
    rewrite (scanstring_escaped s rest Hwf). reflexivity.
  - intros l HP Hwf [|n] rest Hn Hs; [cbn in Hn; lia|].
    cbn [wf_pyval] in Hwf. cbn [json_dumps] in *.
    cbn [List.length] in Hn. rewrite length_app in Hn. cbn [List.length] in Hn.
    cbn [app scan_once].
    change (c_lbracket =? c_quote)%N with false.
    change (c_lbracket =? c_lbrace)%N with false.
    change (c_lbracket =? c_lbracket)%N with true. cbv iota.
    rewrite <- app_assoc. cbn [app].
    destruct l as [|v l].
    + cbn [map join app]. rewrite skip_ws_head by reflexivity.
      change (c_rbracket =? c_rbracket)%N with true. reflexivity.
    + assert (Hh : exists c r,
                 join (u ", ") (map json_dumps (v :: l)) = c :: r /\ head_ok c).
      { cbn [forallb] in Hwf. apply andb_prop in Hwf as [Hv _].
        destruct (dumps_head v Hv) as (c & r & E & Hc).
        cbn [map].
        destruct (join_cons (u ", ") (json_dumps v) (map json_dumps l))
          as [tl Etl].
        rewrite Etl, E. exists c, (r ++ tl). split; [reflexivity | exact Hc]. }
      destruct Hh as (c & r & E & (Hws & Hrb & _)).
      rewrite E. cbn [app]. rewrite skip_ws_head by exact Hws.
      apply N.eqb_neq in Hrb. rewrite Hrb.
      change (c :: r ++ c_rbracket :: rest) with ((c :: r) ++ c_rbracket :: rest).
      rewrite <- E.
      apply (array_loop (v :: l) [] n rest); try assumption; try discriminate.
      lia.
  - intros d HP Hwf [|n] rest Hn Hs; [cbn in Hn; lia|].
    cbn [wf_pyval] in Hwf. apply andb_prop in Hwf as [Hnd Hwf].
    cbn [json_dumps] in *. fold member in *.
    change (map (fun kv => encode_basestring_ascii (fst kv) ++ u ": "
                             ++ json_dumps (snd kv)) d)
      with (map member d) in *.
    cbn [List.length] in Hn. rewrite length_app in Hn. cbn [List.length] in Hn.
    cbn [app scan_once].
    change (c_lbrace =? c_quote)%N with false.
    change (c_lbrace =? c_lbrace)%N with true. cbv iota.
    rewrite <- app_assoc. cbn [app].
    destruct d as [|[k v] d].
    + cbn [map join app]. rewrite skip_ws_head by reflexivity.
      change (c_rbrace =? c_rbrace)%N with true. reflexivity.
    + assert (Ej : join (u ", ") (map member ((k, v) :: d))
                   = c_quote :: flat_map escape_char k
                       ++ c_quote :: c_colon :: 32%N :: json_dumps v
                       ++ match d with
                          | [] => []
                          | _ => u ", " ++ join (u ", ") (map member d)
                          end).
      { cbn [map]. destruct d as [|kv3 d'].
        - cbn [join map]. rewrite member_eq. now rewrite app_nil_r.
        - cbn [map]. rewrite join_two, member_eq.
          cbn [app]. f_equal. rewrite <- app_assoc. reflexivity. }
      pose proof Hn as Hn'. rewrite Ej. cbn [app].
      rewrite skip_ws_head by reflexivity.
      change (c_quote =? c_rbrace)%N with false.
      change (c_quote =? c_quote)%N with true. cbv iota.
      rewrite <- !app_assoc. cbn [app]. rewrite <- !app_assoc.
      apply (object_loop d k v [] n rest); try assumption.
      * cbn [app]. now apply nodup_keys_NoDup.
      * lia.
Qed.

Theorem json_loads_dumps v :
  wf_pyval v = true -> json_loads (json_dumps v) = Ok v.
Proof.
  intros Hwf. unfold json_loads.
  destruct (dumps_head v Hwf) as (c & r & E & (Hws & _ & Hbom)).
  pose proof (scan_once_roundtrip v Hwf
                (2 * List.length (json_dumps v) + 1)%nat [] ltac:(lia) I) as H.
  rewrite app_nil_r in H.
  rewrite E in *.
  assert (Hm : forall A (x y : A),
             match c :: r with 65279%N :: _ => x | _ => y end = y).
  { intros A x y.
    destruct c as [|p]; [reflexivity|].
    repeat (destruct p as [p|p|]; try reflexivity). congruence. }
  rewrite Hm. rewrite skip_ws_head by exact Hws.
  rewrite H. reflexivity.
Qed.

(** ** The decoder always has fuel *)

Lemma cons_char_ok c m k k' :
  scan_ok m k -> (k <= k')%nat -> scan_ok (cons_char c m) k'.
Proof.
  destruct m as [[str r]|e]; cbn [scan_ok cons_char bind]; intros; [lia | assumption].
Qed.

Lemma scanstring_ok_bounded : forall n s,
  (List.length s <= n)%nat -> scan_ok (scanstring s) (List.length s).
Proof.
  induction n as [|n IH]; intros s Hn.
  - destruct s; [reflexivity | cbn in Hn; lia].
  - rewrite scanstring_eq. destruct s as [|c r]; [reflexivity|].
    cbn [List.length] in *.
    destruct (c =? c_quote)%N; [cbn; lia|].
    destruct (c =? c_backslash)%N.
    + destruct r as [|e r1]; [reflexivity|]. cbn [List.length] in *.
      destruct (e =? 117)%N.
      * destruct r1 as [|h1 [|h2 [|h3 [|h4 r2]]]]; try reflexivity.
        cbn [List.length] in *.
        destruct (hex4 h1 h2 h3 h4) as [uni|]; [|reflexivity].
        assert (H2 : scan_ok (cons_char uni (scanstring r2))
                             (S (S (S (S (S (S (List.length r2)))))))).
        { apply (cons_char_ok _ _ (List.length r2)); [apply IH|]; lia. }
        destruct r2 as [|b [|u' [|g1 [|g2 [|g3 [|g4 r3]]]]]]; try exact H2.
        destruct (is_high_surrogate uni && (b =? c_backslash)%N
                  && (u' =? 117)%N); [|exact H2].
        destruct (hex4 g1 g2 g3 g4) as [uni2|]; [|reflexivity].
        destruct (is_low_surrogate uni2); [|exact H2].
        cbn [List.length] in *.
        apply (cons_char_ok _ _ (List.length r3)); [apply IH|]; lia.
      * destruct (unescape e); [|reflexivity].
        apply (cons_char_ok _ _ (List.length r1)); [apply IH|]; lia.
    + destruct (c <? 32)%N; [reflexivity|].
      apply (cons_char_ok _ _ (List.length r)); [apply IH|]; lia.
Qed.

Lemma scanstring_ok s : scan_ok (scanstring s) (List.length s).
Proof. now apply (scanstring_ok_bounded (List.length s)). Qed.

Lemma skip_ws_length s : (List.length (skip_ws s) <= List.length s)%nat.
Proof.
  induction s as [|c s IH]; cbn [skip_ws List.length]; [lia|].
  destruct (is_json_ws c); cbn [List.length]; lia.
Qed.

Lemma span_digits_length s :
  List.length s
  = (List.length (fst (span_digits s)) + List.length (snd (span_digits s)))%nat.
Proof.
  induction s as [|c s IH]; cbn [span_digits]; [reflexivity|].
  destruct (is_digit c); [|reflexivity].
  destruct (span_digits s) as [ds rest]. cbn [fst snd List.length] in *. lia.
Qed.

Lemma scan_exponent_length s e r :
  scan_exponent s = Some (e, r) -> (List.length r < List.length s)%nat.
Proof.
  destruct s as [|c s']; [discriminate|]. cbn [scan_exponent].
  destruct (is_e c); [|discriminate].
  assert (H : forall t, (List.length t <= List.length s')%nat ->
              match (let (ds, rest) := span_digits t in
                     match ds with
                     | [] => None
                     | _ => Some (ds, rest)
                     end) with
              | Some (_, rest) => (List.length rest < List.length (c :: s'))%nat
              | None => True
              end).
  { intros t Ht. pose proof (span_digits_length t) as L.
    destruct (span_digits t) as [ds rest]. cbn [fst snd] in L.
    destruct ds; [exact I|]. cbn [List.length] in *. lia. }
  destruct s' as [|c1 r'].
  - cbn. discriminate.
  - destruct (c1 =? c_minus)%N.
    + specialize (H r' ltac:(cbn; lia)).
      destruct (span_digits r') as [ds rest]. destruct ds; [discriminate|].
      intros E. injection E as _ <-. exact H.
    + destruct (c1 =? c_plus)%N.
      * specialize (H r' ltac:(cbn; lia)).
        destruct (span_digits r') as [ds rest]. destruct ds; [discriminate|].
        intros E. injection E as _ <-. exact H.
      * specialize (H (c1 :: r') ltac:(lia)).
        destruct (span_digits (c1 :: r')) as [ds rest].
        destruct ds; [discriminate|].
        intros E. injection E as _ <-. exact H.
Qed.

Lemma scan_fraction_length s :
  (List.length (snd (scan_fraction s)) <= List.length s)%nat.
Proof.
  destruct s as [|c r]; cbn [scan_fraction]; [cbn; lia|].
  destruct (c =? c_dot)%N; [|cbn; lia].
  pose proof (span_digits_length r) as L.
  destruct (span_digits r) as [ds rest]. cbn [fst snd] in L.
  destruct ds; cbn [snd List.length] in *; lia.
Qed.

Lemma number_value_length neg ip s :
  (List.length (snd (number_value neg ip s)) <= List.length s)%nat.
Proof.
  unfold number_value. pose proof (scan_fraction_length s) as L.
  destruct (scan_fraction s) as [fp r2]. cbn [snd] in L.
  destruct (scan_exponent r2) as [[e r3]|] eqn:E.
  - apply scan_exponent_length in E. destruct fp; cbn [snd]; lia.
  - destruct fp; cbn [snd]; lia.
Qed.

Lemma scan_unsigned_length neg s v r :
  scan_unsigned neg s = Some (v, r) -> (List.length r < List.length s)%nat.
Proof.
  destruct s as [|d s']; [discriminate|]. cbn [scan_unsigned].
  destruct (negb (is_digit d)); [discriminate|].
  destruct (d =? c_zero)%N.
  - pose proof (number_value_length neg [d] s') as L.
    destruct (number_value neg [d] s') as [v' r']. cbn [snd] in L.
    intros E. injection E as _ <-. cbn [List.length]. lia.
  - pose proof (span_digits_length s') as L1.
    destruct (span_digits s') as [ds rest]. cbn [fst snd] in L1.
    pose proof (number_value_length neg (d :: ds) rest) as L.
    destruct (number_value neg (d :: ds) rest) as [v' r']. cbn [snd] in L.
    intros E. injection E as _ <-. cbn [List.length]. lia.
Qed.

Lemma scan_number_length s v r :
  scan_number s = Some (v, r) -> (List.length r < List.length s)%nat.
Proof.
  destruct s as [|c s']; [discriminate|]. cbn [scan_number].
  destruct (c =? c_minus)%N; intros H; apply scan_unsigned_length in H;
    cbn [List.length] in *; lia.
Qed.

Lemma starts_with_length p : forall s r,
  starts_with p s = Some r ->
  List.length s = (List.length p + List.length r)%nat.
Proof.
  induction p as [|a p IH]; intros s r; cbn [starts_with].
  - intros E. injection E as <-. reflexivity.
  - destruct s as [|b s']; [discriminate|].
    destruct (a =? b)%N; [|discriminate].
    intros E. apply IH in E. cbn [List.length]. lia.
Qed.

Lemma scan_constants_ok n s :
  s <> [] ->
  scan_ok
    (match starts_with (u "null") s with
     | Some r' => Ok (PNone, r')
     | None =>
     match starts_with (u "true") s with
     | Some r' => Ok (PBool true, r')
     | None =>
     match starts_with (u "false") s with
     | Some r' => Ok (PBool false, r')
     | None =>
     match scan_number s with
     | Some vr => Ok vr
     | None =>
     match starts_with (u "NaN") s with
     | Some r' => Ok (PFloat FNaN, r')
     | None =>
     match starts_with (u "Infinity") s with
     | Some r' => Ok (PFloat (FInf false), r')
     | None =>
     match starts_with (u "-Infinity") s with
     | Some r' => Ok (PFloat (FInf true), r')
     | None => expecting_value
     end end end end end end end) (List.length s + n).
Proof.
  intros Hne.
  destruct (starts_with (u "null") s) eqn:E1;
    [apply starts_with_length in E1; cbn [scan_ok]; rewrite E1;
     change (List.length (u "null")) with 4%nat; lia|].
  destruct (starts_with (u "true") s) eqn:E2;
    [apply starts_with_length in E2; cbn [scan_ok]; rewrite E2;
     change (List.length (u "true")) with 4%nat; lia|].
  destruct (starts_with (u "false") s) eqn:E3;
    [apply starts_with_length in E3; cbn [scan_ok]; rewrite E3;
     change (List.length (u "false")) with 5%nat; lia|].
  destruct (scan_number s) as [[v r]|] eqn:E4;
    [apply scan_number_length in E4; cbn [scan_ok]; lia|].
  destruct (starts_with (u "NaN") s) eqn:E5;
    [apply starts_with_length in E5; cbn [scan_ok]; rewrite E5;
     change (List.length (u "NaN")) with 3%nat; lia|].
  destruct (starts_with (u "Infinity") s) eqn:E6;
    [apply starts_with_length in E6; cbn [scan_ok]; rewrite E6;
     change (List.length (u "Infinity")) with 8%nat; lia|].
  destruct (starts_with (u "-Infinity") s) eqn:E7;
    [apply starts_with_length in E7; cbn [scan_ok]; rewrite E7;
     change (List.length (u "-Infinity")) with 9%nat; lia|].
  reflexivity.
Qed.

Lemma scan_ok_weaken {A} (m : res (A * pystr)) k k' :
  scan_ok m k -> (k <= k')%nat -> scan_ok m k'.
Proof. destruct m as [[v r]|e]; cbn [scan_ok]; intros; [lia | assumption]. Qed.

Lemma decoder_fuel : forall n,
  (forall s, (2 * List.length s + 1 <= n)%nat ->
             scan_ok (scan_once n s) (List.length s))
  /\ (forall acc s, (2 * List.length s + 2 <= n)%nat ->
                    scan_ok (json_array n acc s) (List.length s))
  /\ (forall acc s, (2 * List.length s + 1 <= n)%nat ->
                    scan_ok (json_object n acc s) (List.length s)).
Proof.
  induction n as [|k (IHs & IHa & IHo)].
  - repeat split; intros; lia.
  - split; [|split].
    + intros s Hn. cbn [scan_once]. destruct s as [|c r]; [reflexivity|].
      cbn [List.length] in Hn.
      destruct (c =? c_quote)%N.
      { pose proof (scanstring_ok r) as H.
        destruct (scanstring r) as [[key r']|e]; cbn [bind scan_ok] in *;
          [cbn [List.length]; lia | assumption]. }
      destruct (c =? c_lbrace)%N.
      { pose proof (skip_ws_length r) as L.
        destruct (skip_ws r) as [|c1 r2]; [reflexivity|].
        cbn [List.length] in L.
        destruct (c1 =? c_rbrace)%N; [cbn [scan_ok List.length]; lia|].
        destruct (c1 =? c_quote)%N; [|reflexivity].
        apply (scan_ok_weaken _ (List.length r2));
          [apply IHo | cbn [List.length]]; lia. }
      destruct (c =? c_lbracket)%N.
      { pose proof (skip_ws_length r) as L.
        destruct (skip_ws r) as [|c1 r2]; [reflexivity|].
        cbn [List.length] in L.
        destruct (c1 =? c_rbracket)%N; [cbn [scan_ok List.length]; lia|].
        apply (scan_ok_weaken _ (List.length (c1 :: r2)));
          [apply IHa | ]; cbn [List.length]; lia. }
      pose proof (scan_constants_ok 0 (c :: r) ltac:(discriminate)) as H.
      rewrite Nat.add_0_r in H. exact H.
    + intros acc s Hn. cbn [json_array].
      pose proof (IHs s ltac:(lia)) as H.
      destruct (scan_once k s) as [[v r]|e]; cbn [bind scan_ok] in *;
        [|assumption].
      destruct (skip_ws r) as [|c r1] eqn:E; [reflexivity|].
      pose proof (skip_ws_length r) as L. rewrite E in L.
      cbn [List.length] in L.
      destruct (c =? c_rbracket)%N; [cbn [scan_ok]; lia|].
      destruct (c =? c_comma)%N; [|reflexivity].
      pose proof (skip_ws_length r1) as L1.
      apply (scan_ok_weaken _ (List.length (skip_ws r1)));
        [apply IHa |]; lia.
    + intros acc s Hn. cbn [json_object].
      pose proof (scanstring_ok s) as H.
      destruct (scanstring s) as [[key r]|e]; cbn [bind scan_ok] in *;
        [|assumption].
      destruct (skip_ws r) as [|c r1] eqn:E; [reflexivity|].
      pose proof (skip_ws_length r) as L. rewrite E in L.
      cbn [List.length] in L.
      destruct (negb (c =? c_colon)%N); [reflexivity|].
      pose proof (skip_ws_length r1) as L1.
      pose proof (IHs (skip_ws r1) ltac:(lia)) as H1.
      destruct (scan_once k (skip_ws r1)) as [[v r2]|e]; cbn [bind scan_ok] in *;
        [|assumption].
      destruct (skip_ws r2) as [|c2 r3] eqn:E2; [reflexivity|].
      pose proof (skip_ws_length r2) as L2. rewrite E2 in L2.
      cbn [List.length] in L2.
      destruct (c2 =? c_rbrace)%N; [cbn [scan_ok]; lia|].
      destruct (c2 =? c_comma)%N; [|reflexivity].
      destruct (skip_ws r3) as [|c3 r4] eqn:E3; [reflexivity|].
      pose proof (skip_ws_length r3) as L3. rewrite E3 in L3.
      cbn [List.length] in L3.
      destruct (c3 =? c_quote)%N; [|reflexivity].
      apply (scan_ok_weaken _ (List.length r4)); [apply IHo |]; lia.
Qed.

(** The decoder of this model never stops for lack of fuel: every failure of
    [json_loads] is a [JSONDecodeError]. Python's decoder also fails, with a
    [RecursionError], on a text nested deeper than the recursion limit; the
    statements about the program do not rest on this theorem. *)
Theorem json_loads_error_kind s e :
  json_loads s = Raise e -> ekind e = JSONDecodeError.
Proof.
  unfold json_loads.
  assert (H : forall m : res (pyval * pystr),
             scan_ok m (S (List.length s)) ->
             ('(v, r) <- m ;;
              match skip_ws r with
              | [] => Ok v
              | _ => raise JSONDecodeError "Extra data"
              end) = Raise e -> ekind e = JSONDecodeError).
  { intros [[v r]|e'] Hm; cbn [bind scan_ok] in *.
    - destruct (skip_ws r); [discriminate|].
      intros E. injection E as <-. reflexivity.
    - intros E. injection E as <-. exact Hm. }
  pose proof (skip_ws_length s) as L.
  pose proof (proj1 (decoder_fuel (2 * List.length s + 1)) (skip_ws s)
                ltac:(lia)) as Hs.
  apply (scan_ok_weaken _ _ (S (List.length s))) in Hs; [|lia].
  destruct s as [|c s'].
  - apply H. exact Hs.
  - destruct c as [|p]; [apply H; exact Hs|].
    repeat (destruct p as [p|p|]; try (apply H; exact Hs)).
    intros E. injection E as <-. reflexivity.
Qed.

(** The branch of [parse_cycles] for a decoded value that is not a dict is
    never taken: with the decoder of this model, the body of the inner [try]
    of logic.py fails with a [JSONDecodeError] or not at all. *)
Lemma parse_cycles_error_kind t e :
  Logic.parse_cycles (Some t) = Raise e -> ekind e = JSONDecodeError.
Proof.
  unfold Logic.parse_cycles. cbv zeta.
  change ((0 <=? find c_lbrace (strip t))
          && (find c_lbrace (strip t) <? rfind c_rbrace (strip t) + 1))
    with (Main.json_found t).
  change (py_slice (strip t) (find c_lbrace (strip t))
                   (rfind c_rbrace (strip t) + 1))
    with (Main.json_candidate t).
  destruct (Main.json_found t) eqn:Hf.
  - destruct (json_candidate_shape t Hf) as [l Hl]. rewrite Hl.
    destruct (json_loads (c_lbrace :: l ++ [c_rbrace])) as [v|e'] eqn:E.
    + destruct (json_loads_brace_dict _ _ E) as [d ->]. cbn [bind].
      destruct (negb (dict_mem d Logic.k_razonamiento)
                && negb (dict_mem d Logic.k_respuesta_final)); discriminate.
    + cbn [bind]. intros H. injection H as <-.
      exact (json_loads_error_kind _ _ E).
  - cbn [bind]. intros H. injection H as <-. reflexivity.
Qed.

(** ** The decoder yields well-formed values *)

(** *** Numbers *)

Lemma strip_zeros_digits s :
  forallb is_digit s = true -> forallb is_digit (strip_zeros s) = true.
Proof.
  induction s as [|c s IH]; [reflexivity|]. intros H. cbn [strip_zeros].
  destruct (c =? c_zero)%N; [|exact H].
  cbn [forallb] in H. apply andb_prop in H as [_ H]. auto.
Qed.

Lemma strip_zeros_nonzero s c r : strip_zeros s = c :: r -> c <> c_zero.
Proof.
  induction s as [|x s IH]; [discriminate|]. cbn [strip_zeros].
  destruct (N.eqb_spec x c_zero) as [|Hx]; [exact IH|].
  intros E. injection E as <- _. exact Hx.
Qed.

Lemma strip_zeros_snoc s c :
  c <> c_zero -> strip_zeros (s ++ [c]) = strip_zeros s ++ [c].
Proof.
  intros Hc. induction s as [|x s IH].
  - now apply strip_zeros_head.
  - cbn [app strip_zeros]. destruct (x =? c_zero)%N; [exact IH | reflexivity].
Qed.

Lemma forallb_rev {A} (f : A -> bool) l :
  forallb f l = true -> forallb f (rev l) = true.
Proof.
  intros H. apply forallb_forall. intros x Hx. apply in_rev in Hx.
  revert x Hx. now apply forallb_forall.
Qed.

Lemma dec_of_digits_canonical neg ds pt :
  forallb is_digit ds = true -> dec_canonical (dec_of_digits neg ds pt) = true.
Proof.
  intros Hd. unfold dec_of_digits.
  pose proof (strip_zeros_digits ds Hd) as H1.
  destruct (strip_zeros ds) as [|c r] eqn:E.
  - reflexivity.
  - pose proof (strip_zeros_nonzero _ _ _ E) as Hc.
    unfold rstrip_zeros. cbn [rev]. rewrite (strip_zeros_snoc _ _ Hc).
    rewrite rev_app_distr. cbn [rev app].
    unfold dec_canonical. cbn [ddigits dpt].
    assert (H2 : forallb is_digit (rev (strip_zeros (rev r))) = true).
    { apply forallb_rev, strip_zeros_digits, forallb_rev.
      cbn [forallb] in H1. now apply andb_prop in H1 as [_ H1]. }
    cbn [forallb] in H1 |- *. apply andb_prop in H1 as [-> _]. rewrite H2.
    cbn [andb]. apply N.eqb_neq in Hc. rewrite Hc. cbn [negb andb].
    apply negb_true_iff, N.eqb_neq.
    destruct (strip_zeros (rev r)) as [|x l] eqn:E2.
    + cbn. now apply N.eqb_neq.
    + cbn [rev].
      change (c :: rev l ++ [x]) with ((c :: rev l) ++ [x]).
      rewrite last_last. exact (strip_zeros_nonzero _ _ _ E2).
Qed.

Section Rest.

Variable P : N -> bool.

Lemma skip_ws_rest s : forallb P s = true -> forallb P (skip_ws s) = true.
Proof.
  induction s as [|c s IH]; [reflexivity|]. intros H. cbn [skip_ws].
  destruct (is_json_ws c); [|exact H].
  cbn [forallb] in H. apply andb_prop in H as [_ H]. auto.
Qed.

Lemma span_digits_rest s :
  forallb P s = true -> forallb P (snd (span_digits s)) = true.
Proof.
  induction s as [|c s IH]; [reflexivity|]. intros H. cbn [span_digits].
  destruct (is_digit c); [|exact H].
  cbn [forallb] in H. apply andb_prop in H as [_ H]. specialize (IH H).
  now destruct (span_digits s).
Qed.

Lemma span_digits_digits s : forallb is_digit (fst (span_digits s)) = true.
Proof.
  induction s as [|c s IH]; [reflexivity|]. cbn [span_digits].
  destruct (is_digit c) eqn:E; [|reflexivity].
  destruct (span_digits s). cbn [fst forallb] in *. now rewrite E.
Qed.

Lemma starts_with_rest p : forall s r,
  starts_with p s = Some r -> forallb P s = true -> forallb P r = true.
Proof.
  induction p as [|a p IH]; intros s r; cbn [starts_with].
  - intros E. now injection E as <-.
  - destruct s as [|b s']; [discriminate|].
    destruct (a =? b)%N; [|discriminate].
    intros E H. cbn [forallb] in H. apply andb_prop in H as [_ H]. eauto.
Qed.

Lemma scan_exponent_rest s e r :
  scan_exponent s = Some (e, r) -> forallb P s = true -> forallb P r = true.
Proof.
  destruct s as [|c s']; [discriminate|]. cbn [scan_exponent forallb].
  destruct (is_e c); [|discriminate].
  intros E H. apply andb_prop in H as [_ H].
  destruct s' as [|c1 r']; [discriminate|].
  cbn [forallb] in H. pose proof H as H'. apply andb_prop in H' as [_ H'].
  destruct (c1 =? c_minus)%N; [|destruct (c1 =? c_plus)%N].
  - pose proof (span_digits_rest r' H') as R.
    destruct (span_digits r') as [ds rest]. destruct ds; [discriminate|].
    injection E as _ <-. exact R.
  - pose proof (span_digits_rest r' H') as R.
    destruct (span_digits r') as [ds rest]. destruct ds; [discriminate|].
    injection E as _ <-. exact R.
  - pose proof (span_digits_rest (c1 :: r') H) as R.
    destruct (span_digits (c1 :: r')) as [ds rest]. destruct ds; [discriminate|].
    injection E as _ <-. exact R.
Qed.

Lemma scan_fraction_rest s :
  forallb P s = true ->
  forallb is_digit (fst (scan_fraction s)) = true
  /\ forallb P (snd (scan_fraction s)) = true.
Proof.
  intros H. destruct s as [|c r]; cbn [scan_fraction]; [auto|].
  destruct (c =? c_dot)%N; [|auto].
  pose proof (span_digits_digits r) as D.
  cbn [forallb] in H. pose proof H as H'. apply andb_prop in H' as [_ H'].
  pose proof (span_digits_rest r H') as R.
  destruct (span_digits r) as [ds rest]. destruct ds; cbn [fst snd] in *; auto.
Qed.

Lemma number_value_rest neg ip s :
  forallb is_digit ip = true -> forallb P s = true ->
  wf_pyval (fst (number_value neg ip s)) = true
  /\ forallb P (snd (number_value neg ip s)) = true.
Proof.
  intros Hip H. unfold number_value.
  destruct (scan_fraction_rest s H) as [D R].
  destruct (scan_fraction s) as [fp r2]. cbn [fst snd] in D, R.
  assert (F : forall e, wf_pyval (PFloat (float_of_parts neg ip fp e)) = true).
  { intros e. cbn [wf_pyval float_of_parts float_canonical].
    apply dec_of_digits_canonical. rewrite forallb_app. now rewrite Hip, D. }
  destruct (scan_exponent r2) as [[e r3]|] eqn:E.
  - pose proof (scan_exponent_rest _ _ _ E R).
    destruct fp; cbn [fst snd]; auto.
  - destruct fp; cbn [fst snd]; auto.
Qed.

Lemma scan_unsigned_rest neg s v r :
  scan_unsigned neg s = Some (v, r) -> forallb P s = true ->
  wf_pyval v = true /\ forallb P r = true.
Proof.
  destruct s as [|d s']; [discriminate|]. cbn [scan_unsigned forallb].
  destruct (is_digit d) eqn:Ed; [|discriminate]. cbn [negb].
  intros E H. apply andb_prop in H as [_ H].
  destruct (d =? c_zero)%N.
  - injection E as E.
    pose proof (number_value_rest neg [d] s') as G. rewrite E in G.
    apply G; [cbn [forallb]; now rewrite Ed | exact H].
  - pose proof (span_digits_digits s') as D.
    pose proof (span_digits_rest s' H) as R.
    destruct (span_digits s') as [ds rest]. cbn [fst snd] in D, R.
    injection E as E.
    pose proof (number_value_rest neg (d :: ds) rest) as G. rewrite E in G.
    apply G; [cbn [forallb]; now rewrite Ed | exact R].
Qed.

Lemma scan_number_rest s v r :
  scan_number s = Some (v, r) -> forallb P s = true ->
  wf_pyval v = true /\ forallb P r = true.
Proof.
  destruct s as [|c s']; [discriminate|]. cbn [scan_number].
  destruct (c =? c_minus)%N; intros E H.
  - cbn [forallb] in H. apply andb_prop in H as [_ H].
    exact (scan_unsigned_rest _ _ _ _ E H).
  - exact (scan_unsigned_rest _ _ _ _ E H).
Qed.

End Rest.

(** *** Strings *)

Lemma scalar_parts c :
  scalar c = true ->
  code_point c = true /\ is_high_surrogate c = false
  /\ is_low_surrogate c = false.
Proof.
  unfold scalar. intros H. apply andb_prop in H as [H1 H2].
  apply negb_true_iff, orb_false_iff in H2. tauto.
Qed.

Lemma hex_val_bound c x : hex_val c = Some x -> (x < 16)%N.
Proof.
  unfold hex_val, is_digit.
  destruct ((48 <=? c) && (c <=? 57))%N eqn:E1.
  { apply andb_prop in E1 as [A B]. apply N.leb_le in A, B.
    intros E. injection E as <-. lia. }
  destruct ((97 <=? c) && (c <=? 102))%N eqn:E2.
  { apply andb_prop in E2 as [A B]. apply N.leb_le in A, B.
    intros E. injection E as <-. lia. }
  destruct ((65 <=? c) && (c <=? 70))%N eqn:E3; [|discriminate].
  apply andb_prop in E3 as [A B]. apply N.leb_le in A, B.
  intros E. injection E as <-. lia.
Qed.

Lemma hex4_bound a b c d x : hex4 a b c d = Some x -> (x < 65536)%N.
Proof.
  unfold hex4.
  destruct (hex_val a) as [xa|] eqn:Ea; [|discriminate].
  destruct (hex_val b) as [xb|] eqn:Eb; [|discriminate].
  destruct (hex_val c) as [xc|] eqn:Ec; [|discriminate].
  destruct (hex_val d) as [xd|] eqn:Ed; [|discriminate].
  apply hex_val_bound in Ea, Eb, Ec, Ed.
  intros E. injection E as <-. lia.
Qed.

Lemma unescape_scalar e c : unescape e = Some c -> scalar c = true.
Proof.
  unfold unescape.
  repeat (destruct (_ =? _)%N;
          [intros E; injection E as <-; reflexivity|]).
  discriminate.
Qed.

Lemma join_surrogates_scalar hi lo :
  is_high_surrogate hi = true -> is_low_surrogate lo = true ->
  scalar (join_surrogates hi lo) = true.
Proof.
  unfold is_high_surrogate, is_low_surrogate. intros H L.
  apply andb_prop in H as [H1 H2]. apply andb_prop in L as [L1 L2].
  apply N.leb_le in H1, H2, L1, L2.
  unfold scalar, code_point, is_high_surrogate, is_low_surrogate,
    join_surrogates.
  apply andb_true_intro. split; [apply N.ltb_lt; lia|].
  apply negb_true_iff, orb_false_iff.
  split; apply andb_false_iff; right; apply N.leb_gt; lia.
Qed.

Lemma cons_char_wf c s r m :
  string_wf r m -> code_point c = true ->
  (is_high_surrogate c = true -> starts_low_escape r = false) ->
  (is_low_surrogate c = true -> starts_low_escape s = true) ->
  string_wf s (cons_char c m).
Proof.
  destruct m as [[str rest]|e]; cbn [string_wf cons_char bind]; [|tauto].
  intros (Hw & Hh & Hr) Hc Hhigh Hlow.
  split; [|split; [exact Hlow | exact Hr]].
  unfold wf_str in *. apply andb_prop in Hw as [W1 W2].
  cbn [forallb no_surrogate_pair]. rewrite Hc, W1, W2.
  cbn [andb]. rewrite andb_true_r.
  destruct str as [|c2 str']; [reflexivity|].
  apply negb_true_iff, andb_false_iff.
  destruct (is_high_surrogate c) eqn:E1; [right | now left].
  destruct (is_low_surrogate c2) eqn:E2; [|reflexivity].
  specialize (Hh E2). rewrite (Hhigh eq_refl) in Hh. discriminate.
Qed.

Lemma cons_scalar_wf c s r m :
  string_wf r m -> scalar c = true -> string_wf s (cons_char c m).
Proof.
  intros Hm Hc. destruct (scalar_parts c Hc) as (H1 & H2 & H3).
  apply (cons_char_wf c s r m Hm H1); rewrite ?H2, ?H3; discriminate.
Qed.

Lemma scanstring_wf_bounded : forall n s,
  (List.length s <= n)%nat -> forallb scalar s = true ->
  string_wf s (scanstring s).
Proof.
  induction n as [|n IH]; intros s Hn Hs.
  - destruct s; [exact I | cbn in Hn; lia].
  - rewrite scanstring_eq. destruct s as [|c r]; [exact I|].
    cbn [List.length forallb] in *. apply andb_prop in Hs as [Hc Hr].
    destruct (c =? c_quote)%N;
      [split; [reflexivity | split; [discriminate | exact Hr]]|].
    destruct (N.eqb_spec c c_backslash) as [->|Nb].
    + destruct r as [|e r1]; [exact I|].
      cbn [List.length forallb] in *. apply andb_prop in Hr as [_ Hr1].
      destruct (N.eqb_spec e 117) as [->|Ne].
      * destruct r1 as [|h1 [|h2 [|h3 [|h4 r2]]]]; try exact I.
        cbn [List.length forallb] in *.
        apply andb_prop in Hr1 as [_ Hr1]. apply andb_prop in Hr1 as [_ Hr1].
        apply andb_prop in Hr1 as [_ Hr1]. apply andb_prop in Hr1 as [_ Hr2].
        destruct (hex4 h1 h2 h3 h4) as [uni|] eqn:Eh; [|exact I].
        pose proof (hex4_bound _ _ _ _ _ Eh) as Hu.
        assert (Hcp : code_point uni = true)
          by (unfold code_point; apply N.ltb_lt; lia).
        assert (H2 : (is_high_surrogate uni = true ->
                      starts_low_escape r2 = false) ->
                     string_wf (c_backslash :: 117%N :: h1 :: h2 :: h3 :: h4 :: r2)
                               (cons_char uni (scanstring r2))).
        { intros Hhigh.
          apply (cons_char_wf uni _ r2); [apply IH; [lia | exact Hr2] | exact Hcp
                                          | exact Hhigh |].
          intros Hl. unfold starts_low_escape. rewrite Eh, Hl. reflexivity. }
        destruct r2 as [|b [|u' [|g1 [|g2 [|g3 [|g4 r3]]]]]];
          try (apply H2; reflexivity).
        destruct (is_high_surrogate uni && (b =? c_backslash)%N
                  && (u' =? 117)%N) eqn:Ec.
        -- destruct (hex4 g1 g2 g3 g4) as [uni2|] eqn:Eg; [|exact I].
           apply andb_prop in Ec as [Ec _]. apply andb_prop in Ec as [Ehi _].
           destruct (is_low_surrogate uni2) eqn:El.
           ++ apply (cons_scalar_wf _ _ r3);
                [|now apply join_surrogates_scalar].
              apply IH; [cbn [List.length] in *; lia|].
              cbn [forallb] in Hr2.
              repeat (apply andb_prop in Hr2 as [_ Hr2]). exact Hr2.
           ++ apply H2. intros _. unfold starts_low_escape.
              rewrite Eg, El. apply andb_false_r.
        -- apply H2. intros Hhigh. rewrite Hhigh in Ec. cbn [andb] in Ec.
           unfold starts_low_escape. now rewrite Ec.
      * destruct (unescape e) as [c'|] eqn:Eu; [|exact I].
        apply (cons_scalar_wf _ _ r1); [apply IH; [lia | exact Hr1]|].
        exact (unescape_scalar _ _ Eu).
    + destruct (c <? 32)%N; [exact I|].
      apply (cons_scalar_wf _ _ r); [apply IH; [lia | exact Hr] | exact Hc].
Qed.

Lemma scanstring_wf s :
  forallb scalar s = true ->
  match scanstring s with
  | Ok (str, r) => wf_str str = true /\ forallb scalar r = true
  | Raise _ => True
  end.
Proof.
  intros H. pose proof (scanstring_wf_bounded (List.length s) s (le_n _) H) as G.
  destruct (scanstring s) as [[str r]|e]; [|exact I].
  cbn [string_wf] in G. tauto.
Qed.

(** *** Values *)

Lemma existsb_dict_set x k v : forall d,
  pystr_eqb x k = false ->
  existsb (pystr_eqb x) (map fst (dict_set d k v))
  = existsb (pystr_eqb x) (map fst d).
Proof.
  intros d Hx. induction d as [|[k2 v2] d IH].
  - cbn. now rewrite Hx.
  - cbn [dict_set]. destruct (pystr_eqb k2 k); [reflexivity|].
    cbn [map fst existsb]. now rewrite IH.
Qed.

Lemma dict_set_wf k v : forall d,
  wf_pyval (PDict d) = true -> wf_str k = true -> wf_pyval v = true ->
  wf_pyval (PDict (dict_set d k v)) = true.
Proof.
  intros d Hd Hk Hv. cbn [wf_pyval] in *.
  apply andb_prop in Hd as [Hn Hf]. apply andb_true_intro.
  induction d as [|[k2 v2] d IH].
  - cbn [dict_set map fst nodup_keys existsb forallb snd negb andb].
    now rewrite Hk, Hv.
  - cbn [map fst nodup_keys forallb snd] in Hn, Hf.
    apply andb_prop in Hn as [Hn1 Hn2]. apply andb_prop in Hf as [Hf1 Hf2].
    apply andb_prop in Hf1 as [Hk2 Hv2].
    cbn [dict_set]. destruct (pystr_eqb k2 k) eqn:E.
    + cbn [map fst nodup_keys forallb snd].
      now rewrite Hn1, Hn2, Hk2, Hv, Hf2.
    + destruct (IH Hn2 Hf2) as [I1 I2].
      cbn [map fst nodup_keys forallb snd].
      rewrite (existsb_dict_set _ _ _ _ E).
      now rewrite Hn1, I1, Hk2, Hv2, I2.
Qed.

Lemma dict_get_wf k v : forall d,
  wf_pyval (PDict d) = true -> wf_pyval v = true ->
  wf_pyval (dict_get d k v) = true.
Proof.
  intros d Hd Hv. cbn [wf_pyval] in Hd. apply andb_prop in Hd as [_ Hf].
  induction d as [|[k2 v2] d IH]; [exact Hv|].
  cbn [forallb fst snd] in Hf. apply andb_prop in Hf as [Hf1 Hf2].
  apply andb_prop in Hf1 as [_ Hv2].
  cbn [dict_get]. destruct (pystr_eqb k2 k); auto.
Qed.

Lemma scan_constants_wf s :
  forallb scalar s = true ->
  value_wf
    (match starts_with (u "null") s with
     | Some r' => Ok (PNone, r')
     | None =>
     match starts_with (u "true") s with
     | Some r' => Ok (PBool true, r')
     | None =>
     match starts_with (u "false") s with
     | Some r' => Ok (PBool false, r')
     | None =>
     match scan_number s with
     | Some vr => Ok vr
     | None =>
     match starts_with (u "NaN") s with
     | Some r' => Ok (PFloat FNaN, r')
     | None =>
     match starts_with (u "Infinity") s with
     | Some r' => Ok (PFloat (FInf false), r')
     | None =>
     match starts_with (u "-Infinity") s with
     | Some r' => Ok (PFloat (FInf true), r')
     | None => expecting_value
     end end end end end end end).
Proof.
  intros H.
  destruct (starts_with (u "null") s) eqn:E1;
    [split; [reflexivity | exact (starts_with_rest _ _ _ _ E1 H)]|].
  destruct (starts_with (u "true") s) eqn:E2;
    [split; [reflexivity | exact (starts_with_rest _ _ _ _ E2 H)]|].
  destruct (starts_with (u "false") s) eqn:E3;
    [split; [reflexivity | exact (starts_with_rest _ _ _ _ E3 H)]|].
  destruct (scan_number s) as [[v r]|] eqn:E4;
    [exact (scan_number_rest _ _ _ _ E4 H)|].
  destruct (starts_with (u "NaN") s) eqn:E5;
    [split; [reflexivity | exact (starts_with_rest _ _ _ _ E5 H)]|].
  destruct (starts_with (u "Infinity") s) eqn:E6;
    [split; [reflexivity | exact (starts_with_rest _ _ _ _ E6 H)]|].
  destruct (starts_with (u "-Infinity") s) eqn:E7;
    [split; [reflexivity | exact (starts_with_rest _ _ _ _ E7 H)]|].
  exact I.
Qed.

Lemma forallb_tail {A} (f : A -> bool) x l :
  forallb f (x :: l) = true -> forallb f l = true.
Proof. cbn [forallb]. intros H. now apply andb_prop in H. Qed.

Lemma decoder_wf : forall n,
  (forall s, forallb scalar s = true -> value_wf (scan_once n s))
  /\ (forall acc s, forallb wf_pyval acc = true -> forallb scalar s = true ->
                    value_wf (json_array n acc s))
  /\ (forall pairs s, wf_pyval (PDict pairs) = true ->
                      forallb scalar s = true ->
                      value_wf (json_object n pairs s)).
Proof.
  induction n as [|k (IHs & IHa & IHo)].
  - repeat split.
  - split; [|split].
    + intros s Hs. cbn [scan_once]. destruct s as [|c r]; [exact I|].
      pose proof (forallb_tail _ _ _ Hs) as Hr.
      destruct (c =? c_quote)%N.
      { pose proof (scanstring_wf r Hr) as H.
        destruct (scanstring r) as [[key r']|e]; cbn [bind value_wf];
          [exact H | exact I]. }
      destruct (c =? c_lbrace)%N.
      { pose proof (skip_ws_rest scalar r Hr) as L.
        destruct (skip_ws r) as [|c1 r2]; [exact I|].
        apply forallb_tail in L.
        destruct (c1 =? c_rbrace)%N; [split; [reflexivity | exact L]|].
        destruct (c1 =? c_quote)%N; [|exact I].
        apply IHo; [reflexivity | exact L]. }
      destruct (c =? c_lbracket)%N.
      { pose proof (skip_ws_rest scalar r Hr) as L.
        destruct (skip_ws r) as [|c1 r2]; [exact I|].
        destruct (c1 =? c_rbracket)%N;
          [split; [reflexivity | exact (forallb_tail _ _ _ L)]|].
        apply IHa; [reflexivity | exact L]. }
      exact (scan_constants_wf (c :: r) Hs).
    + intros acc s Hacc Hs. cbn [json_array].
      pose proof (IHs s Hs) as H.
      destruct (scan_once k s) as [[v r]|e]; cbn [bind value_wf] in *;
        [|exact I].
      destruct H as [Hv Hr].
      assert (Hacc' : forallb wf_pyval (acc ++ [v]) = true)
        by (rewrite forallb_app, Hacc; cbn [forallb]; now rewrite Hv).
      pose proof (skip_ws_rest scalar r Hr) as L.
      destruct (skip_ws r) as [|c r1]; [exact I|].
      apply forallb_tail in L.
      destruct (c =? c_rbracket)%N; [split; [exact Hacc' | exact L]|].
      destruct (c =? c_comma)%N; [|exact I].
      apply IHa; [exact Hacc' | now apply skip_ws_rest].
    + intros pairs s Hp Hs. cbn [json_object].
      pose proof (scanstring_wf s Hs) as H.
      destruct (scanstring s) as [[key r]|e]; cbn [bind value_wf] in *;
        [|exact I].
      destruct H as [Hkey Hr].
      pose proof (skip_ws_rest scalar r Hr) as L.
      destruct (skip_ws r) as [|c r1]; [exact I|].
      apply forallb_tail in L.
      destruct (negb (c =? c_colon)%N); [exact I|].
      pose proof (IHs (skip_ws r1) (skip_ws_rest scalar r1 L)) as H1.
      destruct (scan_once k (skip_ws r1)) as [[v r2]|e];
        cbn [bind value_wf] in *; [|exact I].
      destruct H1 as [Hv Hr2].
      pose proof (dict_set_wf key v pairs Hp Hkey Hv) as Hp'.
      pose proof (skip_ws_rest scalar r2 Hr2) as L2.
      destruct (skip_ws r2) as [|c2 r3]; [exact I|].
      apply forallb_tail in L2.
      destruct (c2 =? c_rbrace)%N; [split; [exact Hp' | exact L2]|].
      destruct (c2 =? c_comma)%N; [|exact I].
      pose proof (skip_ws_rest scalar r3 L2) as L3.
      destruct (skip_ws r3) as [|c3 r4]; [exact I|].
      apply forallb_tail in L3.
      destruct (c3 =? c_quote)%N; [|exact I].
      apply IHo; [exact Hp' | exact L3].
Qed.

(** Every value decoded from a text of scalar values is well formed: its
    floats are normalised, its strings hold no surrogate pair and its dicts
    no key twice. *)
Theorem json_loads_wf s v :
  forallb scalar s = true -> json_loads s = Ok v -> wf_pyval v = true.
Proof.
  intros Hs. unfold json_loads.
  assert (H : ('(v, r) <- scan_once (2 * List.length s + 1) (skip_ws s) ;;
               match skip_ws r with
               | [] => Ok v
               | _ => raise JSONDecodeError "Extra data"
               end) = Ok v -> wf_pyval v = true).
  { pose proof (proj1 (decoder_wf (2 * List.length s + 1)) (skip_ws s)
                  (skip_ws_rest scalar s Hs)) as G.
    destruct (scan_once _ _) as [[v' r]|e]; cbn [bind value_wf] in *;
      [|discriminate].
    destruct (skip_ws r); [|discriminate].
    intros E. injection E as <-. tauto. }
  destruct s as [|c s']; [exact H|].
  destruct c as [|p]; [exact H|].
  repeat (destruct p as [p|p|]; try exact H).
  discriminate.
Qed.

(** [float()] yields normalised decimals. *)
Lemma py_float_canonical v f :
  wf_pyval v = true -> py_float v = Ok f -> float_canonical f = true.
Proof.
  assert (FZ : forall z, float_canonical (float_of_Z z) = true).
  { intros z. apply dec_of_digits_canonical. apply uint_chars_digits. }
  destruct v; cbn [py_float wf_pyval]; try discriminate; intros Hw E.
  - injection E as <-. apply FZ.
  - injection E as <-. apply FZ.
  - injection E as <-. exact Hw.
  - revert E. unfold float_of_pystr. cbv zeta.
    destruct (match strip s with
              | [] => (false, strip s)
              | c :: r =>
                  if (c =? c_minus)%N then (true, r)
                  else if (c =? c_plus)%N then (false, r)
                  else (false, strip s)
              end) as [neg s1].
    destruct (pystr_eqb (map to_lower s1) (u "inf")
              || pystr_eqb (map to_lower s1) (u "infinity"));
      [intros E; injection E as <-; reflexivity|].
    destruct (pystr_eqb (map to_lower s1) (u "nan"));
      [intros E; injection E as <-; reflexivity|].
    destruct (drop_underscores false s1) as [s2|]; [|discriminate].
    pose proof (span_digits_digits s2) as D1.
    destruct (span_digits s2) as [ip r1]. cbn [fst] in D1.
    assert (D2 : forallb is_digit
                   (fst (match r1 with
                         | [] => ([], r1)
                         | c :: r =>
                             if (c =? c_dot)%N then span_digits r else ([], r1)
                         end)) = true).
    { destruct r1 as [|c r]; [reflexivity|].
      destruct (c =? c_dot)%N; [apply span_digits_digits | reflexivity]. }
    destruct (match r1 with
              | [] => ([], r1)
              | c :: r => if (c =? c_dot)%N then span_digits r else ([], r1)
              end) as [fp r2]. cbn [fst] in D2.
    destruct (ip ++ fp) eqn:Eip; [discriminate|].
    destruct (match scan_exponent r2 with
              | Some er => er
              | None => (0, r2)
              end) as [e r3].
    destruct r3; [|discriminate].
    intros E. injection E as <-.
    apply dec_of_digits_canonical. rewrite forallb_app. now rewrite D1, D2.
Qed.

Lemma scalar_wf_str s : forallb scalar s = true -> wf_str s = true.
Proof.
  intros H. unfold wf_str. apply andb_true_intro. split.
  - apply forallb_forall. intros x Hx.
    now apply (proj1 (forallb_forall _ _) H), scalar_parts in Hx.
  - induction s as [|c s IH]; [reflexivity|].
    cbn [forallb] in H. apply andb_prop in H as [Hc Hs].
    cbn [no_surrogate_pair]. rewrite (IH Hs), andb_true_r.
    destruct s; [reflexivity|].
    destruct (scalar_parts c Hc) as (_ & -> & _). reflexivity.
Qed.

Lemma strip_scalar s : forallb scalar s = true -> forallb scalar (strip s) = true.
Proof.
  intros H. apply forallb_forall. intros x Hx.
  unfold strip in Hx. apply In_rstrip, In_lstrip in Hx.
  revert x Hx. now apply forallb_forall.
Qed.

Lemma py_slice_scalar s i j :
  forallb scalar s = true -> forallb scalar (py_slice s i j) = true.
Proof. intros H. unfold py_slice. now apply forallb_firstn, forallb_skipn. Qed.

(** * Properties of the program *)

(** ** What the INSERT of a trend takes *)




Lemma call_accepted db now analisis :
  Main.execute_insert_tendencia analisis = Ok tt ->
  Main.guardar_analisis_tendencia_call db now analisis
  = (Ok (fst (Main.guardar_analisis_tendencia db now analisis)),
     snd (Main.guardar_analisis_tendencia db now analisis)).
Proof.
  intros H. unfold Main.guardar_analisis_tendencia_call. now rewrite H.
Qed.

(** ** The response interpreter of main.py *)

Lemma create_fallback_spec t :
  Main._create_fallback_analysis (Some t) = Ok (fallback_analysis t).
Proof.
  unfold Main._create_fallback_analysis, fallback_analysis.
  rewrite <- (py_slice_prefix t 500). reflexivity.
Qed.

Lemma formatear_resultado_dict d :
  Main.formatear_resultado (PDict d) =
  match py_float (dict_get d k_probabilidad_fuga (PInt 0)) with
  | Ok f =>
      Ok [(k_tendencia, dict_get d k_tendencia (PStr (u "desconocida")));
          (k_probabilidad_fuga, PFloat f);
          (k_recomendacion,
           dict_get d k_recomendacion
                    (PStr (u "No hay recomendaciones disponibles")));
          (k_detalles, dict_get d k_detalles (PDict []))]
  | Raise e => Raise e
  end.
Proof.
  unfold Main.formatear_resultado. simpl.
  destruct (py_float (dict_get d k_probabilidad_fuga (PInt 0))); reflexivity.
Qed.

(** The interpreter, branch by branch. *)
Lemma interpret_response_cases t :
  Main.interpret_response (Some t) =
  if Main.json_found t then
    match json_loads (Main.json_candidate t) with
    | Ok (PDict d) =>
        match py_float (dict_get d k_probabilidad_fuga (PInt 0)) with
        | Ok f =>
            Ok [(k_tendencia, dict_get d k_tendencia (PStr (u "desconocida")));
                (k_probabilidad_fuga, PFloat f);
                (k_recomendacion,
                 dict_get d k_recomendacion
                          (PStr (u "No hay recomendaciones disponibles")));
                (k_detalles, dict_get d k_detalles (PDict []))]
        | Raise _ => Ok (fallback_analysis t)
        end
    | _ => Ok (fallback_analysis t)
    end
  else Ok (fallback_analysis (strip t)).
Proof.
  unfold Main.interpret_response, Main.parse_response.
  fold (Main.json_found t). fold (Main.json_candidate t).
  cbv zeta.
  change ((0 <=? find c_lbrace (strip t))
          && (find c_lbrace (strip t) <? rfind c_rbrace (strip t) + 1))
    with (Main.json_found t).
  change (py_slice (strip t) (find c_lbrace (strip t))
                   (rfind c_rbrace (strip t) + 1))
    with (Main.json_candidate t).
  destruct (Main.json_found t).
  - destruct (json_loads (Main.json_candidate t)) as [v|e]; simpl.
    + destruct v; try apply create_fallback_spec.
      rewrite formatear_resultado_dict.
      destruct (py_float (dict_get d k_probabilidad_fuga (PInt 0))); simpl;
        [reflexivity | apply create_fallback_spec].
    + apply create_fallback_spec.
  - rewrite create_fallback_spec. reflexivity.
Qed.

Lemma fallback_well_formed s : well_formed_analysis (fallback_analysis s).
Proof. unfold well_formed_analysis, fallback_analysis. repeat eexists. Qed.

(** C1. Every response text is interpreted into a well-formed analysis
    result: the inner handler absorbs each exception raised while the JSON
    candidate is located, decoded and read, so [interpret_response] returns
    normally; and with a configured client, whatever the client does
    (raise, answer without text, answer any text),
    [generate_reasoned_response] yields a result with the four fields. *)
Theorem interpreter_never_raises :
  (forall text : pystr,
     exists r, Main.interpret_response (Some text) = Ok r
               /\ well_formed_analysis r)
  /\ (forall key model (generate_content : Client) query num_cycles temperature,
        well_formed_analysis
          (Main.generate_reasoned_response
             (Main.mkReasoningSystem key model (Some generate_content))
             query num_cycles temperature)).
Proof.
  assert (H1 : forall text : pystr,
             exists r, Main.interpret_response (Some text) = Ok r
                       /\ well_formed_analysis r).
  { intros text. rewrite interpret_response_cases.
    destruct (Main.json_found text).
    - destruct (json_loads (Main.json_candidate text)) as [v|e];
        [destruct v|];
        try (eexists; split; [reflexivity | apply fallback_well_formed]).
      destruct (py_float (dict_get d k_probabilidad_fuga (PInt 0)));
        eexists; (split; [reflexivity|]);
        [| apply fallback_well_formed].
      unfold well_formed_analysis. repeat eexists.
    - eexists; split; [reflexivity | apply fallback_well_formed]. }
  split; [exact H1|].
  intros key model gc query n temp.
  unfold Main.generate_reasoned_response. simpl.
  destruct (gc model _ _) as [[text|]|e]; simpl.
  - destruct (H1 text) as (r & -> & Hr). exact Hr.
  - unfold well_formed_analysis. repeat eexists.
  - unfold well_formed_analysis. repeat eexists.
Qed.

Lemma free_of_notin c s : free_of c s = true -> ~ In c s.
Proof.
  unfold free_of. intros H Hin.
  apply negb_true_iff in H.
  assert (E : existsb (N.eqb c) s = true)
    by (apply existsb_exists; exists c; split; [assumption | apply N.eqb_refl]).
  congruence.
Qed.

Lemma dict_get_present d k x y :
  dict_mem d k = true -> dict_get d k x = dict_get d k y.
Proof.
  induction d as [|[k' v] d IH]; simpl; [discriminate|].
  destruct (pystr_eqb k' k); simpl; [reflexivity | exact IH].
Qed.

Lemma dict_get_absent d k x : dict_mem d k = false -> dict_get d k x = x.
Proof.
  induction d as [|[k' v] d IH]; simpl; [reflexivity|].
  destruct (pystr_eqb k' k); simpl; [discriminate | exact IH].
Qed.

(** C2, as stated, fails: the response [{"probabilidad_fuga": 150}] is
    interpreted with leak probability 150.0, outside the interval, and that
    value is what the trend record stores. *)
Lemma leak_probability_150_kept :
  exists r db',
    Main.interpret_response (Some (uq "{'probabilidad_fuga': 150}")) = Ok r
    /\ dict_get r k_probabilidad_fuga PNone = PFloat (float_of_Z 150)
    /\ leak_in_range r = false
    /\ Main.guardar_analisis_tendencia_call
         (Main.init_db [] []) (u "2024-05-01T10:00:00") r = (Ok 1, db')
    /\ map Main.ten_probabilidad_fuga (Main.tendencias db')
       = [PFloat (float_of_Z 150)].
Proof.
  eexists. eexists. split; [vm_compute; reflexivity|].
  split; [vm_compute; reflexivity|]. split; [vm_compute; reflexivity|].
  split; vm_compute; reflexivity.
Qed.

(** C2, amended. There is no clamping. When the candidate decodes to an
    object and [float()] converts the value it gives for the key (0 when the
    key is missing), the interpreted result carries exactly that converted
    value, so it is in range exactly when the converted value is. Every
    interpreted result is either of that kind or the fallback result, whose
    probability is the integer 0. And a result whose probability is a float
    other than NaN, once [execute] takes its values, is stored in a new trend
    record with that same probability. *)
Theorem leak_probability_is_converted_value :
  (forall text d f,
     Main.json_found text = true ->
     json_loads (Main.json_candidate text) = Ok (PDict d) ->
     py_float (dict_get d k_probabilidad_fuga (PInt 0)) = Ok f ->
     exists r,
       Main.interpret_response (Some text) = Ok r
       /\ dict_get r k_probabilidad_fuga PNone = PFloat f
       /\ leak_in_range r = float_in_range f)
  /\ (forall text, exists r,
        Main.interpret_response (Some text) = Ok r
        /\ ((exists shown, r = fallback_analysis shown
                           /\ dict_get r k_probabilidad_fuga PNone = PInt 0)
            \/ (exists d f,
                  Main.json_found text = true
                  /\ json_loads (Main.json_candidate text) = Ok (PDict d)
                  /\ py_float (dict_get d k_probabilidad_fuga (PInt 0)) = Ok f
                  /\ dict_get r k_probabilidad_fuga PNone = PFloat f
                  /\ leak_in_range r = float_in_range f)))
  /\ (forall db now r f,
        dict_get r k_probabilidad_fuga (PFloat (FFin (mkDec false [] 0)))
        = PFloat f ->
        f <> FNaN ->
        Main.execute_insert_tendencia r = Ok tt ->
        exists id db' row,
          Main.guardar_analisis_tendencia_call db now r = (Ok id, db')
          /\ Main.tendencias db' = Main.tendencias db ++ [row]
          /\ Main.ten_id row = id
          /\ Main.ten_probabilidad_fuga row = PFloat f).
Proof.
  split; [|split].
  - intros text d f Hf Hd Hp. rewrite interpret_response_cases.
    rewrite Hf, Hd, Hp. eexists. split; [reflexivity|].
    split; reflexivity.
  - intros text. rewrite interpret_response_cases.
    destruct (Main.json_found text) eqn:Hf.
    + destruct (json_loads (Main.json_candidate text)) as [v|e]; [destruct v|];
        try (eexists; split; [reflexivity|]; left; eexists; split; reflexivity).
      destruct (py_float (dict_get d k_probabilidad_fuga (PInt 0)))
        as [f|e] eqn:E.
      * eexists; split; [reflexivity|]. right. exists d, f.
        repeat split; try assumption; reflexivity.
      * eexists; split; [reflexivity|]; left; eexists; split; reflexivity.
    + eexists; split; [reflexivity|]; left; eexists; split; reflexivity.
  - intros db now r f Hp _ Hacc.
    rewrite (call_accepted db now r Hacc).
    eexists. eexists. eexists. split; [reflexivity|].
    cbn [Main.guardar_analisis_tendencia snd fst Main.tendencias].
    split; [reflexivity|]. cbn [Main.ten_id Main.ten_probabilidad_fuga].
    split; [reflexivity | exact Hp].
Qed.

Lemma leak_probability_is_converted_value_witness :
  (exists r,
     Main.interpret_response (Some (uq "{'probabilidad_fuga': 150}")) = Ok r
     /\ dict_get r k_probabilidad_fuga PNone = PFloat (float_of_Z 150)
     /\ leak_in_range r = float_in_range (float_of_Z 150))
  /\ (exists id db' row,
        Main.guardar_analisis_tendencia_call
          (Main.init_db [] []) (u "2024-05-01T10:00:00")
          [(k_tendencia, PStr (u "desconocida"));
           (k_probabilidad_fuga, PFloat (float_of_Z 150))]
        = (Ok id, db')
        /\ Main.tendencias db' = Main.tendencias (Main.init_db [] []) ++ [row]
        /\ Main.ten_id row = id
        /\ Main.ten_probabilidad_fuga row = PFloat (float_of_Z 150)).
Proof.
  split.
  - apply (proj1 leak_probability_is_converted_value
             (uq "{'probabilidad_fuga': 150}")
             [(k_probabilidad_fuga, PInt 150)] (float_of_Z 150));
      vm_compute; reflexivity.
  - apply (proj2 (proj2 leak_probability_is_converted_value)
             (Main.init_db [] []) (u "2024-05-01T10:00:00")
             [(k_tendencia, PStr (u "desconocida"));
              (k_probabilidad_fuga, PFloat (float_of_Z 150))]
             (float_of_Z 150)).
    + vm_compute. reflexivity.
    + vm_compute. discriminate.
    + vm_compute. reflexivity.
Defined.

(** C3, as stated, fails: a valid JSON object with the four keys whose
    probability is [null] is answered with the fallback result, not with the
    values of its keys. *)
Lemma null_probability_gives_fallback :
  let text := uq "{'tendencia': 'estable', 'probabilidad_fuga': null, 'recomendacion': 'ok', 'detalles': {}}" in
  json_loads text
  = Ok (PDict [(k_tendencia, PStr (u "estable"));
               (k_probabilidad_fuga, PNone);
               (k_recomendacion, PStr (u "ok"));
               (k_detalles, PDict [])])
  /\ Main.json_candidate text = text
  /\ Main.interpret_response (Some text) = Ok (fallback_analysis text)
  /\ dict_get (fallback_analysis text) k_tendencia PNone <> PStr (u "estable").
Proof.
  repeat split; try (vm_compute; reflexivity).
  vm_compute. discriminate.
Qed.

(** C3, amended. When the text is an object between noise, the noise before
    it free of opening braces and the noise after it free of closing braces,
    the object decodes with the four keys, and [float()] accepts the value of
    the probability, then the candidate is the object and the result holds
    exactly the four values, the probability as a float. *)
Theorem valid_object_interpreted pre mid post d f :
  free_of c_lbrace pre = true ->
  free_of c_rbrace post = true ->
  json_loads (c_lbrace :: mid ++ [c_rbrace]) = Ok (PDict d) ->
  dict_mem d k_tendencia = true ->
  dict_mem d k_probabilidad_fuga = true ->
  dict_mem d k_recomendacion = true ->
  dict_mem d k_detalles = true ->
  py_float (dict_get d k_probabilidad_fuga PNone) = Ok f ->
  Main.json_candidate (pre ++ c_lbrace :: mid ++ c_rbrace :: post)
  = c_lbrace :: mid ++ [c_rbrace]
  /\ Main.interpret_response
       (Some (pre ++ c_lbrace :: mid ++ c_rbrace :: post))
     = Ok [(k_tendencia, dict_get d k_tendencia PNone);
           (k_probabilidad_fuga, PFloat f);
           (k_recomendacion, dict_get d k_recomendacion PNone);
           (k_detalles, dict_get d k_detalles PNone)].
Proof.
  intros Hpre Hpost Hload Ht Hp Hr Hd Hf.
  destruct (json_candidate_noise pre mid post
              (free_of_notin _ _ Hpre) (free_of_notin _ _ Hpost)) as [Hfound Hcand].
  split; [exact Hcand|].
  rewrite interpret_response_cases, Hfound, Hcand, Hload.
  rewrite (dict_get_present d k_probabilidad_fuga (PInt 0) PNone Hp), Hf.
  rewrite (dict_get_present d k_tendencia _ PNone Ht).
  rewrite (dict_get_present d k_recomendacion _ PNone Hr).
  rewrite (dict_get_present d k_detalles _ PNone Hd).
  reflexivity.
Qed.

(** The scenario of the specification, with the keys the code reads. *)
Lemma valid_object_interpreted_witness :
  Main.json_candidate
    (u "noise noise " ++ c_lbrace ::
       uq "'tendencia':'stable','probabilidad_fuga':12.5,'recomendacion':'ok','detalles':{}"
       ++ c_rbrace :: u " trailing")
  = c_lbrace ::
      uq "'tendencia':'stable','probabilidad_fuga':12.5,'recomendacion':'ok','detalles':{}"
      ++ [c_rbrace]
  /\ Main.interpret_response
       (Some (u "noise noise " ++ c_lbrace ::
                uq "'tendencia':'stable','probabilidad_fuga':12.5,'recomendacion':'ok','detalles':{}"
                ++ c_rbrace :: u " trailing"))
     = Ok [(k_tendencia,
            dict_get [(k_tendencia, PStr (u "stable"));
                      (k_probabilidad_fuga,
                       PFloat (FFin (mkDec false (u "125") 2)));
                      (k_recomendacion, PStr (u "ok"));
                      (k_detalles, PDict [])] k_tendencia PNone);
           (k_probabilidad_fuga, PFloat (FFin (mkDec false (u "125") 2)));
           (k_recomendacion,
            dict_get [(k_tendencia, PStr (u "stable"));
                      (k_probabilidad_fuga,
                       PFloat (FFin (mkDec false (u "125") 2)));
                      (k_recomendacion, PStr (u "ok"));
                      (k_detalles, PDict [])] k_recomendacion PNone);
           (k_detalles,
            dict_get [(k_tendencia, PStr (u "stable"));
                      (k_probabilidad_fuga,
                       PFloat (FFin (mkDec false (u "125") 2)));
                      (k_recomendacion, PStr (u "ok"));
                      (k_detalles, PDict [])] k_detalles PNone)].
Proof.
  apply (valid_object_interpreted
           (u "noise noise ")
           (uq "'tendencia':'stable','probabilidad_fuga':12.5,'recomendacion':'ok','detalles':{}")
           (u " trailing")
           [(k_tendencia, PStr (u "stable"));
            (k_probabilidad_fuga, PFloat (FFin (mkDec false (u "125") 2)));
            (k_recomendacion, PStr (u "ok"));
            (k_detalles, PDict [])]
           (FFin (mkDec false (u "125") 2)));
    vm_compute; reflexivity.
Defined.

(** C4 (code defect), the failing input. On a text with leading blanks and
    no pair of braces the details hold the first characters of the stripped
    text, not of the original one, which is what the sibling branch of the
    handler passes under the same key. *)
Lemma fallback_shows_stripped_text :
  let text := u "  I cannot comply" in
  ~ has_brace_pair text
  /\ Main.interpret_response (Some text)
     = Ok (fallback_analysis (u "I cannot comply"))
  /\ fallback_analysis (u "I cannot comply") <> fallback_analysis text.
Proof.
  cbv zeta. split; [|split].
  - intros H. apply (proj2 (json_found_pair _)) in H. vm_compute in H.
    discriminate.
  - vm_compute. reflexivity.
  - vm_compute. discriminate.
Qed.

(** C4 (code defect), the two branches. A text whose candidate the decoder
    rejects is answered with the fallback result built from the original
    text, as claimed; a text without a pair of braces is answered with the
    fallback result built from the stripped text. In both, the details hold
    the first 500 characters of the text passed, followed by the marker. *)
Theorem fallback_on_uninterpretable (text : pystr) :
  (~ has_brace_pair text ->
   Main.interpret_response (Some text) = Ok (fallback_analysis (strip text)))
  /\ (forall e,
        has_brace_pair text ->
        json_loads (Main.json_candidate text) = Raise e ->
        Main.interpret_response (Some text) = Ok (fallback_analysis text)).
Proof.
  split.
  - intros H. rewrite interpret_response_cases.
    destruct (Main.json_found text) eqn:E; [|reflexivity].
    exfalso. apply H. now apply (proj1 (json_found_pair _)).
  - intros e H Hl. rewrite interpret_response_cases.
    apply (proj2 (json_found_pair _)) in H. now rewrite H, Hl.
Qed.

Lemma fallback_on_uninterpretable_witness :
  Main.interpret_response (Some (u "I cannot comply"))
  = Ok (fallback_analysis (strip (u "I cannot comply")))
  /\ Main.interpret_response (Some (uq "see {'tendencia': } end"))
     = Ok (fallback_analysis (uq "see {'tendencia': } end")).
Proof.
  split.
  - apply (proj1 (fallback_on_uninterpretable (u "I cannot comply"))).
    intros H. apply (proj2 (json_found_pair _)) in H. vm_compute in H. discriminate.
  - apply (proj2 (fallback_on_uninterpretable (uq "see {'tendencia': } end"))
             (mkExn JSONDecodeError (u "Expecting value"))).
    + apply (proj1 (json_found_pair _)). vm_compute. reflexivity.
    + vm_compute. reflexivity.
Defined.

(** C5, as stated, fails twice: a trend of the wrong type is returned as it
    is, not replaced by the default; and a probability that is not numeric
    does not become 0 while the other fields keep their values: the whole
    result becomes the fallback result. *)
Lemma wrong_typed_fields_not_defaulted :
  (exists r,
     Main.interpret_response (Some (uq "{'tendencia': 5}")) = Ok r
     /\ dict_get r k_tendencia PNone = PInt 5)
  /\ (let text := uq "{'tendencia': 'estable', 'probabilidad_fuga': 'alta'}" in
      json_loads (Main.json_candidate text)
      = Ok (PDict [(k_tendencia, PStr (u "estable"));
                   (k_probabilidad_fuga, PStr (u "alta"))])
      /\ Main.interpret_response (Some text) = Ok (fallback_analysis text)
      /\ dict_get (fallback_analysis text) k_tendencia PNone
         = PStr (u "análisis incompleto")).
Proof.
  split.
  - eexists. split; vm_compute; reflexivity.
  - repeat split; vm_compute; reflexivity.
Qed.

(** C5, amended. When the candidate decodes, the decoded value is an object;
    each missing key takes its own default and each present key keeps the
    decoded value whatever its type, the probability passing through
    [float()]; when [float()] rejects the value of the probability, the
    result is the fallback result built from the original text. *)
Theorem fields_default_when_missing (text : pystr) (v : pyval) :
  Main.json_found text = true ->
  json_loads (Main.json_candidate text) = Ok v ->
  exists d,
    v = PDict d
    /\ (forall f,
          py_float (dict_get d k_probabilidad_fuga (PInt 0)) = Ok f ->
          Main.interpret_response (Some text)
          = Ok [(k_tendencia, dict_get d k_tendencia (PStr (u "desconocida")));
                (k_probabilidad_fuga, PFloat f);
                (k_recomendacion,
                 dict_get d k_recomendacion
                          (PStr (u "No hay recomendaciones disponibles")));
                (k_detalles, dict_get d k_detalles (PDict []))])
    /\ (forall e,
          py_float (dict_get d k_probabilidad_fuga (PInt 0)) = Raise e ->
          Main.interpret_response (Some text) = Ok (fallback_analysis text)).
Proof.
  intros Hfound Hload.
  destruct (json_candidate_shape text Hfound) as [l Hl].
  rewrite Hl in Hload.
  destruct (json_loads_brace_dict _ _ Hload) as [d ->].
  rewrite <- Hl in Hload.
  exists d. split; [reflexivity|].
  split; intros x Hx; rewrite interpret_response_cases, Hfound, Hload, Hx;
    reflexivity.
Qed.

Lemma fields_default_when_missing_witness :
  exists d,
    PDict [(k_recomendacion, PInt 7)] = PDict d
    /\ (forall f,
          py_float (dict_get d k_probabilidad_fuga (PInt 0)) = Ok f ->
          Main.interpret_response (Some (uq "ok: {'recomendacion': 7}"))
          = Ok [(k_tendencia, dict_get d k_tendencia (PStr (u "desconocida")));
                (k_probabilidad_fuga, PFloat f);
                (k_recomendacion,
                 dict_get d k_recomendacion
                          (PStr (u "No hay recomendaciones disponibles")));
                (k_detalles, dict_get d k_detalles (PDict []))])
    /\ (forall e,
          py_float (dict_get d k_probabilidad_fuga (PInt 0)) = Raise e ->
          Main.interpret_response (Some (uq "ok: {'recomendacion': 7}"))
          = Ok (fallback_analysis (uq "ok: {'recomendacion': 7}"))).
Proof.
  apply (fields_default_when_missing (uq "ok: {'recomendacion': 7}")
           (PDict [(k_recomendacion, PInt 7)]));
    vm_compute; reflexivity.
Defined.

(** ** The analysis trigger of main.py *)





(** C7. When the analysis task finds fewer than five readings it returns
    [None] and the manager is the one it started with: no trend record is
    added, and the counter and the pending flag keep their values. *)
Theorem insufficient_data_aborts rs db now :
  (List.length (Main.obtener_historial db 50 0) <? 5)%nat = true ->
  Main.analizar_datos_flujo rs db now = (None, db).
Proof.
  intros H. unfold Main.analizar_datos_flujo.
  destruct (Main.client rs); [|reflexivity].
  now rewrite H.
Qed.

Lemma insufficient_data_aborts_witness :
  let db :=
    Main.mkDB
      [Main.mkRegistro 1 (mkDec false (u "5") 1) (u "2024-05-01T10:00:00") None;
       Main.mkRegistro 2 (mkDec false (u "6") 1) (u "2024-05-01T10:00:05") None;
       Main.mkRegistro 3 (mkDec false (u "7") 1) (u "2024-05-01T10:00:10") None]
      [] true 5 5 in
  let rs :=
    Main.mkReasoningSystem (Some (u "key")) (u "gemini-1.5-pro")
      (Some (fun _ _ _ => Ok (Some (u "{}")))) in
  Main.analizar_datos_flujo rs db (u "2024-05-01T10:00:11") = (None, db).
Proof.
  intros db rs.
  apply (insufficient_data_aborts rs db (u "2024-05-01T10:00:11")).
  vm_compute. reflexivity.
Defined.

(** ** The query of the analysis task of main.py *)

(** C9 (code defect). The listing placed under the heading for the last ten
    records is the first ten characters of the formatted data, not its first
    ten records: whatever the window, it is cut inside the line of the newest
    record, before the flow value of that record, and no other record
    appears. *)
Theorem listado_is_ten_characters :
  (forall r rest,
     Main.listado (r :: rest)
     = firstn 10 (u "ID: " ++ str_of_Z (Main.reg_id r) ++ u ", Flujo: "))
  /\ Main.listado
       [Main.mkRegistro 5 (mkDec false (u "125") 2) (u "2024-05-01T10:00:20") None;
        Main.mkRegistro 4 (mkDec false (u "12") 2) (u "2024-05-01T10:00:15") None;
        Main.mkRegistro 3 (mkDec false (u "118") 2) (u "2024-05-01T10:00:10") None;
        Main.mkRegistro 2 (mkDec false (u "121") 2) (u "2024-05-01T10:00:05") None;
        Main.mkRegistro 1 (mkDec false (u "119") 2) (u "2024-05-01T10:00:00") None]
     = u "ID: 5, Flu".
Proof.
  split; [|vm_compute; reflexivity].
  intros r rest. unfold Main.listado, Main.datos_formateados.
  change 10 with (Z.of_nat 10). rewrite py_slice_prefix.
  change 50 with (Z.of_nat 50). rewrite py_slice_prefix.
  change (firstn 50 (r :: rest)) with (r :: firstn 49 rest).
  rewrite map_cons.
  destruct (join_cons [10%N] (Main.linea_registro r)
              (map Main.linea_registro (firstn 49 rest))) as [tl ->].
  unfold Main.linea_registro.
  replace ((u "ID: " ++ str_of_Z (Main.reg_id r) ++ u ", Flujo: "
              ++ dec_repr (Main.reg_flujo r) ++ u "%, Timestamp: "
              ++ Main.reg_timestamp r) ++ tl)
    with ((u "ID: " ++ str_of_Z (Main.reg_id r) ++ u ", Flujo: ")
            ++ (dec_repr (Main.reg_flujo r) ++ u "%, Timestamp: "
                  ++ Main.reg_timestamp r) ++ tl)
    by (rewrite <- !app_assoc; reflexivity).
  apply firstn_app_long.
  rewrite !length_app. change (List.length (u "ID: ")) with 4%nat.
  change (List.length (u ", Flujo: ")) with 9%nat. lia.
Qed.

(** ** The trend recorder of main.py *)

Lemma pystr_ltb_asym a : forall b, pystr_ltb a b = true -> pystr_ltb b a = false.
Proof.
  induction a as [|x a IH]; intros [|y b]; cbn [pystr_ltb]; try congruence.
  destruct (N.ltb_spec x y) as [Hxy|Hxy].
  - intros _. destruct (N.ltb_spec y x); [lia|].
    destruct (N.ltb_spec x y); [reflexivity | lia].
  - destruct (N.ltb_spec y x) as [Hyx|Hyx]; [discriminate|].
    apply IH.
Qed.

(** A row whose key is above every stored key comes first. *)
Lemma order_by_desc_newest {A} (key : A -> pystr) (rows : list A) (x : A) :
  forallb (fun y => pystr_ltb (key y) (key x)) rows = true ->
  order_by_desc key (rows ++ [x]) = x :: order_by_desc key rows.
Proof.
  unfold order_by_desc. rewrite fold_right_app. cbn [fold_right insert_desc].
  induction rows as [|y rows IH]; intros H; [reflexivity|].
  cbn [forallb] in H. apply andb_prop in H as [Hy Hr].
  cbn [fold_right]. rewrite (IH Hr). cbn [insert_desc].
  now rewrite (pystr_ltb_asym _ _ Hy).
Qed.

Lemma fallback_analysis_wf s :
  forallb scalar s = true -> wf_pyval (PDict (fallback_analysis s)) = true.
Proof.
  intros H. unfold fallback_analysis.
  assert (W : wf_str (firstn 500 s ++ u "...") = true).
  { apply scalar_wf_str. rewrite forallb_app.
    rewrite (forallb_firstn _ _ _ H). reflexivity. }
  cbn [wf_pyval map fst snd forallb]. rewrite W. reflexivity.
Qed.

(** Every analysis the interpreter builds from a text of scalar values is a
    well-formed value, its details included: the recorder stores and reads
    them back without loss. *)
Theorem interpreted_analysis_wf t r :
  forallb scalar t = true -> Main.interpret_response (Some t) = Ok r ->
  wf_pyval (PDict r) = true
  /\ wf_pyval (dict_get r k_detalles (PDict [])) = true.
Proof.
  intros Ht E.
  assert (G : wf_pyval (PDict r) = true);
    [|split; [exact G | now apply dict_get_wf]].
  rewrite interpret_response_cases in E.
  pose proof (fallback_analysis_wf t Ht) as F1.
  pose proof (fallback_analysis_wf (strip t) (strip_scalar t Ht)) as F2.
  destruct (Main.json_found t); [|injection E as <-; exact F2].
  destruct (json_loads (Main.json_candidate t)) as [v|e] eqn:Ev;
    [|injection E as <-; exact F1].
  apply json_loads_wf in Ev;
    [|unfold Main.json_candidate; cbv zeta;
      now apply py_slice_scalar, strip_scalar].
  destruct v; try (injection E as <-; exact F1).
  destruct (py_float (dict_get d k_probabilidad_fuga (PInt 0))) as [f|e] eqn:Ef;
    [|injection E as <-; exact F1].
  apply py_float_canonical in Ef; [|now apply dict_get_wf].
  injection E as <-.
  assert (W1 := dict_get_wf k_tendencia (PStr (u "desconocida")) d Ev eq_refl).
  assert (W2 := dict_get_wf k_recomendacion
                  (PStr (u "No hay recomendaciones disponibles")) d Ev eq_refl).
  assert (W3 := dict_get_wf k_detalles (PDict []) d Ev eq_refl).
  cbn [wf_pyval map fst snd forallb] in *.
  rewrite W1, W2, W3, Ef. reflexivity.
Qed.

Lemma json_dumps_dict_nonempty d : exists c r, json_dumps (PDict d) = c :: r.
Proof. cbn [json_dumps]. eauto. Qed.

(** C8, as stated, fails in three ways. A record saved with a clock reading
    that is not later than a stored one (the local clock goes back an hour
    at the end of daylight saving time) is not the latest record, and the
    details read back are those of the other record. A result whose trend is
    [None], as the interpreter builds it for ["tendencia": null], is refused
    by [execute]: nothing is saved. And a text that holds a high surrogate
    followed by a low one is written as two escapes, which are read back as
    the single character they encode. *)
Lemma details_not_read_back :
  (let db :=
     Main.init_db []
       [Main.mkTendencia 1 (u "2024-10-27T02:30:00") (PStr (u "x"))
          (PStr (u "estable")) (PStr (u "ok")) (PFloat (float_of_Z 0))
          (Some (uq "{'previo': 1}"))] in
   let analisis :=
     [(k_tendencia, PStr (u "estable")); (k_recomendacion, PStr (u "ok"));
      (k_detalles, PDict [(u "pico", PInt 3)])] in
   exists db' leida,
     Main.guardar_analisis_tendencia_call db (u "2024-10-27T02:10:00") analisis
     = (Ok 2, db')
     /\ Main.obtener_ultimas_tendencias db' 1 = Ok [leida]
     /\ Main.l_detalles leida = PDict [(u "previo", PInt 1)])
  /\ (exists r e,
        Main.interpret_response
          (Some (uq "{'tendencia': null, 'detalles': {'pico': 3}}")) = Ok r
        /\ dict_get r k_detalles (PDict []) = PDict [(u "pico", PInt 3)]
        /\ Main.guardar_analisis_tendencia_call
             (Main.init_db [] []) (u "2024-05-01T10:00:00") r
           = (Raise e, Main.init_db [] [])
        /\ Main.obtener_ultimas_tendencias (Main.init_db [] []) 1 = Ok [])
  /\ (let analisis :=
        [(k_tendencia, PStr (u "estable")); (k_recomendacion, PStr (u "ok"));
         (k_detalles, PDict [(u "nota", PStr [55357%N; 56832%N])])] in
      exists db' leida,
        Main.guardar_analisis_tendencia_call
          (Main.init_db [] []) (u "2024-05-01T10:00:00") analisis
        = (Ok 1, db')
        /\ Main.obtener_ultimas_tendencias db' 1 = Ok [leida]
        /\ Main.l_detalles leida = PDict [(u "nota", PStr [128512%N])]).
Proof.
  split; [|split].
  - cbv zeta. eexists. eexists. split; [vm_compute; reflexivity|].
    split; [vm_compute; reflexivity|]. reflexivity.
  - eexists. eexists. split; [vm_compute; reflexivity|].
    split; [vm_compute; reflexivity|]. split; vm_compute; reflexivity.
  - cbv zeta. eexists. eexists. split; [vm_compute; reflexivity|].
    split; [vm_compute; reflexivity|]. reflexivity.
Qed.

(** C8, amended. When [execute] takes the values of an analysis whose
    details are a mapping (with the invariant of the representation: no
    surrogate pair in a text), free of NaN, and the save is stamped later
    than the stored records, the call returns the id of the new row, and
    reading the latest record back yields that row with details equal to the
    mapping saved, the empty mapping included; and a record whose stored
    payload is NULL or the empty text is read back with the empty mapping as
    details. *)
Theorem details_round_trip :
  (forall db now analisis detalles,
     dict_get analisis k_detalles (PDict []) = PDict detalles ->
     wf_pyval (PDict detalles) = true ->
     nan_free (PDict detalles) = true ->
     Main.execute_insert_tendencia analisis = Ok tt ->
     forallb (fun t => pystr_ltb (Main.ten_fecha t) now) (Main.tendencias db)
     = true ->
     exists id db' leida,
       Main.guardar_analisis_tendencia_call db now analisis = (Ok id, db')
       /\ Main.obtener_ultimas_tendencias db' 1 = Ok [leida]
       /\ Main.l_id leida = id
       /\ Main.l_detalles leida = PDict detalles)
  /\ (forall db t,
        limit_offset 1 0 (order_by_desc Main.ten_fecha (Main.tendencias db))
        = [t] ->
        Main.ten_detalles t = None \/ Main.ten_detalles t = Some [] ->
        exists leida,
          Main.obtener_ultimas_tendencias db 1 = Ok [leida]
          /\ Main.l_detalles leida = PDict []).
Proof.
  split.
  - intros db now analisis detalles Hd Hwf _ Hacc Hnew.
    rewrite (call_accepted db now analisis Hacc).
    exists (fst (Main.guardar_analisis_tendencia db now analisis)),
           (snd (Main.guardar_analisis_tendencia db now analisis)).
    unfold Main.obtener_ultimas_tendencias, Main.guardar_analisis_tendencia.
    cbn [fst snd Main.tendencias].
    rewrite (order_by_desc_newest Main.ten_fecha) by exact Hnew.
    change (limit_offset 1 0 (?x :: ?l)) with [x].
    cbn [Main.map_res Main.ten_detalles].
    destruct (json_dumps_dict_nonempty detalles) as (c & r & E).
    unfold Main.leer_detalles. rewrite Hd, E. cbv iota. rewrite <- E.
    rewrite (json_loads_dumps _ Hwf). cbn [bind].
    eexists. split; [reflexivity|]. split; [reflexivity|].
    split; reflexivity.
  - intros db t Ht Hnull.
    unfold Main.obtener_ultimas_tendencias. rewrite Ht.
    cbn [Main.map_res].
    destruct Hnull as [-> | ->]; cbn [Main.leer_detalles bind];
      eexists; split; reflexivity.
Qed.

Lemma details_round_trip_witness :
  (exists id db' leida,
     Main.guardar_analisis_tendencia_call
       (Main.init_db []
          [Main.mkTendencia 1 (u "2024-05-01T09:00:00") (PStr (u "x"))
             (PStr (u "estable")) (PStr (u "ok")) (PInt 0) None])
       (u "2024-05-01T10:00:00")
       [(k_tendencia, PStr (u "estable"));
        (k_detalles,
         PDict [(u "anomalías", PList [PStr (u "pico"); PInt 3]);
                (u "media", PFloat (FFin (mkDec false (u "125") 2)))])]
     = (Ok id, db')
     /\ Main.obtener_ultimas_tendencias db' 1 = Ok [leida]
     /\ Main.l_id leida = id
     /\ Main.l_detalles leida
        = PDict [(u "anomalías", PList [PStr (u "pico"); PInt 3]);
                 (u "media", PFloat (FFin (mkDec false (u "125") 2)))])
  /\ (exists leida,
        Main.obtener_ultimas_tendencias
          (Main.init_db []
             [Main.mkTendencia 1 (u "2024-05-01T09:00:00") (PStr (u "x"))
                (PStr (u "estable")) (PStr (u "ok")) (PInt 0) None]) 1
        = Ok [leida]
        /\ Main.l_detalles leida = PDict []).
Proof.
  split.
  - apply (proj1 details_round_trip
             (Main.init_db []
                [Main.mkTendencia 1 (u "2024-05-01T09:00:00") (PStr (u "x"))
                   (PStr (u "estable")) (PStr (u "ok")) (PInt 0) None])
             (u "2024-05-01T10:00:00")
             [(k_tendencia, PStr (u "estable"));
              (k_detalles,
               PDict [(u "anomalías", PList [PStr (u "pico"); PInt 3]);
                      (u "media", PFloat (FFin (mkDec false (u "125") 2)))])]);
      vm_compute; reflexivity.
  - apply (proj2 details_round_trip
             (Main.init_db []
                [Main.mkTendencia 1 (u "2024-05-01T09:00:00") (PStr (u "x"))
                   (PStr (u "estable")) (PStr (u "ok")) (PInt 0) None])
             (Main.mkTendencia 1 (u "2024-05-01T09:00:00") (PStr (u "x"))
                (PStr (u "estable")) (PStr (u "ok")) (PInt 0) None)).
    + vm_compute. reflexivity.
    + left. reflexivity.
Defined.

(** ** The service variant of logic.py *)

Lemma limit_offset_length {A} (n : nat) (rows : list A) :
  (List.length (limit_offset (Z.of_nat n) 0 rows) <= n)%nat.
Proof.
  unfold limit_offset. simpl.
  replace (Z.of_nat n <? 0) with false by (symmetry; apply Z.ltb_ge; lia).
  rewrite Nat2Z.id. apply firstn_le_length.
Qed.

Lemma variant_task_returns_none rs db clk regs :
  exists rs', Logic.analizar_datos_flujo rs db clk regs = (None, db, rs').
Proof.
  unfold Logic.analizar_datos_flujo.
  destruct regs as [|r regs]; [now exists rs|].
  destruct (Logic.generate_reasoned_response _ _ _ _ _ _) as [resultado rs'].
  exists rs'. reflexivity.
Qed.

Lemma variant_post_never_schedules s now flujo :
  Logic.background (Logic.recibir_flujo s now flujo) = Logic.background s
  /\ Logic.tendencias_analisis (Logic.db_manager (Logic.recibir_flujo s now flujo))
     = Logic.tendencias_analisis (Logic.db_manager s).
Proof.
  cbv beta iota zeta delta [Logic.recibir_flujo Logic.guardar_flujo].
  set (db' := Logic.mkDB _ _).
  assert (H : (100 <=? List.length (Logic.obtener_historial db' 48 0))%nat
              = false).
  { apply Nat.leb_gt. unfold Logic.obtener_historial.
    pose proof (limit_offset_length 48
                  (order_by_desc Logic.reg_timestamp (Logic.flujo_registros db'))).
    change (Z.of_nat 48) with 48 in H. lia. }
  rewrite H. split; reflexivity.
Qed.

(** C10. In the service variant of logic.py the ingestion endpoint never adds
    the analysis task (it reads at most 48 records and requires 100); the
    analysis task, on every argument and for every behaviour of the client,
    returns [None] and leaves the database as it was, because the search
    applied to the dict returned by [generate_reasoned_response] raises and
    the handler returns; hence along every sequence of requests and task runs
    the table of trend analyses stays as it was. *)
Theorem variant_never_persists_trends :
  (forall s now flujo,
     Logic.background (Logic.recibir_flujo s now flujo) = Logic.background s)
  /\ (forall resultado, exists e,
        Logic.re_search_braces (PDict resultado) = Raise e
        /\ ekind e = TypeError)
  /\ (forall rs db clk regs, exists rs',
        Logic.analizar_datos_flujo rs db clk regs = (None, db, rs'))
  /\ (forall es s,
        Logic.tendencias_analisis (Logic.db_manager (Logic.run s es))
        = Logic.tendencias_analisis (Logic.db_manager s)).
Proof.
  split; [intros; apply variant_post_never_schedules|].
  split; [intros; eexists; split; reflexivity|].
  split; [intros; apply variant_task_returns_none|].
  induction es as [|e es IH]; intros s; [reflexivity|].
  change (Logic.run s (e :: es)) with (Logic.run (Logic.step s e) es).
  rewrite IH. destruct e as [now flujo| |clk]; simpl.
  - apply variant_post_never_schedules.
  - unfold Logic.analizar_ahora.
    destruct (10 <=? _)%nat; reflexivity.
  - destruct (Logic.background s) as [|task rest]; [reflexivity|].
    destruct (variant_task_returns_none (Logic.reasoning_system s)
                (Logic.db_manager s) clk task) as [rs' ->].
    reflexivity.
Qed.

(** ** The generation call of main.py *)

Lemma interpret_response_total t :
  exists r, Main.interpret_response (Some t) = Ok r.
Proof.
  rewrite interpret_response_cases.
  destruct (Main.json_found t); [|eauto].
  destruct (json_loads (Main.json_candidate t)) as [[]|]; eauto.
  destruct (py_float _); eauto.
Qed.

Lemma generate_response_cases rs c query num_cycles temperature :
  Main.client rs = Some c ->
  match c (Main.model rs)
          (Main._create_prompt_for_flow_analysis query num_cycles)
          (config_of temperature) with
  | Raise e =>
      Main.generate_reasoned_response rs query num_cycles temperature
      = error_analysis (emsg e)
  | Ok None =>
      Main.generate_reasoned_response rs query num_cycles temperature
      = error_analysis (u "'NoneType' object is not subscriptable")
  | Ok (Some t) =>
      Main.interpret_response (Some t)
      = Ok (Main.generate_reasoned_response rs query num_cycles temperature)
  end.
Proof.
  intros Hc. unfold Main.generate_reasoned_response. rewrite Hc. cbv zeta.
  fold (config_of temperature).
  destruct (c _ _ _) as [[t|]|e]; cbn [bind].
  - destruct (interpret_response_total t) as [r ->]. reflexivity.
  - reflexivity.
  - reflexivity.
Qed.

(** X1. What [generate_reasoned_response] of main.py returns is decided by
    the outcome of the generation call: when the call raises, the error
    analysis with the message of the exception; when the response has no
    text, the error analysis too, with the message of the [TypeError] that
    the fallback raises on [None] inside the handler of the inner [try];
    when the response has a text, the interpretation of that text. *)
Theorem generation_outcomes rs c query num_cycles temperature :
  Main.client rs = Some c ->
  match c (Main.model rs)
          (Main._create_prompt_for_flow_analysis query num_cycles)
          (config_of temperature) with
  | Raise e =>
      Main.generate_reasoned_response rs query num_cycles temperature
      = error_analysis (emsg e)
  | Ok None =>
      Main.generate_reasoned_response rs query num_cycles temperature
      = error_analysis (u "'NoneType' object is not subscriptable")
  | Ok (Some t) =>
      Main.interpret_response (Some t)
      = Ok (Main.generate_reasoned_response rs query num_cycles temperature)
  end.
Proof. exact (generate_response_cases rs c query num_cycles temperature). Qed.

Lemma generation_outcomes_witness :
  Main.generate_reasoned_response (sample_system failing_client) (u "datos")
    3 Main.default_temperature
  = error_analysis (u "503 UNAVAILABLE").
Proof.
  exact (generation_outcomes (sample_system failing_client) failing_client
           (u "datos") 3 Main.default_temperature eq_refl).
Defined.

(** ** The storage reads and the ingestion of main.py *)

Lemma pystr_ltb_irrefl a : pystr_ltb a a = false.
Proof.
  induction a as [|x a IH]; [reflexivity|]. cbn [pystr_ltb].
  now rewrite N.ltb_irrefl.
Qed.

Lemma pystr_ltb_trans a : forall b c,
  pystr_ltb a b = true -> pystr_ltb b c = true -> pystr_ltb a c = true.
Proof.
  induction a as [|x a IH]; intros [|y b] [|z c]; cbn [pystr_ltb];
    try congruence.
  destruct (N.ltb_spec x y), (N.ltb_spec y x), (N.ltb_spec y z),
    (N.ltb_spec z y), (N.ltb_spec x z), (N.ltb_spec z x);
    try congruence; try lia.
  apply IH.
Qed.

Lemma pystr_ltb_total a : forall b,
  pystr_ltb a b = false -> pystr_ltb b a = false -> a = b.
Proof.
  induction a as [|x a IH]; intros [|y b]; cbn [pystr_ltb];
    try congruence.
  destruct (N.ltb_spec x y), (N.ltb_spec y x); try congruence; try lia.
  intros H1 H2. f_equal; [lia | now apply IH].
Qed.

Section OrderByFacts.

Context {A : Type} (key : A -> pystr).

Lemma insert_desc_perm x l : Permutation (insert_desc key x l) (x :: l).
Proof.
  induction l as [|y l IH]; cbn [insert_desc]; [reflexivity|].
  destruct (pystr_ltb (key y) (key x)); [reflexivity|].
  rewrite IH. apply perm_swap.
Qed.

Lemma order_by_desc_perm rows : Permutation (order_by_desc key rows) rows.
Proof.
  unfold order_by_desc. induction rows as [|x rows IH]; [reflexivity|].
  cbn [fold_right]. rewrite insert_desc_perm. now constructor.
Qed.

Lemma order_by_desc_length rows :
  List.length (order_by_desc key rows) = List.length rows.
Proof. apply Permutation_length, order_by_desc_perm. Qed.

Lemma not_older_above x y z :
  pystr_ltb (key y) (key x) = true -> not_older key y z -> not_older key x z.
Proof.
  unfold not_older. intros Hyx Hyz.
  destruct (pystr_ltb (key x) (key z)) eqn:E; [|reflexivity].
  rewrite (pystr_ltb_trans _ _ _ Hyx E) in Hyz. discriminate.
Qed.

Lemma insert_desc_sorted x l :
  StronglySorted (not_older key) l ->
  StronglySorted (not_older key) (insert_desc key x l).
Proof.
  induction 1 as [|y l Hs IH Hy]; cbn [insert_desc].
  - repeat constructor.
  - destruct (pystr_ltb (key y) (key x)) eqn:E.
    + constructor; [now constructor|]. constructor.
      * exact (pystr_ltb_asym _ _ E).
      * apply Forall_forall. intros z Hz.
        apply (not_older_above x y z E).
        exact (proj1 (Forall_forall _ _) Hy z Hz).
    + constructor; [exact IH|].
      apply Forall_forall. intros z Hz.
      apply (Permutation_in _ (insert_desc_perm x l)) in Hz.
      destruct Hz as [<-|Hz]; [exact E|].
      exact (proj1 (Forall_forall _ _) Hy z Hz).
Qed.

Lemma order_by_desc_sorted rows :
  StronglySorted (not_older key) (order_by_desc key rows).
Proof.
  unfold order_by_desc. induction rows as [|x rows IH]; [constructor|].
  cbn [fold_right]. now apply insert_desc_sorted.
Qed.

End OrderByFacts.

Lemma In_firstn {A} n (l : list A) x : In x (firstn n l) -> In x l.
Proof.
  intros H. rewrite <- (firstn_skipn n l). apply in_or_app. now left.
Qed.

Lemma In_skipn {A} n (l : list A) x : In x (skipn n l) -> In x l.
Proof.
  intros H. rewrite <- (firstn_skipn n l). apply in_or_app. now right.
Qed.

Lemma StronglySorted_skipn {A} (R : A -> A -> Prop) n : forall l,
  StronglySorted R l -> StronglySorted R (skipn n l).
Proof.
  induction n as [|n IH]; intros l H; [exact H|].
  destruct H; [constructor|]. cbn [skipn]. now apply IH.
Qed.

Lemma StronglySorted_firstn {A} (R : A -> A -> Prop) n : forall l,
  StronglySorted R l -> StronglySorted R (firstn n l).
Proof.
  induction n as [|n IH]; intros l H; [constructor|].
  destruct H as [|x l Hs Hx]; [constructor|]. cbn [firstn].
  constructor; [now apply IH|].
  apply Forall_forall. intros z Hz. apply In_firstn in Hz.
  exact (proj1 (Forall_forall _ _) Hx z Hz).
Qed.

Lemma limit_offset_sorted {A} (R : A -> A -> Prop) n k l :
  StronglySorted R l -> StronglySorted R (limit_offset n k l).
Proof.
  intros H. unfold limit_offset. cbv zeta.
  destruct (n <? 0);
    [|apply StronglySorted_firstn]; now apply StronglySorted_skipn.
Qed.

Lemma limit_offset_In {A} n k (l : list A) x :
  In x (limit_offset n k l) -> In x l.
Proof.
  unfold limit_offset. cbv zeta. intros H.
  destruct (n <? 0); [|apply In_firstn in H]; now apply In_skipn in H.
Qed.

Lemma limit_offset_count {A} n k (l : list A) :
  0 <= n ->
  List.length (limit_offset n k l)
  = Nat.min (Z.to_nat n) (List.length l - Z.to_nat k).
Proof.
  intros Hn. unfold limit_offset. cbv zeta.
  destruct (Z.ltb_spec n 0); [lia|].
  now rewrite length_firstn, length_skipn.
Qed.

Lemma firstn_plus {A} a b : forall l : list A,
  firstn (a + b) l = firstn a l ++ firstn b (skipn a l).
Proof.
  induction a as [|a IH]; intros l; [reflexivity|].
  destruct l as [|x l]; [now rewrite !firstn_nil|].
  cbn [Nat.add firstn skipn app]. now rewrite IH.
Qed.

Lemma limit_offset_pages {A} a b k (l : list A) :
  0 <= a -> 0 <= b -> 0 <= k ->
  limit_offset a k l ++ limit_offset b (k + a) l = limit_offset (a + b) k l.
Proof.
  intros Ha Hb Hk. unfold limit_offset. cbv zeta.
  destruct (Z.ltb_spec a 0); [lia|]. destruct (Z.ltb_spec b 0); [lia|].
  destruct (Z.ltb_spec (a + b) 0); [lia|].
  rewrite !Z2Nat.inj_add by lia. rewrite firstn_plus.
  f_equal. f_equal. rewrite Nat.add_comm. symmetry. apply skipn_skipn.
Qed.

(** X2. [obtener_historial] returns stored rows only, each row not older
    than the rows after it, for every limit and offset; with a negative limit
    and no offset it returns the whole table, in that order. *)
Theorem historial_newest_first db limite offset :
  StronglySorted (not_older Main.reg_timestamp)
                 (Main.obtener_historial db limite offset)
  /\ (forall r, In r (Main.obtener_historial db limite offset) ->
                In r (Main.flujo_registros db))
  /\ Permutation (Main.obtener_historial db (-1) 0) (Main.flujo_registros db).
Proof.
  unfold Main.obtener_historial. split; [|split].
  - apply limit_offset_sorted, order_by_desc_sorted.
  - intros r Hr. apply limit_offset_In in Hr.
    exact (Permutation_in _ (order_by_desc_perm _ _) Hr).
  - apply order_by_desc_perm.
Qed.

Lemma historial_newest_first_witness :
  In (Main.mkRegistro 5 (mkDec false (u "119") 2) (u "2024-05-01T10:00:04") None)
     (Main.flujo_registros sample_db).
Proof.
  apply (proj1 (proj2 (historial_newest_first sample_db 2 0))).
  vm_compute. left. reflexivity.
Defined.

(** X3. With limits and offsets that fit in 64 bits (those the binding
    takes): for a limit that is not negative, [obtener_historial] returns as
    many rows as the limit allows from the offset on; consecutive pages put
    end to end are the page of the summed limit, when the sums fit too; a
    negative limit returns every row from the offset on. *)
Theorem historial_pages db :
  (forall limite offset,
     int64 limite = true -> int64 offset = true -> 0 <= limite ->
     List.length (Main.obtener_historial db limite offset)
     = Nat.min (Z.to_nat limite)
               (List.length (Main.flujo_registros db) - Z.to_nat offset))
  /\ (forall a b offset,
        int64 (a + b) = true -> int64 (offset + a) = true ->
        0 <= a -> 0 <= b -> 0 <= offset ->
        Main.obtener_historial db a offset
          ++ Main.obtener_historial db b (offset + a)
        = Main.obtener_historial db (a + b) offset)
  /\ (forall limite offset,
        int64 limite = true -> int64 offset = true -> limite < 0 ->
        List.length (Main.obtener_historial db limite offset)
        = (List.length (Main.flujo_registros db) - Z.to_nat offset)%nat).
Proof.
  unfold Main.obtener_historial. split; [|split].
  - intros l k _ _ Hl. rewrite limit_offset_count by exact Hl.
    now rewrite order_by_desc_length.
  - intros a b k _ _ Ha Hb Hk. now apply limit_offset_pages.
  - intros l k _ _ Hl. unfold limit_offset. cbv zeta.
    destruct (Z.ltb_spec l 0); [|lia].
    now rewrite length_skipn, order_by_desc_length.
Qed.

Lemma historial_pages_witness :
  List.length (Main.obtener_historial sample_db 2 1) = 2%nat
  /\ Main.obtener_historial sample_db 2 0 ++ Main.obtener_historial sample_db 2 2
     = Main.obtener_historial sample_db 4 0
  /\ List.length (Main.obtener_historial sample_db (-1) 1) = 4%nat.
Proof.
  split; [|split].
  - apply (proj1 (historial_pages sample_db) 2 1); [reflexivity..|lia].
  - apply (proj1 (proj2 (historial_pages sample_db)) 2 2 0);
      [reflexivity | reflexivity | lia..].
  - apply (proj2 (proj2 (historial_pages sample_db)) (-1) 1);
      [reflexivity..|lia].
Defined.

Lemma next_rowid_above {A} (id : A -> Z) rows :
  Forall (fun r => id r < Main.next_rowid id rows) rows
  /\ 1 <= Main.next_rowid id rows.
Proof.
  unfold Main.next_rowid. induction rows as [|x rows [IH1 IH2]].
  - split; [constructor | cbn; lia].
  - cbn [fold_right]. split; [|lia]. constructor; [lia|].
    apply Forall_forall. intros r Hr.
    pose proof (proj1 (Forall_forall _ _) IH1 r Hr). cbv beta in *. lia.
Qed.

Lemma next_rowid_snoc {A} (id : A -> Z) rows x :
  Main.next_rowid id rows <= id x ->
  Main.next_rowid id (rows ++ [x]) = 1 + id x.
Proof.
  unfold Main.next_rowid. induction rows as [|y rows IH]; cbn [app fold_right].
  - lia.
  - intros H. 
    assert (H' : 1 + fold_right (fun r m => Z.max (id r) m) 0 rows <= id x) by lia.
    specialize (IH H'). lia.
Qed.

Lemma guardar_flujo_table db now flujo analisis :
  Main.flujo_registros (snd (Main.guardar_flujo db now flujo analisis))
  = Main.flujo_registros db
      ++ [Main.mkRegistro (Main.next_rowid Main.reg_id (Main.flujo_registros db))
                          flujo now analisis].
Proof. reflexivity. Qed.

Lemma ingest_cons db r readings :
  ingest db (r :: readings)
  = ingest (snd (Main.guardar_flujo db (fst r) (snd r) None)) readings.
Proof. reflexivity. Qed.

Lemma ingest_ids : forall readings db n,
  map Main.reg_id (Main.flujo_registros db) = map Z.of_nat (seq 1 n) ->
  Main.next_rowid Main.reg_id (Main.flujo_registros db) = Z.of_nat (S n) ->
  map Main.reg_id (Main.flujo_registros (ingest db readings))
  = map Z.of_nat (seq 1 (n + List.length readings)).
Proof.
  induction readings as [|r readings IH]; intros db n Hm Hn.
  - cbn [ingest fold_left List.length]. now rewrite Nat.add_0_r.
  - rewrite ingest_cons. cbn [List.length].
    replace (n + S (List.length readings))%nat
      with (S n + List.length readings)%nat by lia.
    apply IH.
    + rewrite guardar_flujo_table, map_app, Hm. cbn [map Main.reg_id].
      rewrite Hn. rewrite seq_S, map_app. reflexivity.
    + rewrite guardar_flujo_table, next_rowid_snoc; cbn [Main.reg_id]; lia.
Qed.

Lemma ingest_nodup : forall readings db,
  NoDup (map Main.reg_id (Main.flujo_registros db)) ->
  NoDup (map Main.reg_id (Main.flujo_registros (ingest db readings))).
Proof.
  induction readings as [|r readings IH]; intros db H; [exact H|].
  rewrite ingest_cons. apply IH.
  rewrite guardar_flujo_table, map_app. cbn [map Main.reg_id].
  apply NoDup_app; [exact H | repeat constructor; intros [] |].
  intros x Hx [<-|[]]. apply in_map_iff in Hx as (y & Hy & Hin).
  pose proof (proj1 (Forall_forall _ _)
                (proj1 (next_rowid_above Main.reg_id (Main.flujo_registros db)))
                y Hin) as L.
  cbv beta in L. lia.
Qed.

(** X4. The id of a stored reading is above the ids of all rows stored
    before it, so ids that are distinct stay distinct under any number of
    ingestions; on an empty table the ids are 1, 2, ..., n in the order of
    arrival. *)
Theorem reading_ids_fresh :
  (forall db now flujo analisis,
     Forall (fun r => Main.reg_id r
                      < Main.reg_id
                          (fst (fst (Main.guardar_flujo db now flujo analisis))))
            (Main.flujo_registros db))
  /\ (forall db readings,
        NoDup (map Main.reg_id (Main.flujo_registros db)) ->
        NoDup (map Main.reg_id (Main.flujo_registros (ingest db readings))))
  /\ (forall tens readings,
        map Main.reg_id
            (Main.flujo_registros (ingest (Main.init_db [] tens) readings))
        = map Z.of_nat (seq 1 (List.length readings))).
Proof.
  split; [|split].
  - intros db now flujo analisis. cbn [Main.guardar_flujo fst Main.reg_id].
    apply next_rowid_above.
  - intros db readings. apply ingest_nodup.
  - intros tens readings.
    exact (ingest_ids readings (Main.init_db [] tens) 0 eq_refl eq_refl).
Qed.

Lemma reading_ids_fresh_witness :
  NoDup (map Main.reg_id
             (Main.flujo_registros
                (ingest sample_db
                        [(u "2024-05-01T10:00:05", mkDec false (u "13") 2)]))).
Proof.
  apply (proj1 (proj2 reading_ids_fresh) sample_db).
  vm_compute. repeat constructor; cbn; intuition congruence.
Defined.

(** X5. After [POST /flujo] with a clock reading later than the stored
    timestamps, the history read with a limit of at least 1 that fits in 64
    bits starts with the reading just stored (its value, that timestamp, no
    analysis), followed by what the history showed before; and the answer of
    the request carries the id and the timestamp of that row. *)
Theorem posted_reading_heads_history db now flujo limite :
  forallb (fun r => pystr_ltb (Main.reg_timestamp r) now)
          (Main.flujo_registros db) = true ->
  1 <= limite -> int64 limite = true ->
  exists row,
    Main.obtener_historial (fst (Main.recibir_flujo db now flujo)) limite 0
    = row :: Main.obtener_historial db (limite - 1) 0
    /\ Main.reg_flujo row = flujo
    /\ Main.reg_timestamp row = now
    /\ Main.reg_analisis row = None
    /\ Main.respuesta_flujo db now flujo
       = [(u "mensaje", PStr (u "Flujo recibido correctamente"));
          (u "flujo", PFloat (FFin flujo));
          (u "id_registro", PInt (Main.reg_id row));
          (u "timestamp", PStr now)].
Proof.
  intros Hnew Hl _.
  exists (Main.mkRegistro
            (Main.next_rowid Main.reg_id (Main.flujo_registros db))
            flujo now None).
  split; [|repeat split].
  unfold Main.recibir_flujo, Main.guardar_flujo, Main.obtener_historial.
  cbn [fst Main.flujo_registros].
  rewrite (order_by_desc_newest Main.reg_timestamp) by exact Hnew.
  unfold limit_offset. cbv zeta. cbn [Z.to_nat skipn].
  destruct (Z.ltb_spec limite 0); [lia|].
  destruct (Z.ltb_spec (limite - 1) 0); [lia|].
  replace (Z.to_nat limite) with (S (Z.to_nat (limite - 1))) by lia.
  reflexivity.
Qed.

Lemma posted_reading_heads_history_witness :
  exists row,
    Main.obtener_historial
      (fst (Main.recibir_flujo sample_db (u "2024-05-01T10:00:05")
                               (mkDec false (u "13") 2))) 3 0
    = row :: Main.obtener_historial sample_db (3 - 1) 0
    /\ Main.reg_flujo row = mkDec false (u "13") 2
    /\ Main.reg_timestamp row = u "2024-05-01T10:00:05"
    /\ Main.reg_analisis row = None
    /\ Main.respuesta_flujo sample_db (u "2024-05-01T10:00:05")
                            (mkDec false (u "13") 2)
       = [(u "mensaje", PStr (u "Flujo recibido correctamente"));
          (u "flujo", PFloat (FFin (mkDec false (u "13") 2)));
          (u "id_registro", PInt (Main.reg_id row));
          (u "timestamp", PStr (u "2024-05-01T10:00:05"))].
Proof.
  apply (posted_reading_heads_history sample_db (u "2024-05-01T10:00:05")
           (mkDec false (u "13") 2) 3);
    [vm_compute; reflexivity | lia | reflexivity].
Defined.

(** ** The analysis task and the service of main.py *)

Lemma historial_window db :
  List.length (Main.obtener_historial db 50 0)
  = Nat.min 50 (List.length (Main.flujo_registros db)).
Proof.
  unfold Main.obtener_historial.
  rewrite limit_offset_count by lia. rewrite order_by_desc_length.
  change (Z.to_nat 50) with 50%nat. change (Z.to_nat 0) with 0%nat. lia.
Qed.

Lemma generate_nonempty rs q n t :
  Main.generate_reasoned_response rs q n t <> [].
Proof.
  unfold Main.generate_reasoned_response.
  destruct (Main.client rs) as [c|]; [|discriminate]. cbv zeta.
  destruct (c _ _ _) as [[txt|]|e]; cbn [bind]; try discriminate.
  rewrite interpret_response_cases.
  destruct (Main.json_found txt); [|discriminate].
  destruct (json_loads _) as [[]|]; try discriminate.
  destruct (py_float _); discriminate.
Qed.

Lemma analizar_sin_cliente rs db now :
  Main.client rs = None -> Main.analizar_datos_flujo rs db now = (None, db).
Proof. intros H. unfold Main.analizar_datos_flujo. now rewrite H. Qed.

Lemma analizar_con_cliente rs c db now :
  Main.client rs = Some c ->
  (5 <= List.length (Main.flujo_registros db))%nat ->
  Main.analizar_datos_flujo rs db now
  = (Some (dict_set (Main.generate_reasoned_response
                       rs (task_query db) Main.default_num_cycles
                       Main.default_temperature)
                    k_periodo
                    (periodo_registros
                       (Nat.min 50 (List.length (Main.flujo_registros db))))),
     snd (Main.guardar_analisis_tendencia db now
            (dict_set (Main.generate_reasoned_response
                         rs (task_query db) Main.default_num_cycles
                         Main.default_temperature)
                      k_periodo
                      (periodo_registros
                         (Nat.min 50 (List.length (Main.flujo_registros db))))))).
Proof.
  intros Hc Hn. unfold Main.analizar_datos_flujo. rewrite Hc. cbv zeta.
  rewrite historial_window.
  destruct (Nat.ltb_spec (Nat.min 50 (List.length (Main.flujo_registros db))) 5);
    [lia|].
  unfold task_query, periodo_registros.
  pose proof (generate_nonempty rs
                (Main.crear_query (Main.obtener_historial db 50 0))
                Main.default_num_cycles Main.default_temperature) as Hne.
  set (g := Main.generate_reasoned_response rs
              (Main.crear_query (Main.obtener_historial db 50 0))
              Main.default_num_cycles Main.default_temperature) in *.
  clearbody g. destruct g as [|kv r]; [congruence|].
  cbn [truthy]. reflexivity.
Qed.

Lemma analizar_pocos_datos rs db now :
  (List.length (Main.flujo_registros db) < 5)%nat ->
  Main.analizar_datos_flujo rs db now = (None, db).
Proof.
  intros Hn. unfold Main.analizar_datos_flujo.
  destruct (Main.client rs); [|reflexivity]. cbv zeta.
  rewrite historial_window.
  destruct (Nat.ltb_spec (Nat.min 50 (List.length (Main.flujo_registros db))) 5);
    [reflexivity | lia].
Qed.

(** X6. When the generation call of the analysis task raises (with at least
    five readings stored, and a message without surrogates, which the
    storage binding takes), the task does not stop: it returns the error
    analysis with the period added, stores it as a trend row with trend
    "error", probability 0 and the message as recommendation and details,
    and resets the counter and the pending flag. *)
Theorem failed_generation_is_recorded rs c db now e :
  Main.client rs = Some c ->
  (5 <= List.length (Main.flujo_registros db))%nat ->
  c (Main.model rs)
    (Main._create_prompt_for_flow_analysis (task_query db)
                                           Main.default_num_cycles)
    (config_of Main.default_temperature) = Raise e ->
  forallb scalar (emsg e) = true ->
  let periodo :=
    periodo_registros (Nat.min 50 (List.length (Main.flujo_registros db))) in
  Main.analizar_datos_flujo rs db now
  = (Some (error_analysis (emsg e) ++ [(k_periodo, periodo)]),
     Main.mkDB
       (Main.flujo_registros db)
       (Main.tendencias db
          ++ [Main.mkTendencia
                (Main.next_rowid Main.ten_id (Main.tendencias db)) now periodo
                (PStr (u "error"))
                (PStr (u "Error en análisis: " ++ emsg e))
                (PInt 0)
                (Some (json_dumps (PDict [(u "error", PStr (emsg e))])))])
       false 0 (Main.analysis_threshold db)).
Proof.
  intros Hc Hn He _ periodo.
  rewrite (analizar_con_cliente rs c db now Hc Hn).
  pose proof (generate_response_cases rs c (task_query db)
                Main.default_num_cycles Main.default_temperature Hc) as G.
  rewrite He in G. rewrite G. reflexivity.
Qed.

Lemma failed_generation_is_recorded_witness :
  fst (Main.analizar_datos_flujo (sample_system failing_client) sample_db
                                 (u "2024-05-01T10:00:06"))
  = Some (error_analysis (u "503 UNAVAILABLE")
            ++ [(k_periodo, periodo_registros 5)]).
Proof.
  rewrite (failed_generation_is_recorded (sample_system failing_client)
             failing_client sample_db (u "2024-05-01T10:00:06")
             (mkExn ServiceError (u "503 UNAVAILABLE")));
    [reflexivity | reflexivity | vm_compute; lia | reflexivity
     | vm_compute; reflexivity].
Defined.

Lemma step_system s e :
  Main.reasoning_system (Main.step s e) = Main.reasoning_system s.
Proof.
  destruct e as [now flujo| |now]; cbn [Main.step]; try reflexivity.
  destruct (Main.background s); [reflexivity|].
  destruct (Main.analizar_datos_flujo _ _ _). reflexivity.
Qed.

Lemma run_cons s e es : Main.run s (e :: es) = Main.run (Main.step s e) es.
Proof. reflexivity. Qed.

(** X7. Without a client (no API key), whatever requests and task runs
    happen, no trend is ever stored, the counter of readings is never reset
    (it grows by one with each [POST /flujo]), and the pending flag, once
    set, stays set. *)
Theorem unconfigured_service_never_analyses es : forall s,
  Main.client (Main.reasoning_system s) = None ->
  Main.tendencias (Main.db_manager (Main.run s es))
  = Main.tendencias (Main.db_manager s)
  /\ Main.records_since_last_analysis (Main.db_manager (Main.run s es))
     = Main.records_since_last_analysis (Main.db_manager s)
       + Z.of_nat (posts es)
  /\ (Main.pending_analysis (Main.db_manager s) = true ->
      Main.pending_analysis (Main.db_manager (Main.run s es)) = true).
Proof.
  induction es as [|e es IH]; intros s Hc.
  - cbn [Main.run fold_left posts]. rewrite Z.add_0_r. auto.
  - rewrite run_cons.
    destruct (IH (Main.step s e)) as (I1 & I2 & I3);
      [now rewrite step_system|].
    rewrite I1, I2. clear I1 I2.
    destruct e as [now flujo| |now].
    + cbn [Main.step Main.post_flujo Main.recibir_flujo Main.guardar_flujo
           Main.db_manager Main.tendencias Main.records_since_last_analysis
           Main.pending_analysis posts] in *.
      split; [reflexivity|]. split; [lia|].
      intros Hp. apply I3. rewrite Hp. now destruct (_ <=? _).
    + cbn [Main.step Main.analizar_ahora Main.db_manager posts] in *.
      split; [reflexivity|]. split; [lia | exact I3].
    + cbn [Main.step posts] in *.
      destruct (Main.background s) as [|k].
      * split; [reflexivity|]. split; [lia | exact I3].
      * rewrite (analizar_sin_cliente _ _ _ Hc) in *.
        cbn [Main.db_manager] in *.
        split; [reflexivity|]. split; [lia | exact I3].
Qed.

Lemma unconfigured_service_never_analyses_witness :
  Main.tendencias
    (Main.db_manager
       (Main.run
          (Main.mkService sample_db
             (Main.init_reasoning_system answering_client None
                                         (u "gemini-1.5-pro")) 0)
          [Main.PostFlujo (u "2024-05-01T10:00:05") (mkDec false (u "13") 2);
           Main.GetAnalizarAhora; Main.RunTask (u "2024-05-01T10:00:06")]))
  = [].
Proof.
  apply (proj1 (unconfigured_service_never_analyses
                  [Main.PostFlujo (u "2024-05-01T10:00:05")
                                  (mkDec false (u "13") 2);
                   Main.GetAnalizarAhora;
                   Main.RunTask (u "2024-05-01T10:00:06")]
                  (Main.mkService sample_db
                     (Main.init_reasoning_system answering_client None
                                                 (u "gemini-1.5-pro")) 0)
                  eq_refl)).
Defined.

Lemma posts_pile : forall readings s,
  Main.analysis_threshold (Main.db_manager s) = 5 ->
  Main.pending_analysis (Main.db_manager s)
  = (5 <=? Main.records_since_last_analysis (Main.db_manager s)) ->
  Z.of_nat (Main.background
              (Main.run s (map (fun r => Main.PostFlujo (fst r) (snd r))
                               readings)))
  = Z.of_nat (Main.background s)
    + Z.max 0 (Main.records_since_last_analysis (Main.db_manager s)
               + Z.of_nat (List.length readings) - 4)
    - Z.max 0 (Main.records_since_last_analysis (Main.db_manager s) - 4)
  /\ Main.db_manager
       (Main.run s (map (fun r => Main.PostFlujo (fst r) (snd r)) readings))
     = ingest (Main.db_manager s) readings.
Proof.
  induction readings as [|r readings IH]; intros s Ht Hp.
  - cbn [map Main.run fold_left List.length ingest]. split; [lia | reflexivity].
  - cbn [map]. rewrite run_cons, ingest_cons.
    set (s1 := Main.step s (Main.PostFlujo (fst r) (snd r))).
    assert (E1 : Main.db_manager s1
                 = snd (Main.guardar_flujo (Main.db_manager s) (fst r) (snd r)
                                           None)) by reflexivity.
    assert (E2 : Main.records_since_last_analysis (Main.db_manager s1)
                 = Main.records_since_last_analysis (Main.db_manager s) + 1)
      by reflexivity.
    assert (E3 : Main.analysis_threshold (Main.db_manager s1) = 5)
      by exact Ht.
    assert (E4 : Main.pending_analysis (Main.db_manager s1)
                 = (5 <=? Main.records_since_last_analysis (Main.db_manager s1))).
    { rewrite E2. subst s1.
      cbn [Main.step Main.post_flujo Main.recibir_flujo Main.guardar_flujo
           Main.db_manager Main.pending_analysis].
      rewrite Ht, Hp.
      destruct (Z.leb_spec 5 (Main.records_since_last_analysis
                                (Main.db_manager s) + 1));
        [reflexivity|].
      apply Z.leb_gt. lia. }
    assert (E5 : Z.of_nat (Main.background s1)
                 = Z.of_nat (Main.background s)
                   + (if 5 <=? Main.records_since_last_analysis
                                 (Main.db_manager s) + 1
                      then 1 else 0)).
    { rewrite <- E2, <- E4. subst s1.
      cbn [Main.step Main.post_flujo Main.recibir_flujo Main.guardar_flujo
           Main.db_manager Main.pending_analysis Main.necesita_analisis
           Main.background].
      destruct (if _ <=? _ then true else _); cbn [Main.background]; lia. }
    destruct (IH s1 E3 E4) as [I1 I2]. rewrite I1, I2, E2, E5, E1.
    split; [|reflexivity]. cbn [List.length].
    destruct (Z.leb_spec 5 (Main.records_since_last_analysis
                              (Main.db_manager s) + 1)); lia.
Qed.

(** X8. On a fresh manager, as long as no analysis task has run, every
    [POST /flujo] from the fifth on adds one more analysis task: after n
    requests n - 4 tasks are waiting. *)
Theorem pending_posts_pile_up_tasks regs tens rs readings :
  Main.background
    (Main.run (Main.mkService (Main.init_db regs tens) rs 0)
              (map (fun r => Main.PostFlujo (fst r) (snd r)) readings))
  = (List.length readings - 4)%nat.
Proof.
  destruct (posts_pile readings (Main.mkService (Main.init_db regs tens) rs 0)
              eq_refl eq_refl) as [H _].
  cbn [Main.db_manager Main.background Main.init_db
       Main.records_since_last_analysis] in H.
  lia.
Qed.

Lemma dict_get_set_other k k' v x : forall d,
  pystr_eqb k k' = false ->
  dict_get (dict_set d k v) k' x = dict_get d k' x.
Proof.
  intros d H. induction d as [|[k2 v2] d IH].
  - cbn [dict_set dict_get]. now rewrite H.
  - cbn [dict_set dict_get]. destruct (pystr_eqb k2 k) eqn:E.
    + apply pystr_eqb_eq in E. subst k2. cbn [dict_get]. now rewrite H.
    + cbn [dict_get]. now rewrite IH.
Qed.

Lemma dict_get_set_same k v x : forall d,
  dict_get (dict_set d k v) k x = v.
Proof.
  induction d as [|[k2 v2] d IH].
  - cbn [dict_set dict_get]. now rewrite pystr_eqb_refl.
  - cbn [dict_set]. destruct (pystr_eqb k2 k) eqn:E; cbn [dict_get];
      now rewrite E.
Qed.

Lemma leer_detalles_dumps v :
  wf_pyval v = true -> Main.leer_detalles (Some (json_dumps v)) = Ok v.
Proof.
  intros H. unfold Main.leer_detalles.
  pose proof (json_dumps_nonempty v) as L.
  destruct (json_dumps v) as [|c r] eqn:E; [cbn in L; lia|].
  rewrite <- E. now apply json_loads_dumps.
Qed.

Lemma saved_row_readable db now analisis :
  wf_pyval (dict_get analisis k_detalles (PDict [])) = true ->
  Forall readable (Main.tendencias db) ->
  Forall readable
    (Main.tendencias (snd (Main.guardar_analisis_tendencia db now analisis))).
Proof.
  intros Hw Hr. cbn [Main.guardar_analisis_tendencia snd Main.tendencias].
  apply Forall_app. split; [exact Hr|]. constructor; [|constructor].
  unfold readable. cbn [Main.ten_detalles].
  eexists. now apply leer_detalles_dumps.
Qed.

Lemma generated_details_wf rs c q n temp :
  Main.client rs = Some c -> answers_in_unicode c ->
  wf_pyval (dict_get (Main.generate_reasoned_response rs q n temp)
                     k_detalles (PDict [])) = true.
Proof.
  intros Hc Hu.
  pose proof (generate_response_cases rs c q n temp Hc) as G.
  specialize (Hu (Main.model rs) (Main._create_prompt_for_flow_analysis q n)
                 (config_of temp)).
  destruct (c _ _ _) as [[t|]|e].
  - exact (proj2 (interpreted_analysis_wf t _ Hu G)).
  - rewrite G. reflexivity.
  - rewrite G. unfold error_analysis.
    change (dict_get _ k_detalles (PDict []))
      with (PDict [(u "error", PStr (emsg e))]).
    cbn [wf_pyval map fst snd forallb nodup_keys existsb negb andb].
    rewrite Hu. reflexivity.
Qed.

Lemma task_keeps_readable rs db now :
  (forall c, Main.client rs = Some c -> answers_in_unicode c) ->
  Forall readable (Main.tendencias db) ->
  Forall readable
    (Main.tendencias (snd (Main.analizar_datos_flujo rs db now))).
Proof.
  intros Hu Hr. destruct (Main.client rs) as [c|] eqn:Hc.
  - destruct (Nat.le_gt_cases 5 (List.length (Main.flujo_registros db)))
      as [Hn|Hn].
    + rewrite (analizar_con_cliente rs c db now Hc Hn). cbn [snd].
      apply saved_row_readable; [|exact Hr].
      rewrite dict_get_set_other by reflexivity.
      exact (generated_details_wf rs c _ _ _ Hc (Hu c eq_refl)).
    + now rewrite (analizar_pocos_datos rs db now Hn).
  - now rewrite (analizar_sin_cliente rs db now Hc).
Qed.

Lemma run_keeps_readable es : forall s,
  (forall c, Main.client (Main.reasoning_system s) = Some c ->
             answers_in_unicode c) ->
  Forall readable (Main.tendencias (Main.db_manager s)) ->
  Forall readable (Main.tendencias (Main.db_manager (Main.run s es))).
Proof.
  induction es as [|e es IH]; intros s Hu Hr; [exact Hr|].
  rewrite run_cons. apply IH; [now rewrite step_system|].
  destruct e as [now flujo| |now]; cbn [Main.step].
  - exact Hr.
  - exact Hr.
  - destruct (Main.background s) as [|k]; [exact Hr|].
    pose proof (task_keeps_readable (Main.reasoning_system s)
                  (Main.db_manager s) now Hu Hr) as H.
    destruct (Main.analizar_datos_flujo _ _ _) as [r db']. exact H.
Qed.

Lemma map_res_readable rows :
  Forall readable rows ->
  exists l,
    Main.map_res
      (fun t =>
         d <- Main.leer_detalles (Main.ten_detalles t) ;;
         Ok (Main.mkLeida (Main.ten_id t) (Main.ten_fecha t)
               (Main.ten_periodo t) (Main.ten_tendencia t)
               (Main.ten_recomendacion t) (Main.ten_probabilidad_fuga t) d))
      rows = Ok l
    /\ List.length l = List.length rows
    /\ map Main.l_id l = map Main.ten_id rows.
Proof.
  induction 1 as [|t rows [v Hv] _ (l & Hl & Hlen & Hid)].
  - exists []. repeat split.
  - cbn [Main.map_res]. rewrite Hv. cbn [bind]. rewrite Hl. cbn [bind].
    eexists. split; [reflexivity|].
    cbn [List.length map Main.l_id]. now rewrite Hlen, Hid.
Qed.

(** X9. If the client answers in Unicode text that the storage binding
    accepts once interpreted, and the stored trend rows are decodable to
    begin with, then after every sequence of requests and task runs
    [obtener_ultimas_tendencias], called with a limit that fits in 64 bits,
    returns a list, never an exception, with as many rows as a limit that is
    not negative allows. *)
Theorem trend_listing_never_fails es s limite :
  (forall c, Main.client (Main.reasoning_system s) = Some c ->
             answers_in_unicode c /\ storable_answers c) ->
  Forall readable (Main.tendencias (Main.db_manager s)) ->
  int64 limite = true ->
  exists l,
    Main.obtener_ultimas_tendencias (Main.db_manager (Main.run s es)) limite
    = Ok l
    /\ (0 <= limite ->
        List.length l
        = Nat.min (Z.to_nat limite)
            (List.length (Main.tendencias (Main.db_manager (Main.run s es))))).
Proof.
  intros Hu Hr _.
  pose proof (run_keeps_readable es s (fun c Hc => proj1 (Hu c Hc)) Hr) as H.
  unfold Main.obtener_ultimas_tendencias.
  set (rows := limit_offset limite 0 _).
  assert (Hrows : Forall readable rows).
  { apply Forall_forall. intros t Ht. subst rows.
    apply limit_offset_In in Ht.
    apply (Permutation_in _ (order_by_desc_perm _ _)) in Ht.
    exact (proj1 (Forall_forall _ _) H t Ht). }
  destruct (map_res_readable rows Hrows) as (l & Hl & Hlen & _).
  exists l. split; [exact Hl|]. intros H0. rewrite Hlen. subst rows.
  rewrite limit_offset_count by exact H0. rewrite order_by_desc_length.
  change (Z.to_nat 0) with 0%nat. lia.
Qed.

Lemma trend_listing_never_fails_witness :
  exists l,
    Main.obtener_ultimas_tendencias
      (Main.db_manager
         (Main.run
            (Main.mkService sample_db
                            (sample_system (answering_client sample_answer)) 0)
            [Main.GetAnalizarAhora; Main.RunTask (u "2024-05-01T10:00:06")]))
      5
    = Ok l
    /\ (0 <= 5 ->
        List.length l
        = Nat.min (Z.to_nat 5)
            (List.length
               (Main.tendencias
                  (Main.db_manager
                     (Main.run
                        (Main.mkService sample_db
                           (sample_system (answering_client sample_answer)) 0)
                        [Main.GetAnalizarAhora;
                         Main.RunTask (u "2024-05-01T10:00:06")]))))).
Proof.
  apply (trend_listing_never_fails
           [Main.GetAnalizarAhora; Main.RunTask (u "2024-05-01T10:00:06")]
           (Main.mkService sample_db
                           (sample_system (answering_client sample_answer)) 0)
           5).
  - intros c E. injection E as <-.
    split; intros m p g; [vm_compute; reflexivity|].
    change (answering_client sample_answer m p g) with (Ok (Some sample_answer)).
    cbv beta iota. intros r Hr. vm_compute in Hr. injection Hr as <-.
    split; reflexivity.
  - constructor.
  - reflexivity.
Defined.

Lemma interpret_response_shape t r :
  Main.interpret_response (Some t) = Ok r ->
  exists a p b d,
    r = [(k_tendencia, a); (k_probabilidad_fuga, p);
         (k_recomendacion, b); (k_detalles, d)].
Proof.
  rewrite interpret_response_cases. unfold fallback_analysis.
  destruct (Main.json_found t);
    [|intros E; injection E as <-; repeat eexists].
  destruct (json_loads (Main.json_candidate t)) as [[]|];
    try (intros E; injection E as <-; repeat eexists).
  destruct (py_float _); intros E; injection E as <-; repeat eexists.
Qed.

(** X10. From the answer of the model to the listing: when the analysis
    task gets a text of Unicode scalar values whose interpretation has
    textual trend and recommendation, and its clock reading is later than the
    stored trends, the task returns that interpretation with the period
    added, and the newest trend then listed carries the same trend,
    recommendation and details, the period and the clock reading. *)
Theorem analysis_reaches_the_listing rs c db now t r :
  Main.client rs = Some c ->
  (5 <= List.length (Main.flujo_registros db))%nat ->
  c (Main.model rs)
    (Main._create_prompt_for_flow_analysis (task_query db)
                                           Main.default_num_cycles)
    (config_of Main.default_temperature) = Ok (Some t) ->
  forallb scalar t = true ->
  Main.interpret_response (Some t) = Ok r ->
  is_text (dict_get r k_tendencia PNone) = true ->
  is_text (dict_get r k_recomendacion PNone) = true ->
  forallb (fun x => pystr_ltb (Main.ten_fecha x) now) (Main.tendencias db)
  = true ->
  let periodo :=
    periodo_registros (Nat.min 50 (List.length (Main.flujo_registros db))) in
  exists leida,
    fst (Main.analizar_datos_flujo rs db now)
    = Some (r ++ [(k_periodo, periodo)])
    /\ Main.obtener_ultimas_tendencias
         (snd (Main.analizar_datos_flujo rs db now)) 1 = Ok [leida]
    /\ Main.l_fecha leida = now
    /\ Main.l_periodo leida = periodo
    /\ Main.l_tendencia leida = dict_get r k_tendencia PNone
    /\ Main.l_recomendacion leida = dict_get r k_recomendacion PNone
    /\ Main.l_detalles leida = dict_get r k_detalles PNone.
Proof.
  intros Hc Hn Ht Hs Hr _ _ Hnew periodo.
  rewrite (analizar_con_cliente rs c db now Hc Hn).
  pose proof (generate_response_cases rs c (task_query db)
                Main.default_num_cycles Main.default_temperature Hc) as G.
  rewrite Ht, Hr in G. injection G as <-.
  destruct (interpreted_analysis_wf t r Hs Hr) as [_ Hw].
  destruct (interpret_response_shape t r Hr) as (a & p & b & d & ->).
  fold periodo. cbn [fst snd].
  change (dict_set _ k_periodo periodo)
    with ([(k_tendencia, a); (k_probabilidad_fuga, p);
           (k_recomendacion, b); (k_detalles, d)] ++ [(k_periodo, periodo)]).
  change (dict_get _ k_detalles (PDict [])) with d in Hw.
  unfold Main.obtener_ultimas_tendencias, Main.guardar_analisis_tendencia.
  cbn [snd Main.tendencias].
  rewrite (order_by_desc_newest Main.ten_fecha) by exact Hnew.
  change (limit_offset 1 0 (?x :: ?l)) with [x].
  cbn [Main.map_res Main.ten_detalles].
  change (dict_get _ k_detalles (PDict [])) with d.
  rewrite (leer_detalles_dumps d Hw). cbn [bind].
  eexists. split; [reflexivity|]. split; [reflexivity|].
  repeat split.
Qed.

Lemma analysis_reaches_the_listing_witness :
  exists leida,
    Main.obtener_ultimas_tendencias
      (snd (Main.analizar_datos_flujo
              (sample_system (answering_client sample_answer)) sample_db
              (u "2024-05-01T10:00:06"))) 1
    = Ok [leida]
    /\ Main.l_tendencia leida = PStr (u "estable")
    /\ Main.l_detalles leida = PDict [(u "anomalias", PList [])].
Proof.
  destruct (analysis_reaches_the_listing
              (sample_system (answering_client sample_answer))
              (answering_client sample_answer) sample_db
              (u "2024-05-01T10:00:06") sample_answer
              [(k_tendencia, PStr (u "estable"));
               (k_probabilidad_fuga, PFloat (FFin (mkDec false (u "125") 2)));
               (k_recomendacion, PStr (u "ok"));
               (k_detalles, PDict [(u "anomalias", PList [])])])
    as (leida & _ & H1 & _ & _ & H2 & _ & H3);
    try (vm_compute; reflexivity); try (vm_compute; lia).
  exists leida. repeat split; assumption.
Defined.

(** ** The reasoning system of logic.py *)

Lemma dict_mem_set_other k k' v : forall d,
  pystr_eqb k k' = false -> dict_mem (dict_set d k v) k' = dict_mem d k'.
Proof.
  intros d H. induction d as [|[k2 v2] d IH].
  - cbn [dict_set dict_mem]. now rewrite H.
  - cbn [dict_set]. destruct (pystr_eqb k2 k) eqn:E; cbn [dict_mem];
      [reflexivity | now rewrite IH].
Qed.

Lemma cycles_base_keys t :
  dict_mem (cycles_base t) Logic.k_razonamiento
  || dict_mem (cycles_base t) Logic.k_respuesta_final = true.
Proof.
  unfold cycles_base.
  destruct (Main.json_found t); [|reflexivity].
  destruct (json_loads _) as [[| | | | | |d]|]; try reflexivity.
  destruct (dict_mem d Logic.k_razonamiento || dict_mem d Logic.k_respuesta_final)
    eqn:E; [exact E | reflexivity].
Qed.

Lemma dict_mem_set_same k v : forall d, dict_mem (dict_set d k v) k = true.
Proof.
  induction d as [|[k2 v2] d IH].
  - cbn [dict_set dict_mem]. now rewrite pystr_eqb_refl.
  - cbn [dict_set]. destruct (pystr_eqb k2 k) eqn:E; cbn [dict_mem];
      rewrite E; [reflexivity | exact IH].
Qed.

(** What a call of logic.py that got the text [t] returns, by the outcome of
    the search for braces and of [json.loads] on the candidate: the only
    exceptions of the decoder that the inner handler takes are the ones
    [is_value_error] names, and any other one reaches the outer handler. *)
Lemma cycles_response_by_decoder self query n temp elapsed stamp t :
  Logic.client self (Logic.model self)
               (Logic._create_reasoning_prompt query n) (config_of temp)
  = Ok (Some t) ->
  let answered base :=
    (dict_set base k_metadatos (metadatos self n temp elapsed),
     Logic.mkReasoningSystem (Logic.client self) (Logic.model self)
       (Logic.history self
          ++ [Logic.mkEntry query
                (dict_set base k_metadatos (metadatos self n temp elapsed))
                stamp])) in
  Logic.generate_reasoned_response self query n temp elapsed stamp
  = if Main.json_found t then
      match json_loads (Main.json_candidate t) with
      | Ok _ => answered (cycles_base t)
      | Raise e =>
          if Logic.is_value_error e then answered (plain_text_response t)
          else (error_response (emsg e), self)
      end
    else answered (plain_text_response t).
Proof.
  intros Hc. cbv zeta. unfold cycles_base.
  unfold Logic.generate_reasoned_response. cbv zeta.
  fold (config_of temp). rewrite Hc. cbn [bind].
  unfold Logic.parse_cycles. cbv zeta.
  change ((0 <=? find c_lbrace (strip t))
          && (find c_lbrace (strip t) <? rfind c_rbrace (strip t) + 1))
    with (Main.json_found t).
  change (py_slice (strip t) (find c_lbrace (strip t))
                   (rfind c_rbrace (strip t) + 1))
    with (Main.json_candidate t).
  destruct (Main.json_found t) eqn:Hf; [|reflexivity].
  destruct (json_candidate_shape t Hf) as [l Hl]. rewrite Hl.
  destruct (json_loads (c_lbrace :: l ++ [c_rbrace])) as [v|e] eqn:E.
  - destruct (json_loads_brace_dict _ _ E) as [d ->]. cbn [bind].
    destruct (dict_mem d Logic.k_razonamiento),
      (dict_mem d Logic.k_respuesta_final); reflexivity.
  - cbn [bind]. destruct (Logic.is_value_error e); reflexivity.
Qed.

(** X11. Whenever the client of logic.py returns a text on whose candidate
    [json.loads] raises nothing but a [JSONDecodeError] or a [ValueError],
    [generate_reasoned_response] returns an object that holds the metadata
    of the call under "metadatos" and at least one of "razonamiento" and
    "respuesta_final", and appends exactly one entry with the query, that
    object and the clock reading to the history; client and model stay. *)
Theorem answered_generation_is_recorded self query n temp elapsed stamp t :
  Logic.client self (Logic.model self)
               (Logic._create_reasoning_prompt query n) (config_of temp)
  = Ok (Some t) ->
  (forall e, Main.json_found t = true ->
             json_loads (Main.json_candidate t) = Raise e ->
             Logic.is_value_error e = true) ->
  let r := fst (Logic.generate_reasoned_response self query n temp elapsed stamp) in
  let self' :=
    snd (Logic.generate_reasoned_response self query n temp elapsed stamp) in
  dict_get r k_metadatos PNone = metadatos self n temp elapsed
  /\ dict_mem r Logic.k_razonamiento || dict_mem r Logic.k_respuesta_final
     = true
  /\ Logic.history self'
     = Logic.history self ++ [Logic.mkEntry query r stamp]
  /\ Logic.client self' = Logic.client self
  /\ Logic.model self' = Logic.model self.
Proof.
  intros Hc Hv. cbv zeta.
  rewrite (cycles_response_by_decoder self query n temp elapsed stamp t Hc).
  cbv zeta.
  assert (A : forall base,
    dict_mem base Logic.k_razonamiento || dict_mem base Logic.k_respuesta_final
    = true ->
    let g :=
      (dict_set base k_metadatos (metadatos self n temp elapsed),
       Logic.mkReasoningSystem (Logic.client self) (Logic.model self)
         (Logic.history self
            ++ [Logic.mkEntry query
                  (dict_set base k_metadatos (metadatos self n temp elapsed))
                  stamp])) in
    dict_get (fst g) k_metadatos PNone = metadatos self n temp elapsed
    /\ dict_mem (fst g) Logic.k_razonamiento
       || dict_mem (fst g) Logic.k_respuesta_final = true
    /\ Logic.history (snd g)
       = Logic.history self ++ [Logic.mkEntry query (fst g) stamp]
    /\ Logic.client (snd g) = Logic.client self
    /\ Logic.model (snd g) = Logic.model self).
  { intros base Hb. cbv zeta.
    cbn [fst snd Logic.history Logic.client Logic.model].
    split; [apply dict_get_set_same|]. split; [|repeat split].
    rewrite !dict_mem_set_other by reflexivity. exact Hb. }
  destruct (Main.json_found t) eqn:Hf; [|now apply A].
  destruct (json_loads (Main.json_candidate t)) as [v|e] eqn:E.
  - apply A, cycles_base_keys.
  - rewrite (Hv e eq_refl eq_refl). now apply A.
Qed.

Lemma answered_generation_is_recorded_witness :
  dict_get
    (fst (Logic.generate_reasoned_response
            (sample_cycles_system (answering_client (uq "Hola {'a': }")))
            (u "consulta") 3 Main.default_temperature (5 # 4)
            (FFin (mkDec false (u "17") 2))))
    k_metadatos PNone
  = metadatos (sample_cycles_system (answering_client (uq "Hola {'a': }"))) 3
              Main.default_temperature (5 # 4).
Proof.
  apply (answered_generation_is_recorded
           (sample_cycles_system (answering_client (uq "Hola {'a': }")))
           (u "consulta") 3 Main.default_temperature (5 # 4)
           (FFin (mkDec false (u "17") 2)) (uq "Hola {'a': }") eq_refl).
  intros e _ He. vm_compute in He. injection He as <-. reflexivity.
Defined.

(** X12. In logic.py the error answer is returned, and the history left as
    it was, when the generation call raises, when its response has no text
    (then with the message of the [AttributeError]), and when [json.loads]
    raises on the candidate something that is neither a [JSONDecodeError]
    nor a [ValueError] (then with the message of that exception); in every
    other case the answer carries "metadatos", which the error answer
    lacks. *)
Theorem failed_cycles_generation self query n temp elapsed stamp :
  match Logic.client self (Logic.model self)
                     (Logic._create_reasoning_prompt query n) (config_of temp)
  with
  | Raise e =>
      Logic.generate_reasoned_response self query n temp elapsed stamp
      = (error_response (emsg e), self)
  | Ok None =>
      Logic.generate_reasoned_response self query n temp elapsed stamp
      = (error_response (u "'NoneType' object has no attribute 'strip'"), self)
  | Ok (Some t) =>
      let answered :=
        dict_mem (fst (Logic.generate_reasoned_response
                         self query n temp elapsed stamp)) k_metadatos = true in
      if Main.json_found t then
        match json_loads (Main.json_candidate t) with
        | Ok _ => answered
        | Raise e =>
            if Logic.is_value_error e then answered
            else Logic.generate_reasoned_response self query n temp elapsed stamp
                 = (error_response (emsg e), self)
        end
      else answered
  end
  /\ forall msg, dict_mem (error_response msg) k_metadatos = false.
Proof.
  split; [|reflexivity].
  destruct (Logic.client self _ _ _) as [[t|]|e] eqn:Hc.
  - cbv zeta.
    rewrite (cycles_response_by_decoder self query n temp elapsed stamp t Hc).
    cbv zeta.
    destruct (Main.json_found t); [|apply dict_mem_set_same].
    destruct (json_loads (Main.json_candidate t)) as [v|e];
      [apply dict_mem_set_same|].
    destruct (Logic.is_value_error e); [apply dict_mem_set_same | reflexivity].
  - unfold Logic.generate_reasoned_response. cbv zeta.
    fold (config_of temp). rewrite Hc. reflexivity.
  - unfold Logic.generate_reasoned_response. cbv zeta.
    fold (config_of temp). rewrite Hc. reflexivity.
Qed.

(** X13. A response of logic.py's client that holds no pair of braces, or
    on whose candidate [json.loads] raises a [JSONDecodeError] or a
    [ValueError], is wrapped as plain text: one reasoning cycle that says so,
    the original text as final answer, the marker "texto_plano", and the
    metadata. *)
Theorem plain_text_is_wrapped self query n temp elapsed stamp t :
  Logic.client self (Logic.model self)
               (Logic._create_reasoning_prompt query n) (config_of temp)
  = Ok (Some t) ->
  (Main.json_found t = false
   \/ exists e, json_loads (Main.json_candidate t) = Raise e
                /\ Logic.is_value_error e = true) ->
  fst (Logic.generate_reasoned_response self query n temp elapsed stamp)
  = plain_text_response t ++ [(k_metadatos, metadatos self n temp elapsed)].
Proof.
  intros Hc Hp.
  rewrite (cycles_response_by_decoder self query n temp elapsed stamp t Hc).
  cbv zeta.
  destruct Hp as [-> | (e & -> & ->)]; [reflexivity|].
  destruct (Main.json_found t); reflexivity.
Qed.

Lemma plain_text_is_wrapped_witness :
  fst (Logic.generate_reasoned_response
         (sample_cycles_system (answering_client (uq "Hola {'a': }")))
         (u "consulta") 3 Main.default_temperature (5 # 4)
         (FFin (mkDec false (u "17") 2)))
  = plain_text_response (uq "Hola {'a': }")
      ++ [(k_metadatos,
           metadatos (sample_cycles_system (answering_client (uq "Hola {'a': }")))
                     3 Main.default_temperature (5 # 4))].
Proof.
  apply (plain_text_is_wrapped
           (sample_cycles_system (answering_client (uq "Hola {'a': }")))
           (u "consulta") 3 Main.default_temperature (5 # 4)
           (FFin (mkDec false (u "17") 2)) (uq "Hola {'a': }") eq_refl).
  right. eexists. split; vm_compute; reflexivity.
Defined.

(** X14. A candidate that [json.loads] accepts is an object. If it has one
    of the two expected keys it is returned with the metadata set and every
    other key as decoded; if it has neither, the answer is one reasoning
    cycle and the whole original text as final answer, plus the metadata. *)
Theorem decoded_object_is_kept self query n temp elapsed stamp t v :
  Logic.client self (Logic.model self)
               (Logic._create_reasoning_prompt query n) (config_of temp)
  = Ok (Some t) ->
  Main.json_found t = true ->
  json_loads (Main.json_candidate t) = Ok v ->
  exists d,
    v = PDict d
    /\ let r := fst (Logic.generate_reasoned_response
                       self query n temp elapsed stamp) in
       if dict_mem d Logic.k_razonamiento || dict_mem d Logic.k_respuesta_final
       then
         r = dict_set d k_metadatos (metadatos self n temp elapsed)
         /\ forall k x, pystr_eqb k_metadatos k = false ->
                        dict_get r k x = dict_get d k x
       else
         r = unstructured_response t
               ++ [(k_metadatos, metadatos self n temp elapsed)].
Proof.
  intros Hc Hf Hv.
  rewrite (cycles_response_by_decoder self query n temp elapsed stamp t Hc).
  cbv zeta. rewrite Hf, Hv.
  cbn [fst]. unfold cycles_base. rewrite Hf, Hv.
  destruct (json_candidate_shape t Hf) as [l Hl]. rewrite Hl in Hv.
  destruct (json_loads_brace_dict _ _ Hv) as [d ->].
  exists d. split; [reflexivity|]. cbv zeta.
  destruct (dict_mem d Logic.k_razonamiento || dict_mem d Logic.k_respuesta_final).
  - split; [reflexivity|]. intros k x Hk. now apply dict_get_set_other.
  - reflexivity.
Qed.

Lemma decoded_object_is_kept_witness :
  exists d,
    PDict [(u "respuesta_final", PStr (u "ok")); (u "nota", PInt 1)] = PDict d
    /\ let r :=
         fst (Logic.generate_reasoned_response
                (sample_cycles_system
                   (answering_client
                      (uq "{'respuesta_final': 'ok', 'nota': 1}")))
                (u "consulta") 3 Main.default_temperature (5 # 4)
                (FFin (mkDec false (u "17") 2))) in
       if dict_mem d Logic.k_razonamiento || dict_mem d Logic.k_respuesta_final
       then
         r = dict_set d k_metadatos
               (metadatos
                  (sample_cycles_system
                     (answering_client
                        (uq "{'respuesta_final': 'ok', 'nota': 1}")))
                  3 Main.default_temperature (5 # 4))
         /\ forall k x, pystr_eqb k_metadatos k = false ->
                        dict_get r k x = dict_get d k x
       else
         r = unstructured_response (uq "{'respuesta_final': 'ok', 'nota': 1}")
               ++ [(k_metadatos,
                    metadatos
                      (sample_cycles_system
                         (answering_client
                            (uq "{'respuesta_final': 'ok', 'nota': 1}")))
                      3 Main.default_temperature (5 # 4))].
Proof.
  apply (decoded_object_is_kept
           (sample_cycles_system
              (answering_client (uq "{'respuesta_final': 'ok', 'nota': 1}")))
           (u "consulta") 3 Main.default_temperature (5 # 4)
           (FFin (mkDec false (u "17") 2))
           (uq "{'respuesta_final': 'ok', 'nota': 1}")
           (PDict [(u "respuesta_final", PStr (u "ok")); (u "nota", PInt 1)])
           eq_refl);
    vm_compute; reflexivity.
Defined.

Lemma stream_chunks_of cs : forall tail,
  Logic.stream_chunks (stream_of cs tail)
  = (flat_map chunk_fragment cs ++ fst (Logic.stream_chunks tail),
     snd (Logic.stream_chunks tail)).
Proof.
  induction cs as [|c cs IH]; intros tail.
  - cbn [stream_of fold_right flat_map app].
    now destruct (Logic.stream_chunks tail).
  - cbn [stream_of fold_right Logic.stream_chunks flat_map].
    fold (stream_of cs tail). rewrite IH.
    destruct c as [|[[|x t]|]]; reflexivity.
Qed.

(** X15. [stream_final_response] never yields an empty fragment and never
    raises: a stream that ends yields the non-empty texts of its chunks in
    order; a stream that breaks yields those received so far and then the
    error message; a call that raises yields the error message alone. *)
Theorem stream_fragments self gcs query n temp :
  (forall f, In f (Logic.stream_final_response self gcs query n temp) ->
             f <> [])
  /\ (forall cs,
        gcs (Logic.model self) (Logic.direct_prompt query n)
            (mkConfig temp (FFin (mkDec false (u "95") 0)) 40 2048)
        = Ok (stream_of cs Logic.SEnd) ->
        Logic.stream_final_response self gcs query n temp
        = flat_map chunk_fragment cs)
  /\ (forall cs e,
        gcs (Logic.model self) (Logic.direct_prompt query n)
            (mkConfig temp (FFin (mkDec false (u "95") 0)) 40 2048)
        = Ok (stream_of cs (Logic.SRaise e)) ->
        Logic.stream_final_response self gcs query n temp
        = flat_map chunk_fragment cs ++ [u "Error en streaming: " ++ emsg e])
  /\ (forall e,
        gcs (Logic.model self) (Logic.direct_prompt query n)
            (mkConfig temp (FFin (mkDec false (u "95") 0)) 40 2048)
        = Raise e ->
        Logic.stream_final_response self gcs query n temp
        = [u "Error en streaming: " ++ emsg e]).
Proof.
  assert (Hfrag : forall st f, In f (fst (Logic.stream_chunks st)) -> f <> []).
  { induction st as [|c rest IH|e]; cbn [Logic.stream_chunks fst];
      [intros f [] | | intros f []].
    destruct (Logic.stream_chunks rest) as [out err]. cbn [fst] in IH.
    destruct c as [|[[|x t]|]]; cbn [fst]; try exact IH.
    intros f [<-|H]; [discriminate | now apply IH]. }
  unfold Logic.stream_final_response. cbv zeta.
  split; [|split; [|split]].
  - intros f. destruct (gcs _ _ _) as [st|e].
    + pose proof (Hfrag st) as H.
      destruct (Logic.stream_chunks st) as [out [e|]]; cbn [fst] in H.
      * intros Hin. apply in_app_or in Hin as [Hin|[<-|[]]];
          [now apply H | discriminate].
      * apply H.
    + intros [<-|[]]. discriminate.
  - intros cs ->. rewrite stream_chunks_of. cbn [Logic.stream_chunks fst snd].
    now rewrite app_nil_r.
  - intros cs e ->. rewrite stream_chunks_of.
    cbn [Logic.stream_chunks fst snd]. now rewrite app_nil_r.
  - intros e ->. reflexivity.
Qed.

Lemma stream_fragments_witness :
  Logic.stream_final_response
    (sample_cycles_system failing_client)
    (fun _ _ _ =>
       Ok (stream_of [Logic.Text (Some (u "Ho")); Logic.NoText;
                      Logic.Text (Some []); Logic.Text None;
                      Logic.Text (Some (u "la"))]
                     (Logic.SRaise (mkExn ServiceError (u "cortado")))))
    (u "consulta") 2 Main.default_temperature
  = flat_map chunk_fragment
      [Logic.Text (Some (u "Ho")); Logic.NoText; Logic.Text (Some []);
       Logic.Text None; Logic.Text (Some (u "la"))]
    ++ [u "Error en streaming: " ++ emsg (mkExn ServiceError (u "cortado"))].
Proof.
  apply (proj1 (proj2 (proj2 (stream_fragments
                  (sample_cycles_system failing_client)
                  (fun _ _ _ =>
                     Ok (stream_of [Logic.Text (Some (u "Ho")); Logic.NoText;
                                    Logic.Text (Some []); Logic.Text None;
                                    Logic.Text (Some (u "la"))]
                                   (Logic.SRaise
                                      (mkExn ServiceError (u "cortado")))))
                  (u "consulta") 2 Main.default_temperature)))).
  reflexivity.
Defined.

(** ** The service variant: manual analysis and listing *)

Lemma variant_window db :
  List.length (Logic.obtener_historial db 48 0)
  = Nat.min 48 (List.length (Logic.flujo_registros db)).
Proof.
  unfold Logic.obtener_historial.
  rewrite limit_offset_count by lia. rewrite order_by_desc_length.
  change (Z.to_nat 48) with 48%nat. change (Z.to_nat 0) with 0%nat. lia.
Qed.

(** X16. [GET /analizar-ahora] of the variant reads the newest records, at
    most 48 of them, newest first; with at least ten records stored it adds
    one task with exactly those records and answers that the analysis
    started; otherwise it changes nothing and answers with the number of
    records available. *)
Theorem variant_manual_analysis s :
  let n := List.length (Logic.flujo_registros (Logic.db_manager s)) in
  let ultimos := Logic.obtener_historial (Logic.db_manager s) 48 0 in
  List.length ultimos = Nat.min 48 n
  /\ StronglySorted (not_older Logic.reg_timestamp) ultimos
  /\ (if (10 <=? n)%nat then
        Logic.analizar_ahora s
        = Logic.mkService (Logic.db_manager s) (Logic.reasoning_system s)
                          (Logic.background s ++ [ultimos])
        /\ Logic.respuesta_analizar_ahora s
           = [(u "mensaje", PStr (u "Análisis iniciado en segundo plano"))]
      else
        Logic.analizar_ahora s = s
        /\ Logic.respuesta_analizar_ahora s
           = [(u "mensaje", PStr (u "No hay suficientes datos para analizar"));
              (u "registros_disponibles", PInt (Z.of_nat n))]).
Proof.
  cbv zeta. split; [apply variant_window|].
  split; [apply limit_offset_sorted, order_by_desc_sorted|].
  unfold Logic.analizar_ahora, Logic.respuesta_analizar_ahora. cbv zeta.
  rewrite variant_window.
  destruct (Nat.leb_spec 10 (List.length (Logic.flujo_registros (Logic.db_manager s))))
    as [H|H].
  - destruct (Nat.leb_spec 10 (Nat.min 48 (List.length (Logic.flujo_registros (Logic.db_manager s)))));
      [split; reflexivity | lia].
  - destruct (Nat.leb_spec 10 (Nat.min 48 (List.length (Logic.flujo_registros (Logic.db_manager s)))));
      [lia|].
    split; [reflexivity|]. rewrite Nat.min_r by lia. reflexivity.
Qed.

Lemma variant_run_trends es : forall s,
  Logic.tendencias_analisis (Logic.db_manager (Logic.run s es))
  = Logic.tendencias_analisis (Logic.db_manager s).
Proof.
  induction es as [|e es IH]; intros s; [reflexivity|].
  change (Logic.run s (e :: es)) with (Logic.run (Logic.step s e) es).
  rewrite IH. destruct e as [now flujo| |clk]; cbn [Logic.step].
  - apply variant_post_never_schedules.
  - unfold Logic.analizar_ahora.
    destruct (10 <=? _)%nat; reflexivity.
  - destruct (Logic.background s) as [|task rest]; [reflexivity|].
    destruct (variant_task_returns_none (Logic.reasoning_system s)
                (Logic.db_manager s) clk task) as [rs' ->].
    reflexivity.
Qed.

(** X17. In the variant the answer of [GET /tendencias] never changes: after
    every sequence of requests and task runs [obtener_ultimas_tendencias],
    called with a limit that fits in 64 bits, returns what it returned
    before, the empty list on a table that started empty. *)
Theorem variant_listing_is_frozen es s limite :
  int64 limite = true ->
  Logic.obtener_ultimas_tendencias (Logic.db_manager (Logic.run s es)) limite
  = Logic.obtener_ultimas_tendencias (Logic.db_manager s) limite
  /\ (Logic.tendencias_analisis (Logic.db_manager s) = [] ->
      Logic.obtener_ultimas_tendencias (Logic.db_manager (Logic.run s es))
                                       limite = Ok []).
Proof.
  intros _.
  unfold Logic.obtener_ultimas_tendencias. rewrite variant_run_trends.
  split; [reflexivity|]. intros ->.
  unfold limit_offset, order_by_desc. cbn [fold_right].
  rewrite skipn_nil. destruct (limite <? 0); [reflexivity|].
  now rewrite firstn_nil.
Qed.

Lemma variant_listing_is_frozen_witness :
  Logic.obtener_ultimas_tendencias
    (Logic.db_manager
       (Logic.run
          (Logic.mkService (Logic.mkDB [] [])
                           (sample_cycles_system failing_client) [])
          [Logic.PostFlujo (u "2024-05-01T10:00:00") (mkDec false (u "5") 1);
           Logic.GetAnalizarAhora]))
    5
  = Ok [].
Proof.
  apply (proj2 (variant_listing_is_frozen
                  [Logic.PostFlujo (u "2024-05-01T10:00:00")
                                   (mkDec false (u "5") 1);
                   Logic.GetAnalizarAhora]
                  (Logic.mkService (Logic.mkDB [] [])
                                   (sample_cycles_system failing_client) [])
                  5 eq_refl)).
  reflexivity.
Defined.

(** ** The statistics *)

Lemma key_eqb_eq a b : key_eqb a b = true <-> a = b.
Proof.
  destruct a as [x|], b as [y|]; cbn [key_eqb]; try (split; congruence).
  rewrite pystr_eqb_eq. split; congruence.
Qed.

Lemma key_eqb_refl a : key_eqb a a = true.
Proof. now apply key_eqb_eq. Qed.

Lemma key_ltb_trans a b c :
  key_ltb a b = true -> key_ltb b c = true -> key_ltb a c = true.
Proof.
  destruct a as [x|], b as [y|], c as [z|]; cbn [key_ltb]; try congruence.
  apply pystr_ltb_trans.
Qed.

Lemma key_ltb_total a b :
  key_eqb a b = false -> key_ltb b a = false -> key_ltb a b = true.
Proof.
  destruct a as [x|], b as [y|]; cbn [key_eqb key_ltb]; try congruence.
  intros E L. destruct (pystr_ltb x y) eqn:F; [reflexivity|].
  rewrite (pystr_ltb_total x y F L), pystr_eqb_refl in E. discriminate.
Qed.

Lemma key_ltb_irrefl a : key_ltb a a = false.
Proof. destruct a; cbn [key_ltb]; [apply pystr_ltb_irrefl | reflexivity]. Qed.

Lemma group_insert_keys k x gs g :
  In g (group_insert k x gs) ->
  fst g = k \/ exists g', In g' gs /\ fst g' = fst g.
Proof.
  induction gs as [|[k' xs] gs IH]; cbn [group_insert].
  - intros [<-|[]]. left. reflexivity.
  - destruct (key_eqb k' k) eqn:E.
    + intros [<-|H]; right.
      * exists (k', xs). split; [now left | reflexivity].
      * exists g. split; [now right | reflexivity].
    + destruct (key_ltb k k').
      * intros [<-|H]; [left; reflexivity|]. right. eauto.
      * intros [<-|H].
        -- right. eexists. split; [now left | reflexivity].
        -- destruct (IH H) as [?|(g' & Hg & Hk)]; [now left|].
           right. exists g'. split; [now right | exact Hk].
Qed.

Lemma group_insert_sorted k x gs :
  keys_ascending gs -> keys_ascending (group_insert k x gs).
Proof.
  unfold keys_ascending.
  induction 1 as [|[k' xs] gs Hs IH Hk]; cbn [group_insert].
  - repeat constructor.
  - destruct (key_eqb k' k) eqn:E; [now constructor|].
    destruct (key_ltb k k') eqn:L.
    + constructor; [now constructor|].
      constructor; [exact L|].
      apply Forall_forall. intros g Hg.
      apply (key_ltb_trans _ k'); [exact L|].
      exact (proj1 (Forall_forall _ _) Hk g Hg).
    + constructor; [exact IH|].
      apply Forall_forall. intros g Hg. cbn [fst].
      destruct (group_insert_keys k x gs g Hg) as [->|(g' & Hg' & <-)].
      * now apply key_ltb_total.
      * exact (proj1 (Forall_forall _ _) Hk g' Hg').
Qed.

Lemma group_values_below k gs :
  Forall (fun g => key_ltb k (fst g) = true) gs -> group_values gs k = [].
Proof.
  induction 1 as [|[k' xs] gs Hg _ IH]; [reflexivity|].
  cbn [group_values fst] in *. destruct (key_eqb k' k) eqn:E; [|exact IH].
  apply key_eqb_eq in E. subst k'. now rewrite key_ltb_irrefl in Hg.
Qed.

Lemma group_values_insert k x q gs :
  keys_ascending gs ->
  group_values (group_insert k x gs) q
  = if key_eqb k q then group_values gs q ++ [x] else group_values gs q.
Proof.
  unfold keys_ascending.
  induction 1 as [|[k' xs] gs Hs IH Hk]; cbn [group_insert group_values].
  - destruct (key_eqb k q); reflexivity.
  - destruct (key_eqb k' k) eqn:E.
    + apply key_eqb_eq in E. subst k'. cbn [group_values].
      destruct (key_eqb k q); reflexivity.
    + destruct (key_ltb k k') eqn:L; cbn [group_values].
      * destruct (key_eqb k q) eqn:F; [|reflexivity].
        apply key_eqb_eq in F. subst q. rewrite E.
        rewrite group_values_below; [reflexivity|].
        apply Forall_forall. intros g Hg.
        apply (key_ltb_trans _ k'); [exact L|].
        exact (proj1 (Forall_forall _ _) Hk g Hg).
      * rewrite IH. destruct (key_eqb k' q) eqn:F; [|reflexivity].
        apply key_eqb_eq in F. subst q.
        destruct (key_eqb k k') eqn:G; [|reflexivity].
        apply key_eqb_eq in G. subst k'. now rewrite key_eqb_refl in E.
Qed.

Section GroupBy.

Context {A : Type} (key : A -> option pystr) (val : A -> dec).

Lemma group_by_snoc rows r :
  group_by key val (rows ++ [r])
  = group_insert (key r) (val r) (group_by key val rows).
Proof. unfold group_by. now rewrite fold_left_app. Qed.

Lemma group_by_sorted rows : keys_ascending (group_by key val rows).
Proof.
  induction rows as [|r rows IH] using rev_ind; [constructor|].
  rewrite group_by_snoc. now apply group_insert_sorted.
Qed.

Lemma group_by_values q rows :
  group_values (group_by key val rows) q
  = map val (filter (fun r => key_eqb (key r) q) rows).
Proof.
  induction rows as [|r rows IH] using rev_ind; [reflexivity|].
  rewrite group_by_snoc, group_values_insert by apply group_by_sorted.
  rewrite IH, filter_app, map_app.
  cbn [filter]. destruct (key_eqb (key r) q); cbn [map];
    [reflexivity | now rewrite app_nil_r].
Qed.

Lemma group_insert_nonempty k x gs :
  Forall (fun g => snd g <> []) gs ->
  Forall (fun g => snd g <> []) (group_insert k x gs).
Proof.
  induction 1 as [|[k' xs] gs Hg Hgs IH]; cbn [group_insert].
  - constructor; [discriminate | constructor].
  - destruct (key_eqb k' k).
    + constructor; [|exact Hgs]. cbn [snd]. now destruct xs.
    + destruct (key_ltb k k').
      * constructor; [discriminate|]. now constructor.
      * now constructor.
Qed.

Lemma group_by_nonempty rows :
  Forall (fun g => snd g <> []) (group_by key val rows).
Proof.
  induction rows as [|r rows IH] using rev_ind; [constructor|].
  rewrite group_by_snoc. now apply group_insert_nonempty.
Qed.

Lemma group_insert_total k x gs :
  fold_right (fun g n => (List.length (snd g) + n)%nat) 0%nat
             (group_insert k x gs)
  = S (fold_right (fun g n => (List.length (snd g) + n)%nat) 0%nat gs).
Proof.
  induction gs as [|[k' xs] gs IH]; cbn [group_insert]; [reflexivity|].
  destruct (key_eqb k' k).
  - cbn [fold_right snd]. rewrite length_app. cbn [List.length]. lia.
  - destruct (key_ltb k k'); cbn [fold_right snd List.length] in *; lia.
Qed.

Lemma group_by_total rows :
  fold_right (fun g n => (List.length (snd g) + n)%nat) 0%nat
             (group_by key val rows)
  = List.length rows.
Proof.
  induction rows as [|r rows IH] using rev_ind; [reflexivity|].
  rewrite group_by_snoc, group_insert_total, IH, length_app.
  cbn [List.length]. lia.
Qed.

End GroupBy.

Lemma group_values_own gs : keys_ascending gs ->
  forall g, In g gs -> group_values gs (fst g) = snd g.
Proof.
  unfold keys_ascending.
  induction 1 as [|[k xs] gs Hs IH Hk]; intros g Hg; [destruct Hg|].
  cbn [group_values]. destruct Hg as [<-|Hg].
  - cbn [fst snd]. now rewrite key_eqb_refl.
  - destruct (key_eqb k (fst g)) eqn:E; [|now apply IH].
    apply key_eqb_eq in E.
    pose proof (proj1 (Forall_forall _ _) Hk g Hg) as L. cbn [fst] in L.
    rewrite E, key_ltb_irrefl in L. discriminate.
Qed.

Lemma filter_none {A} (f : A -> bool) l :
  forallb (fun x => negb (f x)) l = true -> filter f l = [].
Proof.
  induction l as [|x l IH]; [reflexivity|]. cbn [forallb filter].
  intros H. apply andb_prop in H as [H1 H2].
  apply negb_true_iff in H1. rewrite H1. auto.
Qed.

(** X18. When no reading is later than the start of the window,
    [obtener_estadisticas] of main.py returns zero for average, maximum,
    minimum and efficiency and no hourly data, while [total_registros] still
    counts every stored reading; and the call, a read request, appends a row
    of zeros to the table of statistics. *)
Theorem statistics_of_empty_window strftime_H db table yesterday ts :
  forallb (fun r => negb (pystr_ltb yesterday (Main.reg_timestamp r)))
          (Main.flujo_registros db) = true ->
  let st := fst (Main.obtener_estadisticas strftime_H db table yesterday ts) in
  (Main.e_flujo_promedio st == 0)%Q
  /\ (Main.e_flujo_maximo st == 0)%Q
  /\ (Main.e_flujo_minimo st == 0)%Q
  /\ (Main.e_eficiencia st == 0)%Q
  /\ Main.e_datos_por_hora st = []
  /\ Main.e_total_registros st
     = Z.of_nat (List.length (Main.flujo_registros db))
  /\ snd (Main.obtener_estadisticas strftime_H db table yesterday ts)
     = table ++ [Main.mkEstadistica (Main.next_rowid Main.est_id table) ts
                                    0 0 0 0].
Proof.
  intros H. unfold Main.obtener_estadisticas. cbv zeta.
  rewrite (filter_none _ _ H). cbn [fst snd map sql_avg sql_max sql_min or_zero].
  repeat split.
Qed.

Lemma statistics_of_empty_window_witness :
  Main.e_datos_por_hora
    (fst (Main.obtener_estadisticas (fun ts => Some (py_slice ts 11 13))
            sample_db [] (u "2024-05-02T09:00:00") (u "2024-05-03T09:00:00")))
  = []
  /\ Main.e_total_registros
       (fst (Main.obtener_estadisticas (fun ts => Some (py_slice ts 11 13))
               sample_db [] (u "2024-05-02T09:00:00")
               (u "2024-05-03T09:00:00")))
     = 5.
Proof.
  destruct (statistics_of_empty_window (fun ts => Some (py_slice ts 11 13))
              sample_db [] (u "2024-05-02T09:00:00") (u "2024-05-03T09:00:00"))
    as (_ & _ & _ & _ & H1 & H2 & _); [vm_compute; reflexivity|].
  split; [exact H1 | exact H2].
Defined.

Lemma StronglySorted_map {A B} (f : A -> B) (R : B -> B -> Prop) l :
  StronglySorted (fun a b => R (f a) (f b)) l -> StronglySorted R (map f l).
Proof.
  induction 1 as [|x l Hs IH Hx]; [constructor|]. cbn [map].
  constructor; [exact IH|]. apply Forall_forall. intros y Hy.
  apply in_map_iff in Hy as (z & <- & Hz).
  exact (proj1 (Forall_forall _ _) Hx z Hz).
Qed.

Lemma group_values_found gs q :
  group_values gs q <> [] -> exists g, In g gs /\ fst g = q.
Proof.
  induction gs as [|[k xs] gs IH]; cbn [group_values]; [congruence|].
  destruct (key_eqb k q) eqn:E.
  - intros _. exists (k, xs). split; [now left | now apply key_eqb_eq].
  - intros H. destruct (IH H) as (g & Hg & Hk). exists g.
    split; [now right | exact Hk].
Qed.

(** X19. The hourly data of [obtener_estadisticas] of main.py partition the
    window: the hours are listed in strictly increasing order (NULL first),
    each with the number of readings of the window that fall in it, which is
    at least one; every reading of the window falls in a listed hour; and the
    counts add up to the size of the window. *)
Theorem hourly_data_partition strftime_H db table yesterday ts :
  let datos :=
    Main.e_datos_por_hora
      (fst (Main.obtener_estadisticas strftime_H db table yesterday ts)) in
  let hora r := strftime_H (Main.reg_timestamp r) in
  StronglySorted
    (fun a b => key_ltb (Main.dh_hora a) (Main.dh_hora b) = true) datos
  /\ (forall d, In d datos ->
        1 <= Main.dh_total_registros d
        /\ Main.dh_total_registros d
           = Z.of_nat (rows_of_key hora (Main.dh_hora d)
                                   (recientes db yesterday)))
  /\ (forall r, In r (recientes db yesterday) ->
        exists d, In d datos /\ Main.dh_hora d = hora r)
  /\ fold_right (fun d n => Main.dh_total_registros d + n) 0 datos
     = Z.of_nat (List.length (recientes db yesterday)).
Proof.
  cbv zeta. unfold Main.obtener_estadisticas. cbv zeta.
  cbn [fst Main.e_datos_por_hora]. fold (recientes db yesterday).
  set (hora := fun r => strftime_H (Main.reg_timestamp r)).
  set (gs := group_by hora Main.reg_flujo (recientes db yesterday)).
  pose proof (group_by_sorted hora Main.reg_flujo (recientes db yesterday))
    as Hs.
  pose proof (group_by_nonempty hora Main.reg_flujo (recientes db yesterday))
    as Hne.
  pose proof (group_by_total hora Main.reg_flujo (recientes db yesterday))
    as Ht.
  fold gs in Hs, Hne, Ht.
  split; [|split; [|split]].
  - apply StronglySorted_map.
    cbn [Main.dh_hora]. exact Hs.
  - intros d Hd. apply in_map_iff in Hd as (g & <- & Hg).
    cbn [Main.dh_total_registros Main.dh_hora].
    pose proof (proj1 (Forall_forall _ _) Hne g Hg) as Hn.
    pose proof (group_values_own gs Hs g Hg) as Hv.
    unfold gs in Hv at 1. rewrite group_by_values in Hv.
    split.
    + destruct (snd g) eqn:Es; [congruence | cbn [List.length]; lia].
    + unfold rows_of_key. rewrite <- Hv. now rewrite length_map.
  - intros r Hr.
    destruct (group_values_found gs (hora r)) as (g & Hg & Hk).
    + unfold gs. rewrite group_by_values.
      destruct (filter _ _) eqn:E; [|discriminate]. exfalso.
      assert (Hin : In r (filter (fun r0 => key_eqb (hora r0) (hora r))
                                 (recientes db yesterday)))
        by (apply filter_In; split; [exact Hr | apply key_eqb_refl]).
      rewrite E in Hin. destruct Hin.
    + eexists. split; [apply in_map; exact Hg | exact Hk].
  - rewrite <- Ht. clear. induction gs as [|g gs IH]; [reflexivity|].
    cbn [map fold_right Main.dh_total_registros]. rewrite IH. lia.
Qed.

Lemma hourly_data_partition_witness :
  exists d,
    In d (Main.e_datos_por_hora
            (fst (Main.obtener_estadisticas
                    (fun ts => Some (py_slice ts 11 13)) sample_db []
                    (u "2024-04-30T10:00:00") (u "2024-05-01T10:00:05"))))
    /\ Main.dh_hora d = Some (u "10").
Proof.
  apply (proj1 (proj2 (proj2 (hourly_data_partition
                  (fun ts => Some (py_slice ts 11 13)) sample_db []
                  (u "2024-04-30T10:00:00") (u "2024-05-01T10:00:05"))))
           (Main.mkRegistro 1 (mkDec false (u "125") 2)
                            (u "2024-05-01T10:00:00") None)).
  vm_compute. left. reflexivity.
Defined.

Lemma ltb_date_prefix a : forall f b h,
  List.length a = List.length f ->
  pystr_ltb (a ++ 84%N :: b) (f ++ 32%N :: h) = pystr_ltb a f.
Proof.
  induction a as [|x a IH]; intros [|y f] b h Hl; try discriminate.
  - reflexivity.
  - cbn [app pystr_ltb]. injection Hl as Hl. now rewrite IH.
Qed.

(** X20. The window of [obtener_estadisticas] of the variant is decided by
    the date of the cutoff alone: timestamps are written with the letter T
    after the date and the cutoff of the storage engine with a blank, so for
    readings stamped that way the time of day of the cutoff has no influence
    on the result. *)
Theorem variant_window_is_by_date strftime_hora db fecha h1 h2 h3 h1' h2' h3' :
  Forall (fun r => dated fecha (Logic.reg_timestamp r))
         (Logic.flujo_registros db) ->
  Logic.obtener_estadisticas strftime_hora db
    (fecha ++ 32%N :: h1) (fecha ++ 32%N :: h2) (fecha ++ 32%N :: h3)
  = Logic.obtener_estadisticas strftime_hora db
      (fecha ++ 32%N :: h1') (fecha ++ 32%N :: h2') (fecha ++ 32%N :: h3').
Proof.
  intros H.
  assert (W : forall h h',
             filter (fun r => negb (pystr_ltb (Logic.reg_timestamp r)
                                              (fecha ++ 32%N :: h)))
                    (Logic.flujo_registros db)
             = filter (fun r => negb (pystr_ltb (Logic.reg_timestamp r)
                                                (fecha ++ 32%N :: h')))
                      (Logic.flujo_registros db)).
  { intros h h'. induction H as [|r l (a & b & E & Hl) _ IH]; [reflexivity|].
    cbn [filter]. rewrite IH, E, !ltb_date_prefix by exact Hl. reflexivity. }
  unfold Logic.obtener_estadisticas. cbv zeta.
  now rewrite (W h1 h1'), (W h2 h2'), (W h3 h3').
Qed.

Lemma variant_window_is_by_date_witness :
  Logic.obtener_estadisticas (fun ts => Some (py_slice ts 0 13))
    (Logic.mkDB
       [Logic.mkRegistro 1 (mkDec false (u "5") 1) (u "2024-05-01T08:00:00")
                         None;
        Logic.mkRegistro 2 (mkDec false (u "7") 1) (u "2024-04-30T23:00:00")
                         None] [])
    (u "2024-05-01" ++ 32%N :: u "09:30:00")
    (u "2024-05-01" ++ 32%N :: u "09:30:00")
    (u "2024-05-01" ++ 32%N :: u "09:30:01")
  = Logic.obtener_estadisticas (fun ts => Some (py_slice ts 0 13))
      (Logic.mkDB
         [Logic.mkRegistro 1 (mkDec false (u "5") 1) (u "2024-05-01T08:00:00")
                           None;
          Logic.mkRegistro 2 (mkDec false (u "7") 1) (u "2024-04-30T23:00:00")
                           None] [])
      (u "2024-05-01" ++ 32%N :: u "00:00:00")
      (u "2024-05-01" ++ 32%N :: u "00:00:00")
      (u "2024-05-01" ++ 32%N :: u "00:00:00").
Proof.
  apply (variant_window_is_by_date (fun ts => Some (py_slice ts 0 13))
           (Logic.mkDB
              [Logic.mkRegistro 1 (mkDec false (u "5") 1)
                                (u "2024-05-01T08:00:00") None;
               Logic.mkRegistro 2 (mkDec false (u "7") 1)
                                (u "2024-04-30T23:00:00") None] [])
           (u "2024-05-01")).
  repeat constructor.
  - exists (u "2024-05-01"), (u "08:00:00"). split; reflexivity.
  - exists (u "2024-04-30"), (u "23:00:00"). split; reflexivity.
Defined.

(** ** A closing brace after the object *)

Lemma scan_once_object d n rest :
  wf_pyval (PDict d) = true ->
  (List.length (json_dumps (PDict d)) <= n)%nat ->
  scan_once n (json_dumps (PDict d) ++ rest) = Ok (PDict d, rest).
Proof.
  intros Hwf Hn.
  assert (HP : Forall (fun kv => roundtrips (snd kv)) d)
    by (apply Forall_forall; intros kv _; apply scan_once_roundtrip).
  destruct n as [|n]; [pose proof (json_dumps_nonempty (PDict d)); lia|].
  cbn [wf_pyval] in Hwf. apply andb_prop in Hwf as [Hnd Hwf].
  cbn [json_dumps] in *. fold member in *.
  change (map (fun kv => encode_basestring_ascii (fst kv) ++ u ": "
                           ++ json_dumps (snd kv)) d)
    with (map member d) in *.
  cbn [List.length] in Hn. rewrite length_app in Hn. cbn [List.length] in Hn.
  cbn [app scan_once].
  change (c_lbrace =? c_quote)%N with false.
  change (c_lbrace =? c_lbrace)%N with true. cbv iota.
  rewrite <- app_assoc. cbn [app].
  destruct d as [|[k v] d].
  - cbn [map join app]. rewrite skip_ws_head by reflexivity.
    change (c_rbrace =? c_rbrace)%N with true. reflexivity.
  - assert (Ej : join (u ", ") (map member ((k, v) :: d))
                 = c_quote :: flat_map escape_char k
                     ++ c_quote :: c_colon :: 32%N :: json_dumps v
                     ++ match d with
                        | [] => []
                        | _ => u ", " ++ join (u ", ") (map member d)
                        end).
    { cbn [map]. destruct d as [|kv3 d'].
      - cbn [join map]. rewrite member_eq. now rewrite app_nil_r.
      - cbn [map]. rewrite join_two, member_eq.
        cbn [app]. f_equal. rewrite <- app_assoc. reflexivity. }
    pose proof Hn as Hn'. rewrite Ej. cbn [app].
    rewrite skip_ws_head by reflexivity.
    change (c_quote =? c_rbrace)%N with false.
    change (c_quote =? c_quote)%N with true. cbv iota.
    rewrite <- !app_assoc. cbn [app]. rewrite <- !app_assoc.
    apply (object_loop d k v [] n rest); try assumption.
    + cbn [app]. now apply nodup_keys_NoDup.
    + lia.
Qed.

Lemma skip_ws_ends a c :
  is_json_ws c = false -> skip_ws (a ++ [c]) <> [].
Proof.
  intros Hc. induction a as [|x a IH]; cbn [app skip_ws].
  - rewrite Hc. discriminate.
  - destruct (is_json_ws x); [exact IH | discriminate].
Qed.

Lemma json_dumps_object_head d :
  exists body, json_dumps (PDict d) = c_lbrace :: body.
Proof. cbn [json_dumps]. eauto. Qed.

Lemma json_loads_extra d mid :
  wf_pyval (PDict d) = true ->
  exists e, json_loads (json_dumps (PDict d) ++ mid ++ [c_rbrace]) = Raise e.
Proof.
  intros Hwf. unfold json_loads.
  destruct (json_dumps_object_head d) as [body E].
  pose proof (scan_once_object d
                (2 * List.length (json_dumps (PDict d) ++ mid ++ [c_rbrace]) + 1)
                (mid ++ [c_rbrace]) Hwf) as H.
  rewrite length_app in H. specialize (H ltac:(lia)).
  rewrite <- length_app in H.
  rewrite E in *. cbn [app] in *.
  change (skip_ws (c_lbrace :: body ++ mid ++ [c_rbrace]))
    with (c_lbrace :: body ++ mid ++ [c_rbrace]).
  change (match c_lbrace :: body ++ mid ++ [c_rbrace] with
          | 65279%N :: _ =>
              raise JSONDecodeError
                    "Unexpected UTF-8 BOM (decode using utf-8-sig)"
          | _ => ?x
          end) with x.
  rewrite H. cbn [bind].
  pose proof (skip_ws_ends mid c_rbrace eq_refl) as Hne.
  destruct (skip_ws (mid ++ [c_rbrace])); [congruence|].
  eexists. reflexivity.
Qed.

(** X21. The candidate runs to the last closing brace of the answer: when a
    complete object, written as [json.dumps] writes it, is followed by any
    text that holds a later closing brace, the object is not used, whatever
    it holds, and the interpretation is the fallback built from the whole
    answer. *)
Theorem later_brace_discards_the_object pre d mid post :
  wf_pyval (PDict d) = true ->
  ~ In c_lbrace pre -> ~ In c_rbrace post ->
  Main.interpret_response
    (Some (pre ++ json_dumps (PDict d) ++ mid ++ c_rbrace :: post))
  = Ok (fallback_analysis
          (pre ++ json_dumps (PDict d) ++ mid ++ c_rbrace :: post)).
Proof.
  intros Hwf Hpre Hpost.
  destruct (json_dumps_object_head d) as [body E].
  destruct (json_loads_extra d mid Hwf) as [e He].
  rewrite interpret_response_cases.
  rewrite E in *. cbn [app] in *.
  replace (pre ++ c_lbrace :: body ++ mid ++ c_rbrace :: post)
    with (pre ++ c_lbrace :: (body ++ mid) ++ c_rbrace :: post)
    by (now rewrite <- app_assoc).
  destruct (json_candidate_noise pre (body ++ mid) post Hpre Hpost) as [-> ->].
  rewrite <- app_assoc. rewrite He. reflexivity.
Qed.

Lemma later_brace_discards_the_object_witness :
  Main.interpret_response
    (Some (u "Resultado: "
             ++ json_dumps (PDict [(k_tendencia, PStr (u "estable"))])
             ++ u " (ver {nota" ++ c_rbrace :: u ")"))
  = Ok (fallback_analysis
          (u "Resultado: "
             ++ json_dumps (PDict [(k_tendencia, PStr (u "estable"))])
             ++ u " (ver {nota" ++ c_rbrace :: u ")")).
Proof.
  apply (later_brace_discards_the_object (u "Resultado: ")
           [(k_tendencia, PStr (u "estable"))] (u " (ver {nota") (u ")")).
  - vm_compute. reflexivity.
  - vm_compute. intuition discriminate.
  - vm_compute. intuition discriminate.
Defined.

(** ** Waiting tasks, and rows that cannot be decoded *)

Lemma analizar_appends rs c db now :
  Main.client rs = Some c ->
  (5 <= List.length (Main.flujo_registros db))%nat ->
  exists row,
    Main.tendencias (snd (Main.analizar_datos_flujo rs db now))
    = Main.tendencias db ++ [row]
    /\ Main.ten_fecha row = now
    /\ Main.flujo_registros (snd (Main.analizar_datos_flujo rs db now))
       = Main.flujo_registros db
    /\ Main.records_since_last_analysis
         (snd (Main.analizar_datos_flujo rs db now)) = 0
    /\ Main.pending_analysis (snd (Main.analizar_datos_flujo rs db now))
       = false.
Proof.
  intros Hc Hn. rewrite (analizar_con_cliente rs c db now Hc Hn).
  cbn [snd Main.guardar_analisis_tendencia Main.tendencias
       Main.flujo_registros Main.records_since_last_analysis
       Main.pending_analysis].
  eexists. split; [reflexivity|]. repeat split.
Qed.

(** X22. The analysis task does not test the pending flag: with a client
    whose answers the storage binding accepts and at least five readings
    stored, each waiting task that runs stores one more trend, stamped with
    its own clock reading, so k tasks run one after the other leave k trends;
    the counter and the flag are reset by the first of them. *)
Theorem waiting_tasks_each_store_a_trend nows : forall s c,
  Main.client (Main.reasoning_system s) = Some c ->
  storable_answers c ->
  (5 <= List.length (Main.flujo_registros (Main.db_manager s)))%nat ->
  (List.length nows <= Main.background s)%nat ->
  map Main.ten_fecha
      (Main.tendencias
         (Main.db_manager (Main.run s (map Main.RunTask nows))))
  = map Main.ten_fecha (Main.tendencias (Main.db_manager s)) ++ nows
  /\ Main.background (Main.run s (map Main.RunTask nows))
     = (Main.background s - List.length nows)%nat
  /\ (nows <> [] ->
      Main.records_since_last_analysis
        (Main.db_manager (Main.run s (map Main.RunTask nows))) = 0
      /\ Main.necesita_analisis
           (Main.db_manager (Main.run s (map Main.RunTask nows))) = false).
Proof.
  induction nows as [|now nows IH]; intros s c Hc Hst Hn Hb.
  - cbn [map Main.run fold_left List.length]. rewrite app_nil_r, Nat.sub_0_r.
    split; [reflexivity|]. split; [reflexivity | congruence].
  - cbn [map]. rewrite run_cons. cbn [List.length] in *.
    destruct (Main.background s) as [|k] eqn:Eb; [lia|].
    destruct (analizar_appends (Main.reasoning_system s) c (Main.db_manager s)
                now Hc Hn) as (row & Ht & Hf & Hr & Hcnt & Hp).
    assert (E : Main.step s (Main.RunTask now)
                = Main.mkService
                    (snd (Main.analizar_datos_flujo (Main.reasoning_system s)
                            (Main.db_manager s) now))
                    (Main.reasoning_system s) k).
    { cbn [Main.step]. rewrite Eb.
      now destruct (Main.analizar_datos_flujo _ _ _). }
    rewrite E.
    set (s1 := Main.mkService _ _ k).
    destruct (IH s1 c Hc Hst) as (I1 & I2 & I3);
      [subst s1; cbn [Main.db_manager]; now rewrite Hr
      | subst s1; cbn [Main.background]; lia|].
    rewrite I1, I2. subst s1. cbn [Main.db_manager Main.background] in *.
    rewrite Ht, map_app, <- app_assoc. cbn [map app]. rewrite Hf.
    split; [reflexivity|]. split; [reflexivity|]. intros _.
    destruct nows as [|n2 nows']; [|apply I3; discriminate].
    cbn [map Main.run fold_left Main.db_manager].
    unfold Main.necesita_analisis. now rewrite Hcnt, Hp.
Qed.

Lemma waiting_tasks_each_store_a_trend_witness :
  map Main.ten_fecha
      (Main.tendencias
         (Main.db_manager
            (Main.run
               (Main.mkService sample_db (sample_system failing_client) 2)
               (map Main.RunTask
                    [u "2024-05-01T10:00:06"; u "2024-05-01T10:00:07"]))))
  = map Main.ten_fecha
        (Main.tendencias
           (Main.db_manager
              (Main.mkService sample_db (sample_system failing_client) 2)))
      ++ [u "2024-05-01T10:00:06"; u "2024-05-01T10:00:07"].
Proof.
  apply (waiting_tasks_each_store_a_trend
           [u "2024-05-01T10:00:06"; u "2024-05-01T10:00:07"]
           (Main.mkService sample_db (sample_system failing_client) 2)
           failing_client).
  - reflexivity.
  - intros m p g. vm_compute. reflexivity.
  - vm_compute. lia.
  - vm_compute. lia.
Defined.

Lemma map_res_first_failure {A B} (f : A -> res B) l x e :
  In x l -> f x = Raise e ->
  exists pre y post e',
    l = pre ++ y :: post
    /\ Forall (fun a => exists b, f a = Ok b) pre
    /\ f y = Raise e'
    /\ Main.map_res f l = Raise e'.
Proof.
  induction l as [|a l IH]; intros Hin Hx; [destruct Hin|].
  cbn [Main.map_res]. destruct (f a) as [b|ea] eqn:Ea.
  - destruct Hin as [->|Hin]; [congruence|].
    destruct (IH Hin Hx) as (pre & y & post & e' & -> & Hpre & Hy & ->).
    exists (a :: pre), y, post, e'. cbn [bind].
    repeat split; [|exact Hy]. constructor; [now exists b | exact Hpre].
  - exists [], a, l, ea. cbn [bind]. repeat split; [constructor | exact Ea].
Qed.

(** X23. On a table whose rows carry distinct dates, one stored payload
    that [json.loads] rejects, among the rows that a limit fitting in 64 bits
    selects, makes [obtener_ultimas_tendencias] fail as a whole: the call
    raises what [json.loads] raised on the first selected row whose payload
    it rejects, and no partial list is returned. *)
Theorem undecodable_row_fails_the_listing db limite t s e :
  int64 limite = true ->
  NoDup (map Main.ten_fecha (Main.tendencias db)) ->
  In t (limit_offset limite 0
          (order_by_desc Main.ten_fecha (Main.tendencias db))) ->
  Main.ten_detalles t = Some s -> s <> [] -> json_loads s = Raise e ->
  exists pre y post e',
    limit_offset limite 0 (order_by_desc Main.ten_fecha (Main.tendencias db))
    = pre ++ y :: post
    /\ Forall readable pre
    /\ Main.leer_detalles (Main.ten_detalles y) = Raise e'
    /\ Main.obtener_ultimas_tendencias db limite = Raise e'.
Proof.
  intros _ _ Hin Hd Hs He. unfold Main.obtener_ultimas_tendencias.
  set (f := fun t0 : Main.Tendencia => _).
  assert (Hf : f t = Raise e).
  { subst f. cbv beta. rewrite Hd. unfold Main.leer_detalles.
    destruct s; [congruence|]. now rewrite He. }
  destruct (map_res_first_failure f _ t e Hin Hf)
    as (pre & y & post & e' & El & Hpre & Hy & ->).
  exists pre, y, post, e'. split; [exact El|]. split; [|split; [|reflexivity]].
  - apply Forall_forall. intros a Ha.
    destruct (proj1 (Forall_forall _ _) Hpre a Ha) as [b Hb].
    subst f. cbv beta in Hb. unfold readable.
    destruct (Main.leer_detalles (Main.ten_detalles a)) as [v|e2];
      [now exists v | discriminate].
  - subst f. cbv beta in Hy.
    destruct (Main.leer_detalles (Main.ten_detalles y)) as [v|e2];
      [discriminate | cbn [bind] in Hy; now injection Hy as <-].
Qed.

Lemma undecodable_row_fails_the_listing_witness :
  exists pre y post e',
    limit_offset 5 0
      (order_by_desc Main.ten_fecha
         (Main.tendencias
            (Main.init_db []
               [Main.mkTendencia 1 (u "2024-05-01T09:00:00") (PStr (u "x"))
                  (PStr (u "estable")) (PStr (u "ok")) (PInt 0)
                  (Some (u "{roto"))])))
    = pre ++ y :: post
    /\ Forall readable pre
    /\ Main.leer_detalles (Main.ten_detalles y) = Raise e'
    /\ Main.obtener_ultimas_tendencias
         (Main.init_db []
            [Main.mkTendencia 1 (u "2024-05-01T09:00:00") (PStr (u "x"))
               (PStr (u "estable")) (PStr (u "ok")) (PInt 0)
               (Some (u "{roto"))]) 5
       = Raise e'.
Proof.
  apply (undecodable_row_fails_the_listing
           (Main.init_db []
              [Main.mkTendencia 1 (u "2024-05-01T09:00:00") (PStr (u "x"))
                 (PStr (u "estable")) (PStr (u "ok")) (PInt 0)
                 (Some (u "{roto"))]) 5
           (Main.mkTendencia 1 (u "2024-05-01T09:00:00") (PStr (u "x"))
              (PStr (u "estable")) (PStr (u "ok")) (PInt 0)
              (Some (u "{roto")))
           (u "{roto")
           (mkExn JSONDecodeError
                  (u "Expecting property name enclosed in double quotes"))).
  - reflexivity.
  - repeat constructor. intros [].
  - vm_compute. left. reflexivity.
  - reflexivity.
  - vm_compute. discriminate.
  - vm_compute. reflexivity.
Defined.
